(** * Scoring and projection engine of the asset tracker

    A shallow embedding of the analysis functions of [crypto_tracker.py]
    ([calculate_scarcity_score], [predict_time_to_target],
    [generate_final_analysis], [analyze_network_growth],
    [analyze_stock_growth_and_time], [generate_stock_final_analysis])
    together with the properties stated about them.

    Conventions of the model.
    - A Python number (an [int] or a finite [float] decoded from JSON) is a
      rational of [Q].  The functions are first read with exact operations:
      [math.log] and [math.sqrt] are the real functions [ln] and [sqrt],
      applied to the image of the rational in [R].
    - The scarcity scorer, the two projections and the stock scorer are
      read a second time over an [arithmetic], a record of the operations
      on numbers they use.  The exact operations are one instance; the
      operations of Python's floats (IEEE 754 binary64, each result rounded
      to the nearest float) are another.  A property that rounding can
      change is stated for every arithmetic, or for the binary64 one.
    - A value read from a provider's dictionary is a number or [None].
    - A function that may raise returns an [outcome]. *)

From Stdlib Require Import ZArith QArith Qabs Qround Qpower Qreals Reals Psatz Lia.
From Stdlib Require Import List String Ascii Bool DecimalString DecimalPos.
Import ListNotations.

Local Open Scope string_scope.
Local Open Scope Z_scope.

(** ** Exceptions and results *)

Inductive exn : Type :=
| TypeError
| ZeroDivisionError
| ValueError.

Inductive outcome (A : Type) : Type :=
| Ret (a : A)
| Raise (e : exn).

Arguments Ret {A} a.
Arguments Raise {A} e.

Definition bind {A B : Type} (m : outcome A) (k : A -> outcome B) : outcome B :=
  match m with
  | Ret a => k a
  | Raise e => Raise e
  end.

Notation "x <- m ;; k" := (bind m (fun x => k))
  (at level 61, m at next level, right associativity).

(** [try: body except ValueError: return handler] *)
Definition except_ValueError {A : Type} (body : outcome A) (handler : A) : outcome A :=
  match body with
  | Raise ValueError => Ret handler
  | other => other
  end.

(** ** Python values held by the provider dictionaries *)

Inductive value : Type :=
| VNone
| VNum (q : Q).

(** [d.get(key, default)]: the field is [None] when the key is missing. *)
Definition dict_get (field : option value) (default : value) : value :=
  match field with
  | Some v => v
  | None => default
  end.

Definition Qlt_bool (a b : Q) : bool := negb (Qle_bool b a).

(** Truth value of [v] in a condition: [None] and [0] are false. *)
Definition truthy (v : value) : bool :=
  match v with
  | VNone => false
  | VNum q => negb (Qeq_bool q 0)
  end.

(** [v == n]: [None] equals no number. *)
Definition py_eq (v : value) (n : Q) : bool :=
  match v with
  | VNone => false
  | VNum q => Qeq_bool q n
  end.

(** [v > n], [v < n]: ordering [None] against a number raises. *)
Definition py_gt (v : value) (n : Q) : outcome bool :=
  match v with
  | VNone => Raise TypeError
  | VNum q => Ret (Qlt_bool n q)
  end.

Definition py_lt (v : value) (n : Q) : outcome bool :=
  match v with
  | VNone => Raise TypeError
  | VNum q => Ret (Qlt_bool q n)
  end.

(** [a / b] on numbers. *)
Definition num_div (a b : Q) : outcome Q :=
  if Qeq_bool b 0 then Raise ZeroDivisionError else Ret (a / b)%Q.

(** [a / b] on values. *)
Definition py_div (a b : value) : outcome Q :=
  match a, b with
  | VNum x, VNum y => num_div x y
  | _, _ => Raise TypeError
  end.

(** [n * v] for a number [n]. *)
Definition py_mul (n : Q) (v : value) : outcome Q :=
  match v with
  | VNum q => Ret (n * q)%Q
  | VNone => Raise TypeError
  end.

(** ** Rounding and number formatting *)

(** Nearest integer to [f + r], ties to the even one, where [f] is the
    integer part and [c] compares the fractional part [r] with 1/2. *)
Definition half_even (f : Z) (c : comparison) : Z :=
  match c with
  | Lt => f
  | Gt => f + 1
  | Eq => if Z.even f then f else f + 1
  end.

(** [round(x)] of a number: an [int], ties to even. *)
Definition py_round (x : Q) : Z :=
  let f := Qfloor x in
  half_even f (Qcompare (x - inject_Z f) (1 # 2)).

Definition Rcompare_half (r : R) : comparison :=
  if Rlt_dec r (1 / 2) then Lt else if Rlt_dec (1 / 2) r then Gt else Eq.

Definition R_round (x : R) : Z :=
  let f := Int_part x in
  half_even f (Rcompare_half (x - IZR f)).

Definition show_Z (n : Z) : string := NilZero.string_of_int (Z.to_int n).

Fixpoint zeros (k : nat) : string :=
  match k with
  | O => ""
  | S k' => String "0" (zeros k')
  end.

(** The last [d] decimal digits of [n], padded with zeros on the left. *)
Definition frac_digits (d : nat) (n : Z) : string :=
  let s := show_Z (n mod 10 ^ Z.of_nat d) in
  zeros (d - String.length s) ++ s.

(** Thousands separators of the [,] format option. *)
Fixpoint group_thousands (fuel : nat) (n : Z) : string :=
  match fuel with
  | O => show_Z n
  | S fuel' =>
      if (n <? 1000)%Z then show_Z n
      else group_thousands fuel' (n / 1000) ++ "," ++ frac_digits 3 n
  end.

Definition int_digits (grouped : bool) (n : Z) : string :=
  if grouped then group_thousands (String.length (show_Z n)) n else show_Z n.

(** Fixed-point rendering with [d] decimals of a magnitude already scaled
    by [10^d] and rounded to the integer [n]; [neg] is the sign of the
    number formatted (so that a small negative number prints as [-0.00]). *)
Definition render_fixed (grouped : bool) (d : nat) (neg : bool) (n : Z) : string :=
  (if neg then "-" else "") ++
  int_digits grouped (n / 10 ^ Z.of_nat d) ++ "." ++ frac_digits d n.

(** [f"{x:.df}"] and [f"{x:,.df}"] of a number. *)
Definition format_f (grouped : bool) (d : nat) (x : Q) : string :=
  render_fixed grouped d (Qlt_bool x 0)
    (py_round (Qabs x * inject_Z (10 ^ Z.of_nat d))).

(** [f"{x:.df}"] of the result of [math.log] or [math.sqrt]. *)
Definition format_f_R (d : nat) (x : R) : string :=
  render_fixed false d (if Rlt_dec x 0 then true else false)
    (R_round (Rabs x * IZR (10 ^ Z.of_nat d))).

(** ** Market snapshot *)

(** The [market_data] dictionary of a coin.  [market_cap] and
    [current_price] stand for the [usd] entry of the nested dictionary of
    that name; they are [None] when the nested dictionary or its [usd] entry
    is missing, which the source reads as [0] in both cases. *)
Record market_data : Type := {
  max_supply : option value;
  circulating_supply : option value;
  market_cap : option value;
  current_price : option value
}.

(** ** Scarcity *)

Definition calculate_scarcity_score (md : market_data) : outcome (Z * string) :=
  let max_supply := dict_get (max_supply md) VNone in
  let circulating_supply := dict_get (circulating_supply md) VNone in
  if negb (truthy max_supply) || py_eq max_supply 0 then
    Ret (0, "Indeterminate (No defined max supply)")
  else
    ratio <- py_div circulating_supply max_supply ;;
    let percentage_circulated := (ratio * 100)%Q in
    let score := py_round (percentage_circulated / 10) in
    Ret (score,
         format_f false 2 percentage_circulated ++ "% of max supply is in circulation.").

(** ** Growth rates of a historical series *)

(** The loop over consecutive pairs [(prev, curr)] of the series: a pair
    whose [prev] is not positive is skipped.  The source writes this loop out
    in each of the four functions that use it; [values] is the list of the
    values it reads ([historical_caps[i][1]], or [historical_prices[i]]). *)
Fixpoint daily_growth_rates (values : list Q) : list Q :=
  match values with
  | prev :: (curr :: _) as rest =>
      if Qlt_bool 0 prev
      then ((curr - prev) / prev)%Q :: daily_growth_rates rest
      else daily_growth_rates rest
  | _ => []
  end.

(** [sum(rates) / len(rates)], for a non-empty list. *)
Definition average (rates : list Q) : Q :=
  (fold_left Qplus rates 0 / inject_Z (Z.of_nat (List.length rates)))%Q.

Definition is_empty {A : Type} (l : list A) : bool :=
  match l with
  | [] => true
  | _ :: _ => false
  end.

(** [len(series)] of a series that may be [None]. *)
Definition series_items {A : Type} (series : option (list A)) : outcome (list A) :=
  match series with
  | Some l => Ret l
  | None => Raise TypeError
  end.

(** ** Time to target *)

(** [math.log]: defined on positive numbers only. *)
Definition math_log (x : Q) : outcome R :=
  if Qlt_bool 0 x then Ret (ln (Q2R x)) else Raise ValueError.

Definition real_div (a b : R) : outcome R :=
  if Req_dec_T b 0 then Raise ZeroDivisionError else Ret (a / b)%R.

(** The chain of tests on [days_to_target]; [over25] is the message of the
    first branch, the only place where the two projections differ. *)
Definition time_string (over25 : string) (days_to_target : R) : string :=
  if Rlt_dec (365 * 25) days_to_target then over25
  else if Rlt_dec 365 days_to_target then
    "Approx. " ++ format_f_R 1 (days_to_target / 365) ++ " years"
  else if Rlt_dec 30 days_to_target then
    "Approx. " ++ format_f_R 1 (days_to_target / 30) ++ " months"
  else
    "Approx. " ++ format_f_R 1 days_to_target ++ " days".

Section Projection.

(** The logarithm is a parameter of the projections, so that a statement
    can say that a result does not depend on it. *)
Variable log : Q -> outcome R.

(** [math.log(target / current) / math.log(1 + avg_daily_growth)] *)
Definition days_to_target_with (current target avg_daily_growth : Q) : outcome R :=
  ratio <- num_div target current ;;
  numerator <- log ratio ;;
  denominator <- log (1 + avg_daily_growth)%Q ;;
  real_div numerator denominator.

Definition predict_time_to_target_with
    (historical_caps : option (list (Q * Q)))
    (current_market_cap target_market_cap : Q) : outcome string :=
  if Qle_bool target_market_cap current_market_cap then
    Ret "Target price is at or below the current price."
  else
    caps <- series_items historical_caps ;;
    let rates := daily_growth_rates (map snd caps) in
    if is_empty rates then
      Ret "Not enough historical data to calculate growth rate."
    else
      let avg_daily_growth := average rates in
      if Qle_bool avg_daily_growth 0 then
        Ret "Historical growth rate is zero or negative. Target may not be reached on this trajectory."
      else
        except_ValueError
          (days_to_target <-
             days_to_target_with current_market_cap target_market_cap avg_daily_growth ;;
           Ret (time_string "Over 25 years at current growth rate." days_to_target))
          "Could not compute a time estimate due to a mathematical error (e.g., log of negative number).".

Definition analyze_stock_growth_and_time_with
    (historical_prices : option (list Q))
    (current_price target_price : Q) : outcome (string * string) :=
  if Qle_bool target_price current_price then
    Ret ("Target is at or below current price.", "N/A")
  else
    prices <- series_items historical_prices ;;
    let rates := daily_growth_rates prices in
    if is_empty rates then
      Ret ("Not enough data for prediction.", "N/A")
    else
      let avg_daily_growth := average rates in
      if Qle_bool avg_daily_growth 0 then
        Ret ("Negative historical growth.", "N/A")
      else
        required_growth <- num_div target_price current_price ;;
        except_ValueError
          (numerator <- log required_growth ;;
           denominator <- log (1 + avg_daily_growth)%Q ;;
           days_to_target <- real_div numerator denominator ;;
           Ret (time_string "Over 25 years" days_to_target,
                format_f false 2 required_growth ++ "x"))
          ("Could not compute time estimate.", "N/A").

End Projection.

Definition predict_time_to_target := predict_time_to_target_with math_log.

Definition analyze_stock_growth_and_time := analyze_stock_growth_and_time_with math_log.

(** ** The computations over an arithmetic *)

(** The operations on numbers of the scarcity scorer, of the two projections
    and of the growth step of the stock scorer: [a_const] is the number that
    a decimal literal of the source denotes; [a_sub], [a_add], [a_mul] and
    [a_div] are [-], [+], [*] and [/] on two numbers (with a divisor that is
    not zero); [a_sum] is [sum] on a list of numbers; [a_log] is
    [math.log]; [a_quot] is [/] on a result of [math.log] and a divisor that
    is not zero.  The comparisons of numbers, [round] and the formats are
    exact in floating point as well, and are not part of the record. *)
Record arithmetic : Type := {
  a_const : Q -> Q;
  a_sub : Q -> Q -> Q;
  a_add : Q -> Q -> Q;
  a_mul : Q -> Q -> Q;
  a_div : Q -> Q -> Q;
  a_sum : list Q -> Q;
  a_log : Q -> outcome R;
  a_quot : R -> R -> R
}.

(** The operations of the definitions above. *)
Definition exact_arithmetic (log : Q -> outcome R) : arithmetic :=
  {| a_const := fun literal => literal;
     a_sub := Qminus; a_add := Qplus; a_mul := Qmult; a_div := Qdiv;
     a_sum := fun rates => fold_left Qplus rates 0%Q;
     a_log := log; a_quot := Rdiv |}.

(** [2 ^ e] for an integer [e]. *)
Definition pow2 (e : Z) : Q :=
  if 0 <=? e then inject_Z (2 ^ e) else 1 # Z.to_pos (2 ^ (- e)).

(** The integer [k] with [2 ^ k <= m < 2 ^ (k + 1)], for a positive [m]. *)
Definition binade (m : Q) : Z :=
  let k := Z.log2 (Qnum m) - Z.log2 (Zpos (Qden m)) in
  if Qle_bool (pow2 k) m then k else k - 1.

(** The float nearest to [x], ties to the even significand: the rounding of
    IEEE 754 binary64 (53 bits of significand) on the normal range; overflow
    and subnormal numbers are not modelled. *)
Definition round64 (x : Q) : Q :=
  if Qeq_bool x 0 then 0%Q
  else
    let m := Qabs x in
    let ulp := pow2 (binade m - 52) in
    let significand := inject_Z (py_round (m / ulp)) in
    Qred (if Qlt_bool x 0 then - (significand * ulp) else significand * ulp)%Q.

(** [sum] on floats, by additions from the left, each of them rounded: the
    [sum] of CPython up to 3.11.  From 3.12 on [sum] also carries a
    correction of the rounding errors; it returns the same float for two
    numbers. *)
Definition float_sum (rates : list Q) : Q :=
  fold_left (fun total rate => round64 (total + rate)) rates 0%Q.

(** The operations of Python's floats on numbers that are floats already:
    the exact result, rounded; a decimal literal denotes the float nearest
    to it.  The [sum], the logarithm of the C library and the division of
    two logarithms are parameters. *)
Definition binary64 (sum : list Q -> Q) (log : Q -> outcome R) (quot : R -> R -> R)
    : arithmetic :=
  {| a_const := round64;
     a_sub := fun a b => round64 (a - b);
     a_add := fun a b => round64 (a + b);
     a_mul := fun a b => round64 (a * b);
     a_div := fun a b => round64 (a / b);
     a_sum := sum;
     a_log := log;
     a_quot := quot |}.

Section Arithmetic.

Variable A : arithmetic.

(** The loop over consecutive pairs, as in [daily_growth_rates]. *)
Fixpoint growth_rates_in (values : list Q) : list Q :=
  match values with
  | prev :: (curr :: _) as rest =>
      if Qlt_bool 0 prev
      then a_div A (a_sub A curr prev) prev :: growth_rates_in rest
      else growth_rates_in rest
  | _ => []
  end.

(** [sum(rates) / len(rates)] *)
Definition average_in (rates : list Q) : Q :=
  a_div A (a_sum A rates) (inject_Z (Z.of_nat (List.length rates))).

(** [a / b] on numbers. *)
Definition div_in (a b : Q) : outcome Q :=
  if Qeq_bool b 0 then Raise ZeroDivisionError else Ret (a_div A a b).

(** [a / b] on values. *)
Definition py_div_in (a b : value) : outcome Q :=
  match a, b with
  | VNum x, VNum y => div_in x y
  | _, _ => Raise TypeError
  end.

(** The scarcity scorer. *)
Definition calculate_scarcity_score_in (md : market_data) : outcome (Z * string) :=
  let max_supply := dict_get (max_supply md) VNone in
  let circulating_supply := dict_get (circulating_supply md) VNone in
  if negb (truthy max_supply) || py_eq max_supply 0 then
    Ret (0, "Indeterminate (No defined max supply)")
  else
    ratio <- py_div_in circulating_supply max_supply ;;
    let percentage_circulated := a_mul A ratio 100 in
    let score := py_round (a_div A percentage_circulated 10) in
    Ret (score,
         format_f false 2 percentage_circulated ++ "% of max supply is in circulation.").

(** [a / b] on results of [math.log]. *)
Definition quot_in (a b : R) : outcome R :=
  if Req_dec_T b 0 then Raise ZeroDivisionError else Ret (a_quot A a b).

Definition time_string_in (over25 : string) (days_to_target : R) : string :=
  if Rlt_dec (365 * 25) days_to_target then over25
  else if Rlt_dec 365 days_to_target then
    "Approx. " ++ format_f_R 1 (a_quot A days_to_target 365) ++ " years"
  else if Rlt_dec 30 days_to_target then
    "Approx. " ++ format_f_R 1 (a_quot A days_to_target 30) ++ " months"
  else
    "Approx. " ++ format_f_R 1 days_to_target ++ " days".

(** [math.log(target / current) / math.log(1 + avg_daily_growth)] *)
Definition days_to_target_in (current target avg_daily_growth : Q) : outcome R :=
  ratio <- div_in target current ;;
  numerator <- a_log A ratio ;;
  denominator <- a_log A (a_add A 1 avg_daily_growth) ;;
  quot_in numerator denominator.

Definition predict_time_to_target_in
    (historical_caps : option (list (Q * Q)))
    (current_market_cap target_market_cap : Q) : outcome string :=
  if Qle_bool target_market_cap current_market_cap then
    Ret "Target price is at or below the current price."
  else
    caps <- series_items historical_caps ;;
    let rates := growth_rates_in (map snd caps) in
    if is_empty rates then
      Ret "Not enough historical data to calculate growth rate."
    else
      let avg_daily_growth := average_in rates in
      if Qle_bool avg_daily_growth 0 then
        Ret "Historical growth rate is zero or negative. Target may not be reached on this trajectory."
      else
        except_ValueError
          (days_to_target <-
             days_to_target_in current_market_cap target_market_cap avg_daily_growth ;;
           Ret (time_string_in "Over 25 years at current growth rate." days_to_target))
          "Could not compute a time estimate due to a mathematical error (e.g., log of negative number).".

Definition analyze_stock_growth_and_time_in
    (historical_prices : option (list Q))
    (current_price target_price : Q) : outcome (string * string) :=
  if Qle_bool target_price current_price then
    Ret ("Target is at or below current price.", "N/A")
  else
    prices <- series_items historical_prices ;;
    let rates := growth_rates_in prices in
    if is_empty rates then
      Ret ("Not enough data for prediction.", "N/A")
    else
      let avg_daily_growth := average_in rates in
      if Qle_bool avg_daily_growth 0 then
        Ret ("Negative historical growth.", "N/A")
      else
        required_growth <- div_in target_price current_price ;;
        except_ValueError
          (numerator <- a_log A required_growth ;;
           denominator <- a_log A (a_add A 1 avg_daily_growth) ;;
           days_to_target <- quot_in numerator denominator ;;
           Ret (time_string_in "Over 25 years" days_to_target,
                format_f false 2 required_growth ++ "x"))
          ("Could not compute time estimate.", "N/A").

End Arithmetic.

(** ** Composite scorers *)

(** The running [score] and [reasons] of a composite scorer. *)
Definition tally : Type := (Z * list string)%type.

Definition add (points : Z) (reason : string) (t : tally) : tally :=
  (fst t + points, (snd t ++ [reason])%list).

(** [score = max(0, min(100, score))] *)
Definition clamp (score : Z) : Z := Z.max 0 (Z.min 100 score).

(** [str.lower] on the ASCII letters. *)
Definition lower_ascii (c : ascii) : ascii :=
  let n := nat_of_ascii c in
  if (65 <=? n)%nat && (n <=? 90)%nat then ascii_of_nat (n + 32) else c.

Fixpoint lower (s : string) : string :=
  match s with
  | EmptyString => EmptyString
  | String c s' => String (lower_ascii c) (lower s')
  end.

Definition halving_assets : list string := ["btc"; "ltc"; "kas"; "bch"].

Definition in_list (s : string) (l : list string) : bool :=
  existsb (String.eqb s) l.

(** *** Crypto *)

(** 1. Scarcity analysis. *)
Definition crypto_scarcity (md : market_data) (t : tally) : outcome tally :=
  result <- calculate_scarcity_score md ;;
  let scarcity_score := fst result in
  let t := (fst t + scarcity_score * 4, snd t) in
  if 8 <=? scarcity_score then
    Ret (add 0 "[+] Strong Scarcity: Asset has a fixed supply, similar to Bitcoin." t)
  else if 5 <=? scarcity_score then
    Ret (add 0 "[~] Moderate Scarcity: Asset has a defined supply but much is yet to be released." t)
  else
    Ret (add 0 "[-] Weak Scarcity: Asset is inflationary or has no defined max supply." t).

(** 2. Network growth analysis. *)
Definition crypto_growth (md : market_data) (historical_caps : option (list (Q * Q)))
    (t : tally) : outcome tally :=
  let current_market_cap := dict_get (market_cap md) (VNum 0) in
  let no_growth := Ret (add 0 "[-] Could not determine network growth." t) in
  match historical_caps with
  | None | Some [] => no_growth
  | Some caps =>
      positive <- py_gt current_market_cap 0 ;;
      if positive then
        let rates := daily_growth_rates (map snd caps) in
        if is_empty rates then Ret t
        else
          let avg_daily_growth := average rates in
          if Qlt_bool (5 # 1000) avg_daily_growth then
            Ret (add 40 "[+] High Growth: Network value has shown strong positive momentum." t)
          else if Qlt_bool 0 avg_daily_growth then
            Ret (add 20 "[~] Positive Growth: Network value is growing, but slowly." t)
          else
            Ret (add (-20) "[-] Negative Growth: Network value has been declining recently." t)
      else no_growth
  end.

(** 3. Catalyst and market cap modifier. *)
Definition crypto_catalyst (symbol : string) (md : market_data) (t : tally) : outcome tally :=
  let current_market_cap := dict_get (market_cap md) (VNum 0) in
  let t :=
    if in_list (lower symbol) halving_assets then
      add 10 "[+] Built-in Catalyst: Has a supply-reduction event (halving)." t
    else t in
  small <- py_lt current_market_cap 1000000000 ;;
  if small then
    Ret (add 10 "[+] High Reward Potential: Lower market cap allows for more explosive growth." t)
  else
    large <- py_gt current_market_cap 50000000000 ;;
    if large then
      Ret (add (-10) "[-] Limited Upside: Very large market cap may limit exponential returns." t)
    else Ret t.

(** The score and the reasons before clamping. *)
Definition crypto_tally (symbol : string) (md : market_data)
    (historical_caps : option (list (Q * Q))) : outcome tally :=
  t <- crypto_scarcity md (0, []) ;;
  t <- crypto_growth md historical_caps t ;;
  crypto_catalyst symbol md t.

Definition crypto_grade (score : Z) : string * string :=
  if 90 <=? score then
    ("A+", "Exceptional Potential. Displays very strong fundamentals across all key areas.")
  else if 80 <=? score then
    ("A", "Strong Potential. A solid candidate that scores well in most areas.")
  else if 70 <=? score then
    ("B+", "Good Potential. Shows positive signals but may have some weaknesses.")
  else if 60 <=? score then
    ("B", "Moderate Potential. An average candidate that warrants caution.")
  else if 50 <=? score then
    ("C", "Speculative. Lacks a solid foundation in key areas.")
  else
    ("D", "High-Risk. Shows significant red flags in its fundamental data.").

Definition analysis : Type := (string * string * string * list string)%type.

Definition generate_final_analysis (symbol : string) (md : market_data)
    (historical_caps : option (list (Q * Q))) : outcome analysis :=
  t <- crypto_tally symbol md historical_caps ;;
  let score := clamp (fst t) in
  let (grade, summary) := crypto_grade score in
  Ret (show_Z score ++ "/100", grade, summary, snd t).

(** *** Stocks *)

(** The [info] dictionary of a stock, with the one entry the scorer reads. *)
Record stock_info : Type := {
  trailingPE : option value
}.

(** [v] used as a number in an ordering test. *)
Definition as_number (v : value) : outcome Q :=
  match v with
  | VNum q => Ret q
  | VNone => Raise TypeError
  end.

(** 1. Business growth analysis. *)
Definition stock_growth (historical_prices : option (list Q)) (t : tally) : tally :=
  match historical_prices with
  | None | Some [] => add 0 "[-] Could not determine growth." t
  | Some prices =>
      let rates := daily_growth_rates prices in
      if is_empty rates then t
      else
        let avg_daily_growth := average rates in
        if Qlt_bool (3 # 1000) avg_daily_growth then
          add 60 "[+] Strong Growth: Stock has shown strong positive momentum." t
        else if Qlt_bool 0 avg_daily_growth then
          add 30 "[~] Positive Growth: Stock has been growing, but slowly." t
        else
          add (-20) "[-] Negative Growth: Stock price has been declining recently." t
  end.

(** 2. Valuation analysis. *)
Definition stock_valuation (info : stock_info) (t : tally) : outcome tally :=
  let pe_ratio := dict_get (trailingPE info) VNone in
  if truthy pe_ratio then
    pe <- as_number pe_ratio ;;
    if Qlt_bool 0 pe && Qlt_bool pe 15 then
      Ret (add 40 ("[+] Good Value (P/E " ++ format_f false 2 pe ++
                   "): Stock appears undervalued.") t)
    else if Qle_bool 15 pe && Qlt_bool pe 30 then
      Ret (add 20 ("[~] Fair Value (P/E " ++ format_f false 2 pe ++
                   "): Stock seems reasonably priced.") t)
    else
      Ret (add (-10) ("[-] High Valuation (P/E " ++ format_f false 2 pe ++
                      "): Stock appears expensive.") t)
  else
    Ret (add 0 "[?] Unknown Valuation: P/E ratio is not available." t).

Definition stock_grade (score : Z) : string * string :=
  if 85 <=? score then
    ("A", "Strong Buy Candidate. Displays strong growth and good value.")
  else if 70 <=? score then
    ("B+", "Good Candidate. A solid company that scores well.")
  else if 50 <=? score then
    ("B", "Moderate Candidate. Shows potential but warrants caution.")
  else if 40 <=? score then
    ("C", "Speculative. Lacks a solid foundation in key areas.")
  else
    ("D", "High-Risk. Shows significant red flags in its data.").

Definition generate_stock_final_analysis (info : stock_info)
    (historical_prices : option (list Q)) : outcome analysis :=
  t <- stock_valuation info (stock_growth historical_prices (0, [])) ;;
  let score := clamp (fst t) in
  let (grade, summary) := stock_grade score in
  Ret (show_Z score ++ "/100", grade, summary, snd t).

(** *** Stocks, over an arithmetic *)

(** 1. Business growth analysis: the rates, their mean and the literal
    [0.003] are those of the arithmetic. *)
Definition stock_growth_in (A : arithmetic) (historical_prices : option (list Q))
    (t : tally) : tally :=
  match historical_prices with
  | None | Some [] => add 0 "[-] Could not determine growth." t
  | Some prices =>
      let rates := growth_rates_in A prices in
      if is_empty rates then t
      else
        let avg_daily_growth := average_in A rates in
        if Qlt_bool (a_const A (3 # 1000)) avg_daily_growth then
          add 60 "[+] Strong Growth: Stock has shown strong positive momentum." t
        else if Qlt_bool 0 avg_daily_growth then
          add 30 "[~] Positive Growth: Stock has been growing, but slowly." t
        else
          add (-20) "[-] Negative Growth: Stock price has been declining recently." t
  end.

Definition generate_stock_final_analysis_in (A : arithmetic) (info : stock_info)
    (historical_prices : option (list Q)) : outcome analysis :=
  t <- stock_valuation info (stock_growth_in A historical_prices (0, [])) ;;
  let score := clamp (fst t) in
  let (grade, summary) := stock_grade score in
  Ret (show_Z score ++ "/100", grade, summary, snd t).

(** ** Network growth *)

(** A number computed by [analyze_network_growth]: a rational, the real
    result of [math.sqrt], or [float('inf')]. *)
Inductive float : Type :=
| Exact (q : Q)
| Real (r : R)
| Infinity.

Definition float_positive (x : float) : bool :=
  match x with
  | Exact q => Qlt_bool 0 q
  | Real r => if Rlt_dec 0 r then true else false
  | Infinity => true
  end.

Definition math_sqrt (x : float) : outcome float :=
  match x with
  | Exact q => if Qlt_bool q 0 then Raise ValueError else Ret (Real (sqrt (Q2R q)))
  | Real r => if Rlt_dec r 0 then Raise ValueError else Ret (Real (sqrt r))
  | Infinity => Ret Infinity
  end.

(** [f"{x:.2f}"] *)
Definition format_float (d : nat) (x : float) : string :=
  match x with
  | Exact q => format_f false d q
  | Real r => format_f_R d r
  | Infinity => "inf"
  end.

Definition analyze_network_growth (md : market_data) (target_price : Q)
    : outcome (string * string * string) :=
  let current_price := dict_get (current_price md) (VNum 0) in
  let current_market_cap := dict_get (market_cap md) (VNum 0) in
  let circulating_supply := dict_get (circulating_supply md) (VNum 0) in
  if negb (truthy circulating_supply) || py_eq circulating_supply 0
     || py_eq current_price 0 then
    Ret ("N/A", "N/A", "N/A")
  else
    target_market_cap <- py_mul target_price circulating_supply ;;
    positive <- py_gt current_market_cap 0 ;;
    required_growth_multiple <-
      (if positive then
         ratio <- py_div (VNum target_market_cap) current_market_cap ;;
         Ret (Exact ratio)
       else Ret Infinity) ;;
    required_user_growth_multiple <-
      (if float_positive required_growth_multiple
       then math_sqrt required_growth_multiple
       else Ret (Exact 1)) ;;
    Ret ("$" ++ format_f true 2 target_market_cap,
         format_float 2 required_growth_multiple ++ "x",
         format_float 2 required_user_growth_multiple ++ "x").

(** ** Billionaire scenarios *)

Definition analyze_billionaire_scenarios (md : market_data) (target_price : Q)
    : outcome (string * string) :=
  let current_price := dict_get (current_price md) (VNum 0) in
  if py_eq current_price 0 || Qeq_bool target_price 0 then
    Ret ("N/A", "N/A")
  else
    let investment_today := 1000000000%Q in
    coins_bought_today <- py_div (VNum investment_today) current_price ;;
    let value_at_target := (coins_bought_today * target_price)%Q in
    coins_needed_for_billion <- num_div 1000000000 target_price ;;
    cost_today_for_billion <- py_mul coins_needed_for_billion current_price ;;
    Ret ("$" ++ format_f true 2 value_at_target,
         "$" ++ format_f true 2 cost_today_for_billion).

(** ** The map from symbols to coins *)

(** An entry of the coin list of the provider. *)
Record coin : Type := {
  coin_id : string;
  coin_symbol : string;
  coin_name : string
}.

(** A dictionary with string keys, in insertion order. *)
Definition dict (V : Type) : Type := list (string * V).

Fixpoint dict_find {V : Type} (key : string) (d : dict V) : option V :=
  match d with
  | [] => None
  | (k, v) :: rest => if String.eqb key k then Some v else dict_find key rest
  end.

(** [d[key] = v] *)
Fixpoint dict_set {V : Type} (key : string) (v : V) (d : dict V) : dict V :=
  match d with
  | [] => [(key, v)]
  | (k, old) :: rest =>
      if String.eqb key k then (k, v) :: rest else (k, old) :: dict_set key v rest
  end.

(** One turn of the loop of [get_coin_list]. *)
Definition coin_map_add (coin_map : dict (list (string * string))) (c : coin)
    : dict (list (string * string)) :=
  let symbol := lower (coin_symbol c) in
  let coin_map :=
    match dict_find symbol coin_map with
    | None => dict_set symbol [] coin_map
    | Some _ => coin_map
    end in
  match dict_find symbol coin_map with
  | Some entries => dict_set symbol (entries ++ [(coin_id c, coin_name c)])%list coin_map
  | None => coin_map
  end.

(** The [coin_map] that [get_coin_list] builds from the decoded response. *)
Definition get_coin_list (coins : list coin) : dict (list (string * string)) :=
  fold_left coin_map_add coins [].

(** ** The time prediction of the crypto page *)

(** [s.replace(c, '')] for a single character [c]. *)
Fixpoint remove_char (c : ascii) (s : string) : string :=
  match s with
  | EmptyString => EmptyString
  | String a rest =>
      if Ascii.eqb a c then remove_char c rest else String a (remove_char c rest)
  end.

Definition digit_of (c : ascii) : option Z :=
  let n := nat_of_ascii c in
  if (48 <=? n)%nat && (n <=? 57)%nat then Some (Z.of_nat (n - 48)) else None.

(** The number written by a string of decimal digits, after [acc]. *)
Fixpoint digits_acc (s : string) (acc : Z) : option Z :=
  match s with
  | EmptyString => Some acc
  | String c rest =>
      match digit_of c with
      | Some d => digits_acc rest (10 * acc + d)
      | None => None
      end
  end.

(** The text before the first point, and the text after it if there is
    one. *)
Fixpoint split_point (s : string) : string * option string :=
  match s with
  | EmptyString => (EmptyString, None)
  | String c rest =>
      if Ascii.eqb c "." then (EmptyString, Some rest)
      else let (before, after) := split_point rest in (String c before, after)
  end.

(** An optional sign in front of a literal. *)
Definition split_sign (s : string) : bool * string :=
  match s with
  | String "-" rest => (true, rest)
  | String "+" rest => (false, rest)
  | _ => (false, s)
  end.

(** [float(s)] on the fixed-point literals: an optional sign, digits, and
    optionally a point and digits, with a digit on one side at least.  These
    are the literals that the formats [.2f] and [,.2f] produce once the
    separators are removed; the other literals that Python reads (exponents,
    underscores, blanks around, inf and nan) are not modelled and are
    answered here like a malformed literal, by [ValueError]. *)
Definition py_float (s : string) : outcome Q :=
  let (negative, body) := split_sign s in
  let (int_part, after) := split_point body in
  let frac_part := match after with Some f => f | None => EmptyString end in
  if (String.length int_part + String.length frac_part =? 0)%nat then Raise ValueError
  else
    match digits_acc int_part 0, digits_acc frac_part 0 with
    | Some i, Some f =>
        let magnitude :=
          (inject_Z i + inject_Z f / inject_Z (10 ^ Z.of_nat (String.length frac_part)))%Q in
        Ret (if negative then - magnitude else magnitude)%Q
    | _, _ => Raise ValueError
    end.

(** [len(historical_data) > 0] for a series that may be [None]. *)
Definition series_truthy {A : Type} (series : option (list A)) : bool :=
  match series with
  | Some (_ :: _) => true
  | _ => false
  end.

(** The estimate shown by [display_crypto_analysis]: the lines from
    [time_prediction = "N/A"] to the call of [predict_time_to_target], as a
    function of the fetched series, the market cap read from the snapshot
    and the first string returned by [analyze_network_growth]. *)
Definition time_prediction (historical_data : option (list (Q * Q)))
    (market_cap : value) (target_mcap : string) : outcome string :=
  if series_truthy historical_data then
    positive <- py_gt market_cap 0 ;;
    if positive && String.prefix "$" target_mcap then
      target_mcap_float <- py_float (remove_char "," (remove_char "$" target_mcap)) ;;
      current <- as_number market_cap ;;
      predict_time_to_target historical_data current target_mcap_float
    else Ret "N/A"
  else Ret "N/A".

(** * Vocabulary of the statements *)

(** [max_supply] is missing, [None] or zero. *)
Definition no_max_supply (md : market_data) : Prop :=
  match dict_get (max_supply md) VNone with
  | VNone => True
  | VNum m => (m == 0)%Q
  end.

Definition snapshot (max circulating : option value) : market_data :=
  {| max_supply := max; circulating_supply := circulating;
     market_cap := None; current_price := None |}.

(** [s] is [x] written with [d] decimals: the digits of an integer within
    1/2 of [|x| * 10^d], after the sign of [x]. *)
Definition written_with (d : nat) (x : R) (s : string) : Prop :=
  exists n : Z,
    s = render_fixed false d (if Rlt_dec x 0 then true else false) n
    /\ (Rabs (IZR n - Rabs x * IZR (10 ^ Z.of_nat d)) <= 1 / 2)%R.

(** The mean growth rate of a series of values, when it has a usable pair. *)
Definition mean_growth (values : list Q) : option Q :=
  let rates := daily_growth_rates values in
  if is_empty rates then None else Some (average rates).

(** [t = ln(T/C) / ln(1+g)] *)
Definition solution (C T g : Q) : R := (ln (Q2R (T / C)) / ln (Q2R (1 + g)))%R.

(** The mean growth rate of a series of values in the arithmetic [A]. *)
Definition mean_growth_in (A : arithmetic) (values : list Q) : option Q :=
  let rates := growth_rates_in A values in
  if is_empty rates then None else Some (average_in A rates).

(** The thresholds on [t], in order, and the text of each class; the years
    and the months are quotients of the arithmetic [A]. *)
Definition classified (A : arithmetic) (over25 : string) (t : R) (s : string) : Prop :=
  ((365 * 25 < t)%R -> s = over25)
  /\ ((365 < t <= 365 * 25)%R ->
      exists years,
        written_with 1 (a_quot A t 365) years /\ s = "Approx. " ++ years ++ " years")
  /\ ((30 < t <= 365)%R ->
      exists months,
        written_with 1 (a_quot A t 30) months /\ s = "Approx. " ++ months ++ " months")
  /\ ((t <= 30)%R ->
      exists days, written_with 1 t days /\ s = "Approx. " ++ days ++ " days").

(** [math.log] raises nothing but [ValueError]. *)
Definition log_raises_ValueError_only (A : arithmetic) : Prop :=
  forall (x : Q) (e : exn), a_log A x = Raise e -> e = ValueError.

(** A series growing by 1% a day. *)
Definition one_percent_caps : list (Q * Q) :=
  [(0, 100); (1, 101); (2, 10201 # 100)]%Q.

Definition one_percent_prices : list Q := map snd one_percent_caps.

(** The same series as floats: 102.01 is not a float, and is rounded. *)
Definition one_percent_floats : list (Q * Q) :=
  [(0, 100); (1, 101); (2, round64 (10201 # 100))]%Q.

(** [x] is a float: rounding leaves it as it is. *)
Definition is_float (x : Q) : Prop := round64 x = x.

(** [log] is defined on the positive floats and within the relative error
    [eps] of the logarithm. *)
Definition log_within (eps : R) (log : Q -> outcome R) : Prop :=
  forall x : Q, (0 < x)%Q -> is_float x ->
    exists y : R,
      log x = Ret y /\ (Rabs (y - ln (Q2R x)) <= eps * Rabs (ln (Q2R x)))%R.

(** [quot] is within the relative error [eps] of the division, for a
    quotient between 1 and 1000. *)
Definition quot_within (eps : R) (quot : R -> R -> R) : Prop :=
  forall a b : R, b <> 0%R -> (1 <= a / b <= 1000)%R ->
    (Rabs (quot a b - a / b) <= eps * Rabs (a / b))%R.

Definition non_positive_message : string :=
  "Historical growth rate is zero or negative. Target may not be reached on this trajectory.".

(** A series that rises by 10% and by 20% and then falls by 30%: its growth
    rates cancel out. *)
Definition cancelling_caps : list (Q * Q) :=
  [(0, 1000); (1, 1100); (2, 1320); (3, 924)]%Q.

(** The ordered table from score to grade. *)
Definition crypto_table (score : Z) (grade : string) : Prop :=
  (90 <= score -> grade = "A+")
  /\ (80 <= score < 90 -> grade = "A")
  /\ (70 <= score < 80 -> grade = "B+")
  /\ (60 <= score < 70 -> grade = "B")
  /\ (50 <= score < 60 -> grade = "C")
  /\ (score < 50 -> grade = "D").

(** What clamping does to a raw score. *)
Definition clamped (raw score : Z) : Prop :=
  0 <= score <= 100
  /\ (raw < 0 -> score = 0)
  /\ (0 <= raw <= 100 -> score = raw)
  /\ (100 < raw -> score = 100).

(** A coin without max supply, above $50B, whose value has been falling. *)
Definition declining_giant : market_data :=
  {| max_supply := None; circulating_supply := Some (VNum 120000000);
     market_cap := Some (VNum 60000000000); current_price := Some (VNum 500) |}.

Definition declining_caps : list (Q * Q) :=
  [(0, 66000000000); (1, 63000000000); (2, 60000000000)]%Q.

(** A coin of $5B listed a day ago: its series has a single point. *)
Definition new_listing : market_data :=
  {| max_supply := None; circulating_supply := Some (VNum 1000000000);
     market_cap := Some (VNum 5000000000); current_price := Some (VNum 5) |}.

(** [v] is false in a condition: [None] or zero. *)
Definition falsy (v : value) : Prop :=
  match v with
  | VNone => True
  | VNum q => (q == 0)%Q
  end.

(** [v == 0] holds. *)
Definition is_zero (v : value) : Prop :=
  match v with
  | VNone => False
  | VNum q => (q == 0)%Q
  end.

(** The values that [analyze_network_growth] reads. *)
Definition supply_of (md : market_data) : value := dict_get (circulating_supply md) (VNum 0).

Definition price_of (md : market_data) : value := dict_get (current_price md) (VNum 0).

Definition cap_of (md : market_data) : value := dict_get (market_cap md) (VNum 0).


(** Each value is at most its predecessor. *)
Fixpoint non_increasing (values : list Q) : Prop :=
  match values with
  | prev :: (curr :: _) as rest => (curr <= prev)%Q /\ non_increasing rest
  | _ => True
  end.

(** A reason starts with one of the four polarity markers. *)
Definition has_marker (reason : string) : bool :=
  String.prefix "[+] " reason || String.prefix "[~] " reason
  || String.prefix "[-] " reason || String.prefix "[?] " reason.

(** The mean daily growth of the prices is above 0.3%. *)
Definition strong_growth (historical_prices : option (list Q)) : Prop :=
  exists (prices : list Q) (g : Q),
    historical_prices = Some prices /\ mean_growth prices = Some g /\ (3 # 1000 < g)%Q.

(** The mean daily growth of the prices computed in the arithmetic [A] is
    above the number that the literal [0.003] denotes in [A]. *)
Definition strong_growth_in (A : arithmetic) (historical_prices : option (list Q)) : Prop :=
  exists (prices : list Q) (g : Q),
    historical_prices = Some prices /\ mean_growth_in A prices = Some g
    /\ (a_const A (3 # 1000) < g)%Q.

(** The P/E ratio is a number between 0 and 15. *)
Definition good_value (info : stock_info) : Prop :=
  exists pe : Q, trailingPE info = Some (VNum pe) /\ (0 < pe < 15)%Q.

Definition catalyst_line : string :=
  "[+] Built-in Catalyst: Has a supply-reduction event (halving).".

(** The [(id, name)] pairs of the coins whose symbol, in lower case, is
    [key], in the order of the list. *)
Definition coins_with_symbol (key : string) (coins : list coin) : list (string * string) :=
  map (fun c => (coin_id c, coin_name c))
      (filter (fun c => String.eqb (lower (coin_symbol c)) key) coins).

(** The text handed to [float] by the crypto page. *)
Definition without_separators (s : string) : string :=
  remove_char "," (remove_char "$" s).

(** The value of a decimal numeral, digit by digit, after [acc]. *)
Fixpoint uint_value (d : Decimal.uint) (acc : Z) : Z :=
  match d with
  | Decimal.Nil => acc
  | Decimal.D0 l => uint_value l (10 * acc + 0)
  | Decimal.D1 l => uint_value l (10 * acc + 1)
  | Decimal.D2 l => uint_value l (10 * acc + 2)
  | Decimal.D3 l => uint_value l (10 * acc + 3)
  | Decimal.D4 l => uint_value l (10 * acc + 4)
  | Decimal.D5 l => uint_value l (10 * acc + 5)
  | Decimal.D6 l => uint_value l (10 * acc + 6)
  | Decimal.D7 l => uint_value l (10 * acc + 7)
  | Decimal.D8 l => uint_value l (10 * acc + 8)
  | Decimal.D9 l => uint_value l (10 * acc + 9)
  end.

(** [frac_digits d] writes [k] with exactly [d] digits. *)
Definition frac_digits_ok (d : nat) (k : nat) : bool :=
  (String.length (frac_digits d (Z.of_nat k)) =? d)%nat
  && match digits_acc (frac_digits d (Z.of_nat k)) 0 with
     | Some v => v =? Z.of_nat k
     | None => false
     end.

(** The amount [x] in whole cents, as [float] reads it back. *)
Definition read_back (x : Q) : Q :=
  let cents := py_round (Qabs x * 100) in
  let magnitude := (inject_Z (cents / 100) + inject_Z (cents mod 100) / inject_Z 100)%Q in
  if Qlt_bool x 0 then (- magnitude)%Q else magnitude.

(** [sum] keeps rates that are not positive from adding up to a positive
    number. *)
Definition keeps_non_positive (sum : list Q -> Q) : Prop :=
  forall rates : list Q,
    Forall (fun rate => (rate <= 0)%Q) rates -> (sum rates <= 0)%Q.

(** * Properties *)

(** ** Comparisons of rationals *)

Lemma Qlt_bool_true (a b : Q) : Qlt_bool a b = true <-> (a < b)%Q.
Proof.
  unfold Qlt_bool. rewrite negb_true_iff.
  split; intro H.
  - apply Qnot_le_lt. intro Hle. apply Qle_bool_iff in Hle. congruence.
  - destruct (Qle_bool b a) eqn:E; [|reflexivity].
    apply Qle_bool_iff in E. exfalso. exact (Qlt_not_le _ _ H E).
Qed.

Lemma Qlt_bool_false (a b : Q) : Qlt_bool a b = false <-> (b <= a)%Q.
Proof.
  unfold Qlt_bool. rewrite negb_false_iff. apply Qle_bool_iff.
Qed.

Lemma Qeq_bool_false (a b : Q) : Qeq_bool a b = false <-> ~ (a == b)%Q.
Proof.
  split; intro H.
  - intro E. apply Qeq_bool_iff in E. congruence.
  - destruct (Qeq_bool a b) eqn:E; [|reflexivity].
    apply Qeq_bool_iff in E. contradiction.
Qed.

Lemma Qle_bool_false (a b : Q) : Qle_bool a b = false <-> (b < a)%Q.
Proof.
  split; intro H.
  - apply Qnot_le_lt. intro Hle. apply Qle_bool_iff in Hle. congruence.
  - destruct (Qle_bool a b) eqn:E; [|reflexivity].
    apply Qle_bool_iff in E. exfalso. exact (Qlt_not_le _ _ H E).
Qed.

(** ** Rounding *)

Lemma half_even_range (f : Z) (c : comparison) : f <= half_even f c <= f + 1.
Proof.
  unfold half_even. destruct c; [destruct (Z.even f)| |]; lia.
Qed.

(** [round] returns an integer at distance at most 1/2. *)
Lemma py_round_near (x : Q) : (Qabs (inject_Z (py_round x) - x) <= 1 # 2)%Q.
Proof.
  unfold py_round.
  pose proof (Qfloor_le x) as Hlo. pose proof (Qlt_floor x) as Hhi.
  set (f := Qfloor x) in *.
  rewrite inject_Z_plus in Hhi. change (inject_Z 1) with 1%Q in Hhi.
  apply Qabs_Qle_condition.
  destruct (Qcompare_spec (x - inject_Z f) (1 # 2)) as [E|L|G]; cbn [half_even].
  - destruct (Z.even f); [|rewrite inject_Z_plus; change (inject_Z 1) with 1%Q];
      split; lra.
  - split; lra.
  - rewrite inject_Z_plus. change (inject_Z 1) with 1%Q. split; lra.
Qed.

(** [round] stays between integer bounds of its argument. *)
Lemma py_round_between (a b : Z) (x : Q) :
  (inject_Z a <= x <= inject_Z b)%Q -> a <= py_round x <= b.
Proof.
  intros [Ha Hb]. unfold py_round.
  pose proof (Qfloor_le x) as Hlo.
  pose proof (Qfloor_resp_le _ _ Ha) as Hfa. rewrite Qfloor_Z in Hfa.
  pose proof (Qfloor_resp_le _ _ Hb) as Hfb. rewrite Qfloor_Z in Hfb.
  set (f := Qfloor x) in *.
  pose proof (half_even_range f (x - inject_Z f ?= 1 # 2)%Q) as Hr.
  split; [lia|].
  destruct (Z.eq_dec f b) as [->|Hne]; [|lia].
  destruct (Qcompare_spec (x - inject_Z b) (1 # 2)) as [E|L|G]; cbn [half_even];
    [lra|lia|lra].
Qed.

(** ** Rounding to a float *)

(** [pow2] is the power of 2. *)
Lemma pow2_Qpower (e : Z) : (pow2 e == 2 ^ e)%Q.
Proof.
  unfold pow2. destruct (0 <=? e) eqn:He.
  - apply Z.leb_le in He. now rewrite Zpower_Qpower.
  - apply Z.leb_gt in He.
    replace e with (- - e) at 2 by lia. rewrite Qpower_opp.
    rewrite <- (Zpower_Qpower 2 (- e)) by lia.
    assert (Hp : 0 < 2 ^ (- e)) by (apply Z.pow_pos_nonneg; lia).
    destruct (2 ^ (- e)) as [|p|p]; try lia. reflexivity.
Qed.

Lemma pow2_add (a b : Z) : (pow2 (a + b) == pow2 a * pow2 b)%Q.
Proof.
  rewrite !pow2_Qpower. apply Qpower_plus. discriminate.
Qed.

Lemma pow2_positive (e : Z) : (0 < pow2 e)%Q.
Proof.
  unfold pow2. destruct (0 <=? e) eqn:He; [|reflexivity].
  apply Z.leb_le in He.
  change 0%Q with (inject_Z 0). rewrite <- Zlt_Qlt. now apply Z.pow_pos_nonneg.
Qed.

(** The binade of a positive number holds it. *)
Lemma binade_spec (m : Q) :
  (0 < m)%Q -> (pow2 (binade m) <= m < pow2 (binade m + 1))%Q.
Proof.
  intro Hm. destruct m as [n d]. unfold binade. cbn [Qnum Qden].
  assert (Hn : 0 < n) by (unfold Qlt in Hm; cbn in Hm; lia).
  destruct (Z.log2_spec n Hn) as [Hn1 Hn2].
  destruct (Z.log2_spec (Z.pos d) eq_refl) as [Hd1 Hd2].
  pose proof (Z.log2_nonneg n) as Ha. pose proof (Z.log2_nonneg (Z.pos d)) as Hb.
  set (a := Z.log2 n) in *. set (b := Z.log2 (Z.pos d)) in *.
  assert (Hq : (n # d == inject_Z n / inject_Z (Z.pos d))%Q)
    by (rewrite Qmake_Qdiv; reflexivity).
  assert (Hdpos : (0 < inject_Z (Z.pos d))%Q) by reflexivity.
  (* 2^(a-b-1) <= n/d < 2^(a-b+1) *)
  assert (Hlow : (pow2 (a - b - 1) <= n # d)%Q).
  { rewrite Hq. apply Qle_shift_div_l; [exact Hdpos|].
    apply Qle_trans with (pow2 (a - b - 1) * pow2 (b + 1))%Q.
    - apply Qmult_le_l; [apply pow2_positive|].
      unfold pow2 at 1. replace (0 <=? b + 1) with true by (symmetry; apply Z.leb_le; lia).
      rewrite <- Zle_Qle. unfold Z.succ in Hd2. lia.
    - rewrite <- pow2_add. replace (a - b - 1 + (b + 1)) with a by lia.
      unfold pow2. replace (0 <=? a) with true by (symmetry; apply Z.leb_le; lia).
      now rewrite <- Zle_Qle. }
  assert (Hhigh : (n # d < pow2 (a - b + 1))%Q).
  { rewrite Hq. apply Qlt_shift_div_r; [exact Hdpos|].
    apply Qlt_le_trans with (pow2 (a - b + 1) * pow2 b)%Q.
    - rewrite <- pow2_add. replace (a - b + 1 + b) with (a + 1) by lia.
      unfold pow2. replace (0 <=? a + 1) with true by (symmetry; apply Z.leb_le; lia).
      rewrite <- Zlt_Qlt. unfold Z.succ in Hn2. lia.
    - apply Qmult_le_l; [apply pow2_positive|].
      unfold pow2 at 1. replace (0 <=? b) with true by (symmetry; apply Z.leb_le; lia).
      now rewrite <- Zle_Qle. }
  destruct (Qle_bool (pow2 (a - b)) (n # d)) eqn:Hk.
  - apply Qle_bool_iff in Hk. split; assumption.
  - apply Qle_bool_false in Hk. split; [exact Hlow|].
    replace (a - b - 1 + 1) with (a - b) by lia. exact Hk.
Qed.

(** Rounding moves a number by at most [2 ^ -53] of its size. *)
Lemma round64_error (x : Q) : (Qabs (round64 x - x) <= Qabs x * pow2 (- 53))%Q.
Proof.
  unfold round64. destruct (Qeq_bool x 0) eqn:Hz.
  { apply Qeq_bool_iff in Hz. rewrite Hz. vm_compute. discriminate. }
  apply Qeq_bool_false in Hz.
  assert (Hm : (0 < Qabs x)%Q).
  { destruct (Qlt_le_dec 0 (Qabs x)) as [L|G]; [exact L|].
    exfalso. apply Hz. apply Qabs_Qle_condition in G. destruct G. lra. }
  destruct (binade_spec (Qabs x) Hm) as [Hlo _].
  set (m := Qabs x) in *. set (b := binade m) in *.
  pose proof (pow2_positive (b - 52)) as Hulp.
  pose proof (py_round_near (m / pow2 (b - 52))) as Hnear.
  set (ulp := pow2 (b - 52)) in *.
  set (sig := inject_Z (py_round (m / ulp))) in *.
  assert (Hdist : (Qabs (sig * ulp - m) <= ulp * (1 # 2))%Q).
  { assert (E : (sig * ulp - m == (sig - m / ulp) * ulp)%Q) by (field; lra).
    rewrite E, Qabs_Qmult, (Qabs_pos ulp) by lra.
    rewrite (Qmult_comm ulp). apply Qmult_le_compat_r; [exact Hnear|lra]. }
  assert (Hhalf : (ulp * (1 # 2) <= m * pow2 (- 53))%Q).
  { assert (E : (ulp * (1 # 2) == pow2 b * pow2 (- 53))%Q).
    { unfold ulp. replace (b - 52) with (b + - 52) by lia. rewrite pow2_add.
      assert (E2 : (pow2 (- 52) * (1 # 2) == pow2 (- 53))%Q) by reflexivity.
      rewrite <- E2. ring. }
    rewrite E. apply Qmult_le_compat_r; [exact Hlo|].
    apply Qlt_le_weak, pow2_positive. }
  rewrite Qred_correct.
  destruct (Qlt_bool x 0) eqn:Hneg.
  - apply Qlt_bool_true in Hneg.
    assert (Ex : (x == - m)%Q) by (unfold m; rewrite Qabs_neg; lra).
    assert (E : (- (sig * ulp) - x == - (sig * ulp - m))%Q) by (rewrite Ex; ring).
    rewrite E, Qabs_opp. lra.
  - apply Qlt_bool_false in Hneg.
    assert (Ex : (x == m)%Q) by (unfold m; rewrite Qabs_pos; lra).
    assert (E : (sig * ulp - x == sig * ulp - m)%Q) by (rewrite Ex; ring).
    rewrite E. lra.
Qed.

(** The result of rounding is a significand of 53 bits times a power of 2. *)
Lemma round64_significand (x : Q) :
  ~ (x == 0)%Q ->
  exists (significand exponent : Z),
    2 ^ 52 <= significand <= 2 ^ 53
    /\ (Qabs (round64 x) == inject_Z significand * pow2 exponent)%Q.
Proof.
  intro Hz. unfold round64.
  pose proof Hz as Hz'. apply Qeq_bool_false in Hz'. rewrite Hz'.
  assert (Hm : (0 < Qabs x)%Q).
  { destruct (Qlt_le_dec 0 (Qabs x)) as [L|G]; [exact L|].
    exfalso. apply Hz. apply Qabs_Qle_condition in G. destruct G. lra. }
  destruct (binade_spec (Qabs x) Hm) as [Hlo Hhi].
  set (m := Qabs x) in *. set (b := binade m) in *.
  pose proof (pow2_positive (b - 52)) as Hulp.
  set (ulp := pow2 (b - 52)) in *.
  assert (E52 : (pow2 b == inject_Z (2 ^ 52) * ulp)%Q).
  { unfold ulp. replace b with (52 + (b - 52)) at 1 by lia. now rewrite pow2_add. }
  assert (E53 : (pow2 (b + 1) == inject_Z (2 ^ 53) * ulp)%Q).
  { unfold ulp. replace (b + 1) with (53 + (b - 52)) by lia. now rewrite pow2_add. }
  assert (Hs : 2 ^ 52 <= py_round (m / ulp) <= 2 ^ 53).
  { apply py_round_between. split.
    - apply Qle_shift_div_l; [exact Hulp|]. now rewrite <- E52.
    - apply Qle_shift_div_r; [exact Hulp|]. rewrite <- E53. now apply Qlt_le_weak. }
  exists (py_round (m / ulp)), (b - 52). split; [exact Hs|].
  fold ulp. rewrite Qred_correct.
  assert (Hpos : (0 <= inject_Z (py_round (m / ulp)) * ulp)%Q).
  { apply Qmult_le_0_compat; [|lra].
    change 0%Q with (inject_Z 0). rewrite <- Zle_Qle. lia. }
  destruct (Qlt_bool x 0); [rewrite Qabs_opp|]; now apply Qabs_pos.
Qed.

Lemma pow2_monotone (a b : Z) : a <= b -> (pow2 a <= pow2 b)%Q.
Proof.
  intro H. replace b with (a + (b - a)) by lia. rewrite pow2_add.
  rewrite <- (Qmult_1_r (pow2 a)) at 1.
  apply Qmult_le_l; [apply pow2_positive|].
  unfold pow2. replace (0 <=? b - a) with true by (symmetry; apply Z.leb_le; lia).
  change 1%Q with (inject_Z 1). rewrite <- Zle_Qle.
  assert (0 < 2 ^ (b - a)) by (apply Z.pow_pos_nonneg; lia). lia.
Qed.

(** A number between 1 and 2 is in the binade 0. *)
Lemma binade_unit (m : Q) : (1 <= m < 2)%Q -> binade m = 0.
Proof.
  intros [Hlo Hhi].
  destruct (binade_spec m) as [Hb1 Hb2]; [lra|].
  destruct (Z.lt_trichotomy (binade m) 0) as [Hneg|[Hz|Hpos]]; [|exact Hz|].
  - exfalso. pose proof (pow2_monotone (binade m + 1) 0 ltac:(lia)) as H.
    change (pow2 0) with 1%Q in H. lra.
  - exfalso. pose proof (pow2_monotone 1 (binade m) ltac:(lia)) as H.
    change (pow2 1) with 2%Q in H. lra.
Qed.

(** [round] of a number at most 1/2 above an even integer. *)
Lemma py_round_even_half (n : Z) (x : Q) :
  Z.even n = true -> (inject_Z n <= x <= inject_Z n + (1 # 2))%Q -> py_round x = n.
Proof.
  intros Heven [Hlo Hhi]. unfold py_round.
  assert (Hf : Qfloor x = n).
  { pose proof (Qfloor_le x) as H1. pose proof (Qlt_floor x) as H2.
    rewrite inject_Z_plus in H2. change (inject_Z 1) with 1%Q in H2.
    assert (Ha : (inject_Z n < inject_Z (Qfloor x + 1))%Q)
      by (rewrite inject_Z_plus; change (inject_Z 1) with 1%Q; lra).
    assert (Hb : (inject_Z (Qfloor x) < inject_Z (n + 1))%Q)
      by (rewrite inject_Z_plus; change (inject_Z 1) with 1%Q; lra).
    rewrite <- Zlt_Qlt in Ha, Hb. lia. }
  rewrite Hf.
  destruct (Qcompare_spec (x - inject_Z n) (1 # 2)) as [E|L|G]; cbn [half_even].
  - now rewrite Heven.
  - reflexivity.
  - lra.
Qed.

(** 1 plus a number that is at most [2 ^ -53] is rounded to 1. *)
Lemma round64_one_plus (g : Q) : (0 <= g <= pow2 (- 53))%Q -> round64 (1 + g) = 1%Q.
Proof.
  intros [Hlo Hhi].
  assert (Heps : (pow2 (- 53) == 1 # 9007199254740992)%Q) by reflexivity.
  rewrite Heps in Hhi.
  unfold round64.
  assert (Hnz : Qeq_bool (1 + g) 0 = false) by (apply Qeq_bool_false; lra).
  assert (Hpos : Qlt_bool (1 + g) 0 = false) by (apply Qlt_bool_false; lra).
  rewrite Hnz, Hpos.
  assert (Habs : (Qabs (1 + g) == 1 + g)%Q) by (apply Qabs_pos; lra).
  rewrite (binade_unit (Qabs (1 + g))) by (rewrite Habs; split; lra).
  change (pow2 (0 - 52)) with (1 # 4503599627370496)%Q.
  rewrite (py_round_even_half (2 ^ 52)); [vm_compute; reflexivity|reflexivity|].
  rewrite Habs. unfold Qdiv.
  change (/ (1 # 4503599627370496))%Q with 4503599627370496%Q.
  change (inject_Z (2 ^ 52)) with 4503599627370496%Q.
  split; lra.
Qed.

(** ** Scarcity score *)

Lemma scarcity_no_max (md : market_data) :
  no_max_supply md ->
  calculate_scarcity_score md = Ret (0, "Indeterminate (No defined max supply)").
Proof.
  unfold no_max_supply, calculate_scarcity_score.
  destruct (dict_get (max_supply md) VNone) as [|m]; intro H; [reflexivity|].
  cbn [truthy py_eq]. apply Qeq_bool_iff in H. rewrite H. reflexivity.
Qed.

Lemma scarcity_with_max (md : market_data) (c m : Q) :
  max_supply md = Some (VNum m) ->
  circulating_supply md = Some (VNum c) ->
  ~ (m == 0)%Q ->
  calculate_scarcity_score md =
    Ret (py_round (c / m * 100 / 10),
         format_f false 2 (c / m * 100) ++ "% of max supply is in circulation.").
Proof.
  intros Hm Hc Hnz. unfold calculate_scarcity_score. rewrite Hm, Hc.
  cbn [dict_get truthy py_eq py_div]. unfold num_div.
  apply Qeq_bool_false in Hnz. rewrite Hnz. reflexivity.
Qed.

(** The scorer returns whenever the circulating supply is a number. *)
Lemma scarcity_returns (md : market_data) (c : Q) :
  circulating_supply md = Some (VNum c) ->
  exists result, calculate_scarcity_score md = Ret result.
Proof.
  intro Hc. destruct (max_supply md) as [[|m]|] eqn:Hm.
  - eexists. apply scarcity_no_max. unfold no_max_supply. rewrite Hm. cbn [dict_get]. auto.
  - destruct (Qeq_dec m 0) as [Hz|Hnz].
    + eexists. apply scarcity_no_max. unfold no_max_supply. rewrite Hm. cbn [dict_get]. auto.
    + eexists. exact (scarcity_with_max md c m Hm Hc Hnz).
  - eexists. apply scarcity_no_max. unfold no_max_supply. rewrite Hm. cbn [dict_get]. auto.
Qed.

(** The integer written by [format_f] is within 1/2 of the scaled
    number. *)
Lemma format_f_near (grouped : bool) (d : nat) (x : Q) :
  exists n : Z,
    format_f grouped d x = render_fixed grouped d (Qlt_bool x 0) n /\
    (Qabs (inject_Z n - Qabs x * inject_Z (10 ^ Z.of_nat d)) <= 1 # 2)%Q.
Proof.
  eexists. split; [reflexivity|]. apply py_round_near.
Qed.

(** With the exact operations the scorer is the one defined first. *)
Lemma exact_scarcity_score (log : Q -> outcome R) (md : market_data) :
  calculate_scarcity_score_in (exact_arithmetic log) md = calculate_scarcity_score md.
Proof.
  unfold calculate_scarcity_score_in, calculate_scarcity_score.
  destruct (negb (truthy (dict_get (max_supply md) VNone))
            || py_eq (dict_get (max_supply md) VNone) 0); [reflexivity|].
  destruct (dict_get (circulating_supply md) VNone) as [|c];
    destruct (dict_get (max_supply md) VNone) as [|m]; reflexivity.
Qed.

Lemma scarcity_in_no_max (A : arithmetic) (md : market_data) :
  no_max_supply md ->
  calculate_scarcity_score_in A md = Ret (0, "Indeterminate (No defined max supply)").
Proof.
  unfold no_max_supply, calculate_scarcity_score_in.
  destruct (dict_get (max_supply md) VNone) as [|m]; intro H; [reflexivity|].
  cbn [truthy py_eq]. apply Qeq_bool_iff in H. rewrite H. reflexivity.
Qed.

(** C6: in every arithmetic, without a defined max supply (missing, [None]
    or zero) the score is 0 with the description "Indeterminate (No defined
    max supply)", whatever the circulating supply; with a positive max
    supply and a circulating supply that is a number the score is
    [round((circulating_supply / max_supply) * 100 / 10)] and the
    description starts with the percentage rounded to two decimals;
    19,000,000 out of 21,000,000 gives score 9 and "90.48%", in exact
    arithmetic and in floating point.  But with a positive max supply and a
    circulating supply that is missing or [None] the scorer divides [None]
    by a number and raises [TypeError], where the specification promises
    the score and the percentage. *)
Theorem scarcity_value_needs_circulating_supply
    (A : arithmetic) (md : market_data) (m : Q) :
  (no_max_supply md ->
   calculate_scarcity_score_in A md = Ret (0, "Indeterminate (No defined max supply)"))
  /\ (max_supply md = Some (VNum m) -> (0 < m)%Q ->
      (forall c : Q,
          circulating_supply md = Some (VNum c) ->
          let percentage := a_mul A (a_div A c m) 100 in
          exists hundredths : Z,
            calculate_scarcity_score_in A md =
              Ret (py_round (a_div A percentage 10),
                   render_fixed false 2 (Qlt_bool percentage 0) hundredths
                   ++ "% of max supply is in circulation.")
            /\ (Qabs (inject_Z hundredths - Qabs percentage * 100) <= 1 # 2)%Q)
      /\ (dict_get (circulating_supply md) VNone = VNone ->
          calculate_scarcity_score_in A md = Raise TypeError))
  /\ calculate_scarcity_score (snapshot (Some (VNum 21000000)) (Some (VNum 19000000)))
     = Ret (9, "90.48% of max supply is in circulation.")
  /\ (forall (sum : list Q -> Q) (log : Q -> outcome R) (quot : R -> R -> R),
        calculate_scarcity_score_in (binary64 sum log quot)
          (snapshot (Some (VNum 21000000)) (Some (VNum 19000000)))
        = Ret (9, "90.48% of max supply is in circulation."))
  /\ calculate_scarcity_score_in A (snapshot (Some (VNum 100)) None) = Raise TypeError.
Proof.
  split; [apply scarcity_in_no_max|].
  split; [|split; [|split; [intros sum log quot|]]; vm_compute; reflexivity].
  intros Hm Hpos.
  assert (Hnz : Qeq_bool m 0 = false) by (apply Qeq_bool_false; lra).
  split.
  - intros c Hc percentage.
    destruct (format_f_near false 2 percentage) as [n [Hn Hnear]].
    exists n. split; [|exact Hnear]. rewrite <- Hn.
    unfold calculate_scarcity_score_in. rewrite Hm, Hc.
    cbn [dict_get truthy py_eq py_div_in]. rewrite Hnz. cbn [negb orb].
    unfold div_in. rewrite Hnz. reflexivity.
  - intro Hc. unfold calculate_scarcity_score_in. rewrite Hm, Hc.
    cbn [dict_get truthy py_eq]. rewrite Hnz. reflexivity.
Qed.

Lemma scarcity_value_needs_circulating_supply_witness :
  calculate_scarcity_score_in (binary64 float_sum math_log Rdiv)
    (snapshot (Some (VNum 100)) (Some VNone)) = Raise TypeError.
Proof.
  apply (proj2 (proj1 (proj2 (scarcity_value_needs_circulating_supply
                                (binary64 float_sum math_log Rdiv)
                                (snapshot (Some (VNum 100)) (Some VNone)) 100))
                 eq_refl eq_refl)).
  reflexivity.
Defined.

(** C2: with a positive max supply and no circulating supply the scorer
    divides [None] by a number and raises [TypeError] instead of returning a
    score and a description. *)
Theorem scarcity_without_circulating_supply :
  calculate_scarcity_score (snapshot (Some (VNum 21000000)) None) = Raise TypeError
  /\ calculate_scarcity_score (snapshot (Some (VNum 21000000)) (Some VNone))
     = Raise TypeError.
Proof.
  split; vm_compute; reflexivity.
Qed.




(** ** Rounding of reals *)

Local Open Scope R_scope.

Lemma Rcompare_half_cases (r : R) :
  (Rcompare_half r = Lt /\ r < 1 / 2)
  \/ (Rcompare_half r = Eq /\ r = 1 / 2)
  \/ (Rcompare_half r = Gt /\ 1 / 2 < r).
Proof.
  unfold Rcompare_half.
  destruct (Rlt_dec r (1 / 2)) as [L|NL]; [left; split; [reflexivity|exact L]|].
  destruct (Rlt_dec (1 / 2) r) as [G|NG]; right; [right|left]; split;
    try reflexivity; lra.
Qed.

Lemma R_round_near (x : R) : Rabs (IZR (R_round x) - x) <= 1 / 2.
Proof.
  unfold R_round. destruct (base_Int_part x) as [Hlo Hhi].
  set (f := Int_part x) in *.
  apply Rabs_le.
  destruct (Rcompare_half_cases (x - IZR f)) as [[-> H]|[[-> H]|[-> H]]];
    cbn [half_even].
  - lra.
  - destruct (Z.even f); [|rewrite plus_IZR]; lra.
  - rewrite plus_IZR. lra.
Qed.

(** A real strictly within 1/2 of an integer rounds to it. *)
Lemma R_round_unique (x : R) (n : Z) :
  IZR n - 1 / 2 < x < IZR n + 1 / 2 -> R_round x = n.
Proof.
  intros [Hlo Hhi]. unfold R_round.
  destruct (Rle_lt_dec (IZR n) x) as [Hge|Hlt].
  - assert (E : n = Int_part x) by (apply Int_part_spec; lra).
    rewrite <- E.
    destruct (Rcompare_half_cases (x - IZR n)) as [[-> H]|[[-> H]|[-> H]]];
      cbn [half_even]; [reflexivity|lra|lra].
  - assert (E : (n - 1)%Z = Int_part x)
      by (apply Int_part_spec; rewrite minus_IZR; lra).
    rewrite <- E.
    destruct (Rcompare_half_cases (x - IZR (n - 1))) as [[-> H]|[[-> H]|[-> H]]];
      cbn [half_even]; rewrite minus_IZR in H; [lra|lra|lia].
Qed.

Lemma format_f_R_written (d : nat) (x : R) : written_with d x (format_f_R d x).
Proof.
  eexists. split; [reflexivity|]. apply R_round_near.
Qed.

(** A non-negative real whose tenfold is strictly within 1/2 of [n]. *)
Lemma format_f_R_tenths (x : R) (n : Z) :
  0 <= x -> IZR n - 1 / 2 < x * 10 < IZR n + 1 / 2 ->
  format_f_R 1 x = render_fixed false 1 false n.
Proof.
  intros Hx Hn. unfold format_f_R.
  destruct (Rlt_dec x 0) as [L|_]; [lra|].
  rewrite (Rabs_pos_eq x Hx).
  change (IZR (10 ^ Z.of_nat 1)) with 10.
  now rewrite (R_round_unique (x * 10) n Hn).
Qed.

(** ** Logarithms *)

Lemma math_log_positive (x : Q) : (0 < x)%Q -> math_log x = Ret (ln (Q2R x)).
Proof.
  intro H. unfold math_log. apply Qlt_bool_true in H. now rewrite H.
Qed.


Lemma Q2R_0 : Q2R 0 = 0.
Proof. unfold Q2R. cbn. lra. Qed.

Lemma Q2R_1 : Q2R 1 = 1.
Proof. unfold Q2R. cbn. lra. Qed.

Lemma ln_positive (x : R) : 1 < x -> 0 < ln x.
Proof.
  intro H. rewrite <- ln_1. apply ln_increasing; lra.
Qed.

(** Comparison of a quotient of logarithms with a natural number, by
    powers. *)
Lemma ln_ratio_ge (a b : R) (k : nat) :
  1 < b -> b ^ k <= a -> INR k <= ln a / ln b.
Proof.
  intros Hb Hpow.
  assert (Hlb : 0 < ln b) by now apply ln_positive.
  assert (Hbk : 0 < b ^ k) by (apply pow_lt; lra).
  apply Rmult_le_reg_r with (r := ln b); [exact Hlb|].
  replace (ln a / ln b * ln b) with (ln a) by (field; lra).
  rewrite <- ln_pow by lra.
  destruct Hpow as [Hlt|Heq]; [left; now apply ln_increasing|right; now rewrite Heq].
Qed.

Lemma ln_ratio_le (a b : R) (k : nat) :
  1 < b -> 0 < a -> a <= b ^ k -> ln a / ln b <= INR k.
Proof.
  intros Hb Ha Hpow.
  assert (Hlb : 0 < ln b) by now apply ln_positive.
  apply Rmult_le_reg_r with (r := ln b); [exact Hlb|].
  replace (ln a / ln b * ln b) with (ln a) by (field; lra).
  rewrite <- ln_pow by lra.
  destruct Hpow as [Hlt|Heq]; [left; now apply ln_increasing|right; now rewrite Heq].
Qed.

(** ** Time to target *)

Lemma mean_growth_some (values : list Q) (g : Q) :
  mean_growth values = Some g ->
  is_empty (daily_growth_rates values) = false
  /\ average (daily_growth_rates values) = g.
Proof.
  unfold mean_growth. destruct (is_empty (daily_growth_rates values)); [discriminate|].
  intro H. injection H as H. now split.
Qed.

Lemma growth_factor_gt_1 (g : Q) : (0 < g)%Q -> 1 < Q2R (1 + g).
Proof.
  intro H. rewrite Q2R_plus, Q2R_1. apply Qlt_Rlt in H. rewrite Q2R_0 in H. lra.
Qed.

Lemma required_multiple_gt_1 (C T : Q) : (0 < C)%Q -> (C < T)%Q -> 1 < Q2R (T / C).
Proof.
  intros HC HT. rewrite <- Q2R_1. apply Qlt_Rlt.
  apply Qlt_shift_div_l; [exact HC|]. lra.
Qed.

Lemma days_to_target_positive (C T g : Q) :
  (0 < C)%Q -> (C < T)%Q -> (0 < g)%Q ->
  days_to_target_with math_log C T g = Ret (solution C T g).
Proof.
  intros HC HT Hg. unfold days_to_target_with, num_div.
  assert (HCnz : Qeq_bool C 0 = false) by (apply Qeq_bool_false; lra).
  rewrite HCnz. cbn [bind].
  pose proof (required_multiple_gt_1 C T HC HT) as Hm.
  pose proof (growth_factor_gt_1 g Hg) as Hf.
  rewrite math_log_positive by (apply Rlt_Qlt; rewrite Q2R_0; lra). cbn [bind].
  rewrite math_log_positive by (apply Rlt_Qlt; rewrite Q2R_0; lra). cbn [bind].
  unfold real_div. destruct (Req_dec_T (ln (Q2R (1 + g))) 0) as [E|_]; [|reflexivity].
  pose proof (ln_positive _ Hf). lra.
Qed.

Lemma predict_positive_growth (caps : list (Q * Q)) (C T g : Q) :
  (0 < C)%Q -> (C < T)%Q -> mean_growth (map snd caps) = Some g -> (0 < g)%Q ->
  predict_time_to_target (Some caps) C T
  = Ret (time_string "Over 25 years at current growth rate." (solution C T g)).
Proof.
  intros HC HT Hmean Hg. apply mean_growth_some in Hmean as [Hne Havg].
  unfold predict_time_to_target, predict_time_to_target_with.
  assert (H1 : Qle_bool T C = false) by now apply Qle_bool_false.
  rewrite H1. cbn [series_items bind]. rewrite Hne, Havg.
  assert (H2 : Qle_bool g 0 = false) by now apply Qle_bool_false.
  rewrite H2. now rewrite days_to_target_positive.
Qed.

Lemma stock_positive_growth (prices : list Q) (C T g : Q) :
  (0 < C)%Q -> (C < T)%Q -> mean_growth prices = Some g -> (0 < g)%Q ->
  analyze_stock_growth_and_time (Some prices) C T
  = Ret (time_string "Over 25 years" (solution C T g),
         format_f false 2 (T / C) ++ "x").
Proof.
  intros HC HT Hmean Hg. apply mean_growth_some in Hmean as [Hne Havg].
  unfold analyze_stock_growth_and_time, analyze_stock_growth_and_time_with.
  assert (H1 : Qle_bool T C = false) by now apply Qle_bool_false.
  rewrite H1. cbn [series_items bind]. rewrite Hne, Havg.
  assert (H2 : Qle_bool g 0 = false) by now apply Qle_bool_false.
  rewrite H2.
  pose proof (days_to_target_positive C T g HC HT Hg) as Hd.
  unfold days_to_target_with, num_div in *.
  assert (HCnz : Qeq_bool C 0 = false) by (apply Qeq_bool_false; lra).
  rewrite HCnz in *. cbn [bind] in *.
  destruct (math_log (T / C)) as [a|e]; cbn [bind] in *; [|discriminate].
  destruct (math_log (1 + g)) as [b|e]; cbn [bind] in *; [|discriminate].
  rewrite Hd. reflexivity.
Qed.

Lemma one_percent_mean :
  exists g : Q, mean_growth one_percent_prices = Some g /\ (g == 1 # 100)%Q.
Proof.
  exists (20200 # 2020000)%Q. split; vm_compute; reflexivity.
Qed.

Lemma one_percent_solution (g : Q) :
  (g == 1 # 100)%Q -> 68 <= solution 100 200 g <= 70.
Proof.
  intro Hg. unfold solution.
  replace (Q2R (200 / 100)) with 2 by (unfold Q2R; cbn; lra).
  rewrite (Qeq_eqR (1 + g) (101 # 100)) by (rewrite Hg; reflexivity).
  replace (Q2R (101 # 100)) with (101 / 100) by (unfold Q2R; cbn; lra).
  split.
  - replace 68 with (INR 68) by (rewrite INR_IZR_INZ; reflexivity).
    apply ln_ratio_ge; [lra|]. lra.
  - replace 70 with (INR 70) by (rewrite INR_IZR_INZ; reflexivity).
    apply ln_ratio_le; [lra|lra|]. lra.
Qed.

Lemma one_percent_time_string (over25 : string) (g : Q) :
  (g == 1 # 100)%Q ->
  time_string over25 (solution 100 200 g) = "Approx. 2.3 months".
Proof.
  intro Hg. pose proof (one_percent_solution g Hg) as [Hlo Hhi].
  unfold time_string.
  destruct (Rlt_dec (365 * 25) (solution 100 200 g)) as [H|_]; [lra|].
  destruct (Rlt_dec 365 (solution 100 200 g)) as [H|_]; [lra|].
  destruct (Rlt_dec 30 (solution 100 200 g)) as [_|H]; [|lra].
  rewrite (format_f_R_tenths _ 23) by lra. reflexivity.
Qed.

Lemma one_percent_prediction :
  predict_time_to_target (Some one_percent_caps) 100 200 = Ret "Approx. 2.3 months".
Proof.
  destruct one_percent_mean as [g [Hmean Hg]].
  rewrite (predict_positive_growth one_percent_caps 100 200 g);
    [|reflexivity|reflexivity|exact Hmean|rewrite Hg; reflexivity].
  now rewrite one_percent_time_string.
Qed.

Lemma one_percent_stock_prediction :
  analyze_stock_growth_and_time (Some one_percent_prices) 100 200
  = Ret ("Approx. 2.3 months", "2.00x").
Proof.
  destruct one_percent_mean as [g [Hmean Hg]].
  rewrite (stock_positive_growth one_percent_prices 100 200 g);
    [|reflexivity|reflexivity|exact Hmean|rewrite Hg; reflexivity].
  now rewrite one_percent_time_string.
Qed.

(** C4, as stated: the series growing by 1% a day with C = 100 and T = 200
    would be classified "Approx. 69.7 days".  The time found, about 69.66
    days, is above 30, so it is reported in months; and a current value of 0
    makes the division [T / C] raise. *)
Lemma one_percent_example_is_in_months :
  predict_time_to_target (Some one_percent_caps) 100 200 <> Ret "Approx. 69.7 days"
  /\ predict_time_to_target (Some one_percent_caps) 100 200 = Ret "Approx. 2.3 months"
  /\ predict_time_to_target (Some one_percent_caps) 0 200 = Raise ZeroDivisionError.
Proof.
  split; [rewrite one_percent_prediction; discriminate|].
  split; [exact one_percent_prediction|].
  vm_compute. reflexivity.
Qed.

(** *** The projections over an arithmetic *)

Lemma growth_rates_in_step (A : arithmetic) (prev curr : Q) (rest : list Q) :
  growth_rates_in A (prev :: curr :: rest)
  = if Qlt_bool 0 prev
    then a_div A (a_sub A curr prev) prev :: growth_rates_in A (curr :: rest)
    else growth_rates_in A (curr :: rest).
Proof. reflexivity. Qed.

(** With the exact operations the projections are those defined first. *)
Lemma exact_growth_rates (log : Q -> outcome R) (values : list Q) :
  growth_rates_in (exact_arithmetic log) values = daily_growth_rates values.
Proof.
  induction values as [|prev rest IH]; [reflexivity|].
  destruct rest as [|curr rest']; [reflexivity|].
  rewrite growth_rates_in_step, IH. reflexivity.
Qed.

Lemma exact_projections (log : Q -> outcome R)
    (historical_caps : option (list (Q * Q))) (historical_prices : option (list Q))
    (C T : Q) :
  predict_time_to_target_in (exact_arithmetic log) historical_caps C T
  = predict_time_to_target_with log historical_caps C T
  /\ analyze_stock_growth_and_time_in (exact_arithmetic log) historical_prices C T
     = analyze_stock_growth_and_time_with log historical_prices C T.
Proof.
  unfold predict_time_to_target_in, predict_time_to_target_with,
    analyze_stock_growth_and_time_in, analyze_stock_growth_and_time_with.
  split.
  - destruct (Qle_bool T C); [reflexivity|].
    destruct historical_caps as [caps|]; [|reflexivity].
    cbn [series_items bind]. rewrite exact_growth_rates. reflexivity.
  - destruct (Qle_bool T C); [reflexivity|].
    destruct historical_prices as [prices|]; [|reflexivity].
    cbn [series_items bind]. rewrite exact_growth_rates. reflexivity.
Qed.

Lemma mean_growth_in_some (A : arithmetic) (values : list Q) (g : Q) :
  mean_growth_in A values = Some g ->
  is_empty (growth_rates_in A values) = false
  /\ average_in A (growth_rates_in A values) = g.
Proof.
  unfold mean_growth_in. destruct (is_empty (growth_rates_in A values)); [discriminate|].
  intro H. injection H as H. now split.
Qed.

(** Past the three tests, what is left of the projections. *)
Lemma predict_in_after_guards (A : arithmetic) (caps : list (Q * Q)) (C T g : Q) :
  (C < T)%Q -> mean_growth_in A (map snd caps) = Some g -> (0 < g)%Q ->
  predict_time_to_target_in A (Some caps) C T
  = except_ValueError
      (days_to_target <- days_to_target_in A C T g ;;
       Ret (time_string_in A "Over 25 years at current growth rate." days_to_target))
      "Could not compute a time estimate due to a mathematical error (e.g., log of negative number).".
Proof.
  intros HT Hmean Hg. apply mean_growth_in_some in Hmean as [Hne Havg].
  unfold predict_time_to_target_in.
  apply Qle_bool_false in HT. rewrite HT. cbn [series_items bind].
  apply Qle_bool_false in Hg. now rewrite Hne, Havg, Hg.
Qed.

Lemma stock_in_after_guards (A : arithmetic) (prices : list Q) (C T g : Q) :
  (C < T)%Q -> mean_growth_in A prices = Some g -> (0 < g)%Q ->
  analyze_stock_growth_and_time_in A (Some prices) C T
  = (required_growth <- div_in A T C ;;
     except_ValueError
       (numerator <- a_log A required_growth ;;
        denominator <- a_log A (a_add A 1 g) ;;
        days_to_target <- quot_in A numerator denominator ;;
        Ret (time_string_in A "Over 25 years" days_to_target,
             format_f false 2 required_growth ++ "x"))
       ("Could not compute time estimate.", "N/A")).
Proof.
  intros HT Hmean Hg. apply mean_growth_in_some in Hmean as [Hne Havg].
  unfold analyze_stock_growth_and_time_in.
  apply Qle_bool_false in HT. rewrite HT. cbn [series_items bind].
  apply Qle_bool_false in Hg. now rewrite Hne, Havg, Hg.
Qed.

Lemma div_in_nonzero (A : arithmetic) (a b : Q) :
  ~ (b == 0)%Q -> div_in A a b = Ret (a_div A a b).
Proof.
  intro H. unfold div_in. apply Qeq_bool_false in H. now rewrite H.
Qed.

Lemma div_in_zero (A : arithmetic) (a b : Q) :
  (b == 0)%Q -> div_in A a b = Raise ZeroDivisionError.
Proof.
  intro H. unfold div_in. apply Qeq_bool_iff in H. now rewrite H.
Qed.

Lemma quot_in_nonzero (A : arithmetic) (a b : R) :
  b <> 0 -> quot_in A a b = Ret (a_quot A a b).
Proof.
  intro H. unfold quot_in. destruct (Req_dec_T b 0); [contradiction|reflexivity].
Qed.

Lemma quot_in_zero (A : arithmetic) (a : R) : quot_in A a 0 = Raise ZeroDivisionError.
Proof.
  unfold quot_in. destruct (Req_dec_T 0 0) as [_|N]; [reflexivity|now contradiction N].
Qed.

Lemma time_string_in_classified (A : arithmetic) (over25 : string) (t : R) :
  classified A over25 t (time_string_in A over25 t).
Proof.
  unfold classified, time_string_in.
  destruct (Rlt_dec (365 * 25) t) as [H1|H1].
  { repeat split; intros; try reflexivity; lra. }
  destruct (Rlt_dec 365 t) as [H2|H2].
  { repeat split; intros; try lra.
    eexists. split; [apply format_f_R_written|reflexivity]. }
  destruct (Rlt_dec 30 t) as [H3|H3].
  { repeat split; intros; try lra.
    eexists. split; [apply format_f_R_written|reflexivity]. }
  repeat split; intros; try lra.
  eexists. split; [apply format_f_R_written|reflexivity].
Qed.

(** *** Floating point *)

(** [round64] on a few numbers: 1/10 and 3/10 become the floats written 0.1
    and 0.3; 0.1 + 0.2 is the float above 0.3; 1 + 2^-53, half way between
    two floats, is rounded to 1, and 1 + 3 * 2^-54 to the float after 1. *)
Lemma round64_examples :
  round64 (1 # 10) = (3602879701896397 # 36028797018963968)%Q
  /\ round64 (3 # 10) = (5404319552844595 # 18014398509481984)%Q
  /\ round64 (round64 (1 # 10) + round64 (2 # 10))
     = (1351079888211149 # 4503599627370496)%Q
  /\ round64 (1 + (1 # 9007199254740992)) = 1%Q
  /\ round64 (1 + (3 # 18014398509481984))
     = (4503599627370497 # 4503599627370496)%Q.
Proof.
  repeat split; vm_compute; reflexivity.
Qed.

(** *** The example in floating point *)

Lemma one_percent_floats_mean (log : Q -> outcome R) (quot : R -> R -> R) :
  exists g : Q,
    mean_growth_in (binary64 float_sum log quot) (map snd one_percent_floats) = Some g
    /\ (0 < g)%Q
    /\ is_float (round64 (1 + g))
    /\ (100999 # 100000 <= round64 (1 + g) <= 101001 # 100000)%Q.
Proof.
  eexists. split; [vm_compute; reflexivity|].
  split; [reflexivity|]. split; [vm_compute; reflexivity|].
  split; vm_compute; discriminate.
Qed.

(** The quotient of the logarithms of 2 and of a number close to 1.01. *)
Lemma log_2_over_log_growth (x : Q) :
  (100999 # 100000 <= x <= 101001 # 100000)%Q ->
  0 < ln (Q2R x) /\ 68 * ln (Q2R x) <= ln 2 <= 70 * ln (Q2R x).
Proof.
  intros [Hlo Hhi]. apply Qle_Rle in Hlo, Hhi.
  replace (Q2R (100999 # 100000)) with (100999 / 100000) in Hlo by (unfold Q2R; cbn; lra).
  replace (Q2R (101001 # 100000)) with (101001 / 100000) in Hhi by (unfold Q2R; cbn; lra).
  set (b := Q2R x) in *.
  assert (Hb : 1 < b) by lra.
  assert (Hl : 0 < ln b) by now apply ln_positive.
  split; [exact Hl|].
  assert (H68 : INR 68 <= ln 2 / ln b).
  { apply ln_ratio_ge; [exact Hb|].
    apply Rle_trans with ((101001 / 100000) ^ 68); [apply pow_incr; lra|lra]. }
  assert (H70 : ln 2 / ln b <= INR 70).
  { apply ln_ratio_le; [exact Hb|lra|].
    apply Rle_trans with ((100999 / 100000) ^ 70); [lra|apply pow_incr; lra]. }
  replace (INR 68) with 68 in H68 by (rewrite INR_IZR_INZ; reflexivity).
  replace (INR 70) with 70 in H70 by (rewrite INR_IZR_INZ; reflexivity).
  split.
  - apply Rmult_le_compat_r with (r := ln b) in H68; [|lra].
    replace (ln 2 / ln b * ln b) with (ln 2) in H68 by (field; lra). exact H68.
  - apply Rmult_le_compat_r with (r := ln b) in H70; [|lra].
    replace (ln 2 / ln b * ln b) with (ln 2) in H70 by (field; lra). exact H70.
Qed.

Lemma within_bounds (eps x y : R) :
  0 < x -> Rabs (y - x) <= eps * Rabs x -> (1 - eps) * x <= y <= (1 + eps) * x.
Proof.
  intros Hx H. rewrite (Rabs_pos_eq x) in H by lra.
  unfold Rabs in H. destruct (Rcase_abs (y - x)); lra.
Qed.

(** A time between 67.7 and 70.3 days is reported as 2.3 months by every
    division accurate to a thousandth on the quotients between 1 and
    1000. *)
Lemma time_string_in_months (A : arithmetic) (over25 : string) (t : R) :
  quot_within (1 / 1000) (a_quot A) -> 677 / 10 <= t <= 703 / 10 ->
  time_string_in A over25 t = "Approx. 2.3 months".
Proof.
  intros Hquot [Hlo Hhi]. unfold time_string_in.
  destruct (Rlt_dec (365 * 25) t) as [H|_]; [lra|].
  destruct (Rlt_dec 365 t) as [H|_]; [lra|].
  destruct (Rlt_dec 30 t) as [_|H]; [|lra].
  assert (Hm : (1 - 1 / 1000) * (t / 30) <= a_quot A t 30 <= (1 + 1 / 1000) * (t / 30)).
  { apply within_bounds; [lra|]. apply Hquot; lra. }
  rewrite (format_f_R_tenths _ 23) by lra. reflexivity.
Qed.

(** The days computed for the example by floats whose logarithm and division
    of logarithms are accurate to a thousandth. *)
Lemma binary64_one_percent_days (log : Q -> outcome R) (quot : R -> R -> R) (g : Q) :
  log_within (1 / 1000) log -> quot_within (1 / 1000) quot ->
  is_float (round64 (1 + g)) ->
  (100999 # 100000 <= round64 (1 + g) <= 101001 # 100000)%Q ->
  exists t : R,
    (numerator <- log 2%Q ;;
     denominator <- log (round64 (1 + g)) ;;
     quot_in (binary64 float_sum log quot) numerator denominator) = Ret t
    /\ 677 / 10 <= t <= 703 / 10.
Proof.
  intros Hlog Hquot Hfloat Hx.
  destruct (log_2_over_log_growth _ Hx) as [HM [H68 H70]].
  set (x := round64 (1 + g)) in *.
  assert (HL : 0 < ln 2) by (apply ln_positive; lra).
  destruct (Hlog 2%Q) as [ya [Ea Hya]]; [reflexivity|vm_compute; reflexivity|].
  replace (Q2R 2) with 2 in Hya by (unfold Q2R; cbn; lra).
  destruct (Hlog x) as [yb [Eb Hyb]]; [|exact Hfloat|].
  { apply Qlt_le_trans with (100999 # 100000)%Q; [reflexivity|apply Hx]. }
  apply within_bounds in Hya; [|exact HL].
  apply within_bounds in Hyb; [|exact HM].
  rewrite Ea, Eb. cbn [bind].
  assert (Hyb0 : 0 < yb) by lra.
  rewrite quot_in_nonzero by lra. cbn [a_quot binary64].
  exists (quot ya yb). split; [reflexivity|].
  assert (Hq : 678 / 10 <= ya / yb <= 702 / 10).
  { split.
    - apply Rmult_le_reg_r with (r := yb); [exact Hyb0|].
      replace (ya / yb * yb) with ya by (field; lra). lra.
    - apply Rmult_le_reg_r with (r := yb); [exact Hyb0|].
      replace (ya / yb * yb) with ya by (field; lra). lra. }
  assert (Ht : (1 - 1 / 1000) * (ya / yb) <= quot ya yb <= (1 + 1 / 1000) * (ya / yb)).
  { apply within_bounds; [lra|]. apply Hquot; lra. }
  lra.
Qed.

Lemma binary64_one_percent (log : Q -> outcome R) (quot : R -> R -> R) :
  log_within (1 / 1000) log -> quot_within (1 / 1000) quot ->
  predict_time_to_target_in (binary64 float_sum log quot) (Some one_percent_floats) 100 200
  = Ret "Approx. 2.3 months"
  /\ analyze_stock_growth_and_time_in (binary64 float_sum log quot)
       (Some (map snd one_percent_floats)) 100 200
     = Ret ("Approx. 2.3 months", "2.00x").
Proof.
  intros Hlog Hquot.
  destruct (one_percent_floats_mean log quot) as [g [Hmean [Hg [Hfloat Hx]]]].
  destruct (binary64_one_percent_days log quot g Hlog Hquot Hfloat Hx)
    as [t [Ht Hbounds]].
  assert (Hratio : div_in (binary64 float_sum log quot) 200 100 = Ret 2%Q)
    by (vm_compute; reflexivity).
  split.
  - rewrite (predict_in_after_guards _ one_percent_floats 100 200 g eq_refl Hmean Hg).
    unfold days_to_target_in. rewrite Hratio. cbn [bind a_log a_add binary64].
    cbn [a_log a_add binary64] in Ht. rewrite Ht. cbn [bind except_ValueError].
    now rewrite time_string_in_months.
  - rewrite (stock_in_after_guards _ (map snd one_percent_floats) 100 200 g
               eq_refl Hmean Hg).
    rewrite Hratio. cbn [bind a_log a_add binary64].
    destruct (log 2%Q) as [ya|e]; cbn [bind] in *; [|discriminate Ht].
    destruct (log (round64 (1 + g))) as [yb|e]; cbn [bind] in *; [|discriminate Ht].
    rewrite Ht. cbn [bind except_ValueError].
    now rewrite time_string_in_months.
Qed.

(** The exact logarithm and the exact division are accurate. *)
Lemma math_log_within (eps : R) : 0 <= eps -> log_within eps math_log.
Proof.
  intros Heps x Hx _. exists (ln (Q2R x)). split; [now apply math_log_positive|].
  replace (ln (Q2R x) - ln (Q2R x)) with 0 by ring. rewrite Rabs_R0.
  apply Rmult_le_pos; [exact Heps|apply Rabs_pos].
Qed.

Lemma Rdiv_within (eps : R) : 0 <= eps -> quot_within eps Rdiv.
Proof.
  intros Heps a b _ _. replace (a / b - a / b) with 0 by ring. rewrite Rabs_R0.
  apply Rmult_le_pos; [exact Heps|apply Rabs_pos].
Qed.

(** C4, amended: for a target T above the current value C, a series whose
    mean growth rate g, as computed, is positive, and logarithms of T/C and
    of 1+g that are computed with the second not zero, both projections
    return the class of t = log(T/C) / log(1+g) by the thresholds taken in
    order (over 25 years, years, months, days, each figure with one
    decimal), in every arithmetic; the series growing by 1% a day with
    C = 100 and T = 200 gives "Approx. 2.3 months", in exact arithmetic and
    in floating point. *)
Theorem time_to_target_classes
    (A : arithmetic) (caps : list (Q * Q)) (prices : list Q) (C T g : Q) (a b : R) :
  (C < T)%Q -> (0 < g)%Q -> ~ (C == 0)%Q ->
  a_log A (a_div A T C) = Ret a ->
  a_log A (a_add A 1 g) = Ret b ->
  b <> 0 ->
  (mean_growth_in A (map snd caps) = Some g ->
   exists s : string,
     predict_time_to_target_in A (Some caps) C T = Ret s
     /\ classified A "Over 25 years at current growth rate." (a_quot A a b) s)
  /\ (mean_growth_in A prices = Some g ->
      exists s : string,
        analyze_stock_growth_and_time_in A (Some prices) C T
        = Ret (s, format_f false 2 (a_div A T C) ++ "x")
        /\ classified A "Over 25 years" (a_quot A a b) s)
  /\ predict_time_to_target_in (exact_arithmetic math_log) (Some one_percent_caps) 100 200
     = Ret "Approx. 2.3 months"
  /\ analyze_stock_growth_and_time_in (exact_arithmetic math_log)
       (Some one_percent_prices) 100 200
     = Ret ("Approx. 2.3 months", "2.00x")
  /\ (forall (log : Q -> outcome R) (quot : R -> R -> R),
        log_within (1 / 1000) log -> quot_within (1 / 1000) quot ->
        predict_time_to_target_in (binary64 float_sum log quot) (Some one_percent_floats) 100 200
        = Ret "Approx. 2.3 months"
        /\ analyze_stock_growth_and_time_in (binary64 float_sum log quot)
             (Some (map snd one_percent_floats)) 100 200
           = Ret ("Approx. 2.3 months", "2.00x")).
Proof.
  intros HT Hg HC Ha Hb Hnz.
  split; [|split; [|split; [|split]]].
  - intro Hmean. eexists. split; [|apply time_string_in_classified].
    rewrite (predict_in_after_guards A caps C T g HT Hmean Hg).
    unfold days_to_target_in. rewrite (div_in_nonzero A T C HC). cbn [bind].
    rewrite Ha. cbn [bind]. rewrite Hb. cbn [bind].
    rewrite (quot_in_nonzero A a b Hnz). reflexivity.
  - intro Hmean. eexists. split; [|apply time_string_in_classified].
    rewrite (stock_in_after_guards A prices C T g HT Hmean Hg).
    rewrite (div_in_nonzero A T C HC). cbn [bind].
    rewrite Ha. cbn [bind]. rewrite Hb. cbn [bind].
    rewrite (quot_in_nonzero A a b Hnz). reflexivity.
  - rewrite (proj1 (exact_projections math_log _ None 100 200)).
    exact one_percent_prediction.
  - rewrite (proj2 (exact_projections math_log None _ 100 200)).
    exact one_percent_stock_prediction.
  - exact binary64_one_percent.
Qed.

Lemma time_to_target_classes_witness :
  (exists s : string,
     predict_time_to_target_in (exact_arithmetic math_log)
       (Some [(0, 100); (1, 150)]%Q) 100 200 = Ret s
     /\ classified (exact_arithmetic math_log) "Over 25 years at current growth rate."
          (ln (Q2R (200 / 100)) / ln (Q2R (1 + (50 # 100)))) s)
  /\ predict_time_to_target_in (binary64 float_sum math_log Rdiv) (Some one_percent_floats) 100 200
     = Ret "Approx. 2.3 months".
Proof.
  pose proof (time_to_target_classes
                (exact_arithmetic math_log) [(0, 100); (1, 150)]%Q [] 100 200 (50 # 100)
                (ln (Q2R (200 / 100))) (ln (Q2R (1 + (50 # 100))))
                eq_refl eq_refl ltac:(discriminate) eq_refl eq_refl
                ltac:(apply Rgt_not_eq, ln_positive; unfold Q2R; cbn; lra))
    as [Hclass [_ [_ [_ Hfloat]]]].
  split.
  - apply Hclass. vm_compute. reflexivity.
  - apply (Hfloat math_log Rdiv); [apply math_log_within|apply Rdiv_within]; lra.
Defined.

(** *** A logarithm that is zero *)

Lemma math_log_one : math_log 1 = Ret 0.
Proof.
  rewrite math_log_positive by reflexivity. now rewrite Q2R_1, ln_1.
Qed.

(** The growth rates of the series are 1/10, 1/5 and -3/10: their mean is
    zero. *)
Lemma cancelling_caps_mean :
  exists g : Q, mean_growth (map snd cancelling_caps) = Some g /\ (g == 0)%Q.
Proof.
  eexists. split; vm_compute; reflexivity.
Qed.

(** In floating point the three rates add up to [2 ^ -54], the mean is a
    third of it, and 1 plus the mean is rounded to 1. *)
Lemma cancelling_caps_float_mean (log : Q -> outcome R) (quot : R -> R -> R) :
  exists g : Q,
    mean_growth_in (binary64 float_sum log quot) (map snd cancelling_caps) = Some g
    /\ (0 < g)%Q
    /\ round64 (1 + g) = 1%Q.
Proof.
  eexists. split; [vm_compute; reflexivity|]. split; vm_compute; reflexivity.
Qed.

(** In floating point a mean growth rate that is positive and at most
    [2 ^ -53] vanishes beside 1, and the division by the logarithm of 1 is
    not caught. *)
Lemma vanishing_growth_raises
    (sum : list Q -> Q) (log : Q -> outcome R) (quot : R -> R -> R)
    (caps : list (Q * Q)) (prices : list Q) (C T g : Q) (a : R) :
  log 1%Q = Ret 0 ->
  (C < T)%Q -> ~ (C == 0)%Q ->
  log (round64 (T / C)) = Ret a ->
  (0 < g <= pow2 (- 53))%Q ->
  (mean_growth_in (binary64 sum log quot) (map snd caps) = Some g ->
   predict_time_to_target_in (binary64 sum log quot) (Some caps) C T
   = Raise ZeroDivisionError)
  /\ (mean_growth_in (binary64 sum log quot) prices = Some g ->
      analyze_stock_growth_and_time_in (binary64 sum log quot) (Some prices) C T
      = Raise ZeroDivisionError).
Proof.
  intros H1 HT HC Ha [Hg Hsmall].
  assert (Hone : round64 (1 + g) = 1%Q)
    by (apply round64_one_plus; split; [now apply Qlt_le_weak|exact Hsmall]).
  split; intro Hmean.
  - rewrite (predict_in_after_guards _ caps C T g HT Hmean Hg).
    unfold days_to_target_in. rewrite (div_in_nonzero _ T C HC).
    cbn [bind a_log a_add a_div binary64].
    rewrite Ha, Hone, H1. cbn [bind]. now rewrite quot_in_zero.
  - rewrite (stock_in_after_guards _ prices C T g HT Hmean Hg).
    rewrite (div_in_nonzero _ T C HC).
    cbn [bind a_log a_add a_div binary64].
    rewrite Ha, Hone, H1. cbn [bind]. now rewrite quot_in_zero.
Qed.

(** C5: the series 1000, 1100, 1320, 924 has the mean growth rate 0, and the
    specification promises the non-positive classification for it, with no
    division by a logarithm that is zero.  In floating point its mean is a
    positive rounding error, the test [avg_daily_growth <= 0] is passed,
    [1 + avg_daily_growth] is 1, whose logarithm is 0, and the division
    raises [ZeroDivisionError], which [except ValueError] does not catch:
    both projections raise, for C = 100 and T = 200.  The same happens, with
    any [sum], for every series whose mean growth rate computed is positive
    and at most [2 ^ -53]. *)
Theorem zero_log_division_is_not_caught
    (sum : list Q -> Q) (log : Q -> outcome R) (quot : R -> R -> R) (a : R) :
  log 1%Q = Ret 0 -> log 2%Q = Ret a ->
  (exists g : Q, mean_growth (map snd cancelling_caps) = Some g /\ (g == 0)%Q)
  /\ (exists g : Q,
        mean_growth_in (binary64 float_sum log quot) (map snd cancelling_caps) = Some g
        /\ (0 < g)%Q /\ round64 (1 + g) = 1%Q)
  /\ predict_time_to_target_in (binary64 float_sum log quot)
       (Some cancelling_caps) 100 200
     = Raise ZeroDivisionError
  /\ analyze_stock_growth_and_time_in (binary64 float_sum log quot)
       (Some (map snd cancelling_caps)) 100 200
     = Raise ZeroDivisionError
  /\ (forall (caps : list (Q * Q)) (prices : list Q) (C T g : Q) (b : R),
        (C < T)%Q -> ~ (C == 0)%Q ->
        log (round64 (T / C)) = Ret b ->
        (0 < g <= pow2 (- 53))%Q ->
        (mean_growth_in (binary64 sum log quot) (map snd caps) = Some g ->
         predict_time_to_target_in (binary64 sum log quot) (Some caps) C T
         = Raise ZeroDivisionError)
        /\ (mean_growth_in (binary64 sum log quot) prices = Some g ->
            analyze_stock_growth_and_time_in (binary64 sum log quot) (Some prices) C T
            = Raise ZeroDivisionError)).
Proof.
  intros H1 H2.
  split; [exact cancelling_caps_mean|].
  split; [exact (cancelling_caps_float_mean log quot)|].
  destruct (cancelling_caps_float_mean log quot) as [g [Hmean [Hg Hone]]].
  assert (Hratio : div_in (binary64 float_sum log quot) 200 100 = Ret 2%Q)
    by (vm_compute; reflexivity).
  split; [|split].
  - rewrite (predict_in_after_guards _ cancelling_caps 100 200 g eq_refl Hmean Hg).
    unfold days_to_target_in. rewrite Hratio. cbn [bind a_log a_add binary64].
    rewrite H2, Hone, H1. cbn [bind]. now rewrite quot_in_zero.
  - rewrite (stock_in_after_guards _ (map snd cancelling_caps) 100 200 g
               eq_refl Hmean Hg).
    rewrite Hratio. cbn [bind a_log a_add binary64].
    rewrite H2, Hone, H1. cbn [bind]. now rewrite quot_in_zero.
  - intros caps prices C T g' b HT HC Hb Hsmall.
    exact (vanishing_growth_raises sum log quot caps prices C T g' b H1 HT HC Hb Hsmall).
Qed.

Lemma zero_log_division_is_not_caught_witness :
  predict_time_to_target_in (binary64 float_sum math_log Rdiv)
    (Some cancelling_caps) 100 200
  = Raise ZeroDivisionError.
Proof.
  exact (proj1 (proj2 (proj2 (zero_log_division_is_not_caught
                                float_sum math_log Rdiv (ln (Q2R 2))
                                math_log_one eq_refl)))).
Defined.

(** *** Target already met *)

(** C9: when the target is at or below the current value both projections
    return their "at or below" result, whatever the series (even a missing
    one) and whatever the logarithm function. *)
Theorem target_at_or_below_current
    (log : Q -> outcome R) (historical_caps : option (list (Q * Q)))
    (historical_prices : option (list Q)) (C T : Q) :
  (T <= C)%Q ->
  predict_time_to_target_with log historical_caps C T
  = Ret "Target price is at or below the current price."
  /\ analyze_stock_growth_and_time_with log historical_prices C T
     = Ret ("Target is at or below current price.", "N/A").
Proof.
  intro H. apply Qle_bool_iff in H.
  unfold predict_time_to_target_with, analyze_stock_growth_and_time_with.
  now rewrite H.
Qed.

Lemma target_at_or_below_current_witness :
  predict_time_to_target_with math_log None 100 100
  = Ret "Target price is at or below the current price."
  /\ analyze_stock_growth_and_time_with math_log (Some []) 100 100
     = Ret ("Target is at or below current price.", "N/A").
Proof.
  apply (target_at_or_below_current math_log None (Some []) 100 100).
  discriminate.
Defined.

Local Close Scope R_scope.

(** ** Crypto composite score *)

Lemma crypto_grade_table (score : Z) : crypto_table score (fst (crypto_grade score)).
Proof.
  unfold crypto_table, crypto_grade.
  destruct (Z.leb_spec 90 score); [cbn; repeat split; intros; (reflexivity || lia)|].
  destruct (Z.leb_spec 80 score); [cbn; repeat split; intros; (reflexivity || lia)|].
  destruct (Z.leb_spec 70 score); [cbn; repeat split; intros; (reflexivity || lia)|].
  destruct (Z.leb_spec 60 score); [cbn; repeat split; intros; (reflexivity || lia)|].
  destruct (Z.leb_spec 50 score); cbn; repeat split; intros; (reflexivity || lia).
Qed.

Lemma clamp_clamped (raw : Z) : clamped raw (clamp raw).
Proof. unfold clamped, clamp. lia. Qed.

(** C7: whenever the crypto scorer returns, the score it reports is the raw
    sum of the sub-scores clamped to [0,100], and the grade is the one the
    ordered table (90 A+, 80 A, 70 B+, 60 B, 50 C, else D) gives for the
    clamped score; a coin with scarcity 0, growth -20 and market cap
    modifier -10 has raw score -30, reported as 0 with grade D. *)
Theorem crypto_score_clamped :
  (forall (symbol : string) (md : market_data) (historical_caps : option (list (Q * Q)))
          (score_text grade summary : string) (reasons : list string),
      generate_final_analysis symbol md historical_caps
      = Ret (score_text, grade, summary, reasons) ->
      exists raw score : Z,
        crypto_tally symbol md historical_caps = Ret (raw, reasons)
        /\ clamped raw score
        /\ score_text = show_Z score ++ "/100"
        /\ crypto_table score grade)
  /\ (exists reasons : list string,
        crypto_tally "eth" declining_giant (Some declining_caps) = Ret (-30, reasons)
        /\ generate_final_analysis "eth" declining_giant (Some declining_caps)
           = Ret ("0/100", "D",
                  "High-Risk. Shows significant red flags in its fundamental data.",
                  reasons)).
Proof.
  split.
  - intros symbol md caps score_text grade summary reasons.
    unfold generate_final_analysis.
    destruct (crypto_tally symbol md caps) as [[raw rs]|e]; cbn [bind fst snd];
      [|discriminate].
    pose proof (crypto_grade_table (clamp raw)) as Htable.
    destruct (crypto_grade (clamp raw)) as [g sm]. cbn [fst] in Htable.
    intro H. injection H as <- <- <- <-.
    exists raw, (clamp raw). repeat split; try reflexivity; try apply clamp_clamped.
    all: apply Htable.
  - eexists. split; vm_compute; reflexivity.
Qed.

Lemma crypto_score_clamped_witness :
  exists raw score : Z,
    crypto_tally "btc" (snapshot (Some (VNum 21000000)) (Some (VNum 19000000))) None
    = Ret (raw, ["[+] Strong Scarcity: Asset has a fixed supply, similar to Bitcoin.";
                 "[-] Could not determine network growth.";
                 "[+] Built-in Catalyst: Has a supply-reduction event (halving).";
                 "[+] High Reward Potential: Lower market cap allows for more explosive growth."])
    /\ clamped raw score
    /\ "56/100" = show_Z score ++ "/100"
    /\ crypto_table score "C".
Proof.
  apply (proj1 crypto_score_clamped "btc"
           (snapshot (Some (VNum 21000000)) (Some (VNum 19000000))) None
           "56/100" "C" "Speculative. Lacks a solid foundation in key areas.").
  vm_compute. reflexivity.
Defined.

(** *** Growth sub-score *)

(** The growth of the network cannot be determined: the series is missing
    or empty, or the market cap is a number that is not positive. *)
Lemma crypto_growth_undetermined (md : market_data)
    (historical_caps : option (list (Q * Q))) (t : tally) (cap : Q) :
  historical_caps = None \/ historical_caps = Some []
  \/ (dict_get (market_cap md) (VNum 0) = VNum cap /\ (cap <= 0)%Q) ->
  crypto_growth md historical_caps t
  = Ret (fst t + 0, (snd t ++ ["[-] Could not determine network growth."])%list).
Proof.
  unfold crypto_growth.
  intros [->|[->|[Hcap Hle]]]; try reflexivity.
  destruct historical_caps as [[|pair rest]|]; try reflexivity.
  rewrite Hcap. cbn [py_gt bind].
  apply Qlt_bool_false in Hle. now rewrite Hle.
Qed.

(** With a non-empty series and a positive market cap, a series without a
    usable pair leaves the score and the reasons as they were. *)
Lemma crypto_growth_no_usable_pair (md : market_data)
    (pair : Q * Q) (rest : list (Q * Q)) (t : tally) (cap : Q) :
  dict_get (market_cap md) (VNum 0) = VNum cap -> (0 < cap)%Q ->
  mean_growth (map snd (pair :: rest)) = None ->
  crypto_growth md (Some (pair :: rest)) t = Ret t.
Proof.
  intros Hcap Hpos Hmean. unfold crypto_growth. rewrite Hcap. cbn [py_gt bind].
  apply Qlt_bool_true in Hpos. rewrite Hpos.
  unfold mean_growth in Hmean.
  destruct (is_empty (daily_growth_rates (map snd (pair :: rest))));
    [reflexivity|discriminate].
Qed.

(** C10: for a series with a single point and a positive market cap the
    growth step adds no points and appends no reason: the reasons of the
    analysis go from the scarcity line to the end without a
    "[-] Could not determine network growth." line. *)
Theorem growth_reason_missing_without_usable_pair :
  mean_growth (map snd [(0, 5000000000)%Q]) = None
  /\ crypto_growth new_listing (Some [(0, 5000000000)%Q])
       (0, ["[-] Weak Scarcity: Asset is inflationary or has no defined max supply."])
     = Ret (0, ["[-] Weak Scarcity: Asset is inflationary or has no defined max supply."])
  /\ generate_final_analysis "eth" new_listing (Some [(0, 5000000000)%Q])
     = Ret ("0/100", "D",
            "High-Risk. Shows significant red flags in its fundamental data.",
            ["[-] Weak Scarcity: Asset is inflationary or has no defined max supply."]).
Proof.
  repeat split; vm_compute; reflexivity.
Qed.

(** ** Stock valuation sub-score *)

(** C8: the valuation step of the stock scorer adds 40 points and an
    "undervalued" reason for 0 < P/E < 15, 20 points and a "Fair Value"
    reason for 15 <= P/E < 30, -10 points and an "expensive" reason for
    P/E >= 30 or negative, and no points with a "[?]" reason when the P/E is
    absent; the reasons carry the P/E with two decimals. *)
Theorem stock_valuation_tiers (info : stock_info) (t : tally) :
  (forall pe : Q,
      trailingPE info = Some (VNum pe) -> (0 < pe < 15)%Q ->
      stock_valuation info t
      = Ret (fst t + 40,
             (snd t ++ [("[+] Good Value (P/E " ++ format_f false 2 pe
                        ++ "): Stock appears undervalued.")%string])%list))
  /\ (forall pe : Q,
        trailingPE info = Some (VNum pe) -> (15 <= pe < 30)%Q ->
        stock_valuation info t
        = Ret (fst t + 20,
               (snd t ++ [("[~] Fair Value (P/E " ++ format_f false 2 pe
                          ++ "): Stock seems reasonably priced.")%string])%list))
  /\ (forall pe : Q,
        trailingPE info = Some (VNum pe) -> (30 <= pe \/ pe < 0)%Q ->
        stock_valuation info t
        = Ret (fst t + -10,
               (snd t ++ [("[-] High Valuation (P/E " ++ format_f false 2 pe
                          ++ "): Stock appears expensive.")%string])%list))
  /\ (trailingPE info = None \/ trailingPE info = Some VNone ->
      stock_valuation info t
      = Ret (fst t + 0,
             (snd t ++ ["[?] Unknown Valuation: P/E ratio is not available."])%list))
  /\ generate_stock_final_analysis {| trailingPE := Some (VNum 10) |} None
     = Ret ("40/100", "C", "Speculative. Lacks a solid foundation in key areas.",
            ["[-] Could not determine growth.";
             "[+] Good Value (P/E 10.00): Stock appears undervalued."])
  /\ generate_stock_final_analysis {| trailingPE := Some (VNum 50) |} None
     = Ret ("0/100", "D", "High-Risk. Shows significant red flags in its data.",
            ["[-] Could not determine growth.";
             "[-] High Valuation (P/E 50.00): Stock appears expensive."])
  /\ generate_stock_final_analysis {| trailingPE := None |} None
     = Ret ("0/100", "D", "High-Risk. Shows significant red flags in its data.",
            ["[-] Could not determine growth.";
             "[?] Unknown Valuation: P/E ratio is not available."]).
Proof.
  unfold stock_valuation.
  split; [|split; [|split; [|split; [|repeat split; vm_compute; reflexivity]]]].
  - intros pe -> [Hlo Hhi]. cbn [dict_get truthy as_number bind].
    assert (E : Qeq_bool pe 0 = false) by (apply Qeq_bool_false; lra).
    apply Qlt_bool_true in Hlo, Hhi. now rewrite E, Hlo, Hhi.
  - intros pe -> [Hlo Hhi]. cbn [dict_get truthy as_number bind].
    assert (E : Qeq_bool pe 0 = false) by (apply Qeq_bool_false; lra).
    assert (F : Qlt_bool pe 15 = false) by now apply Qlt_bool_false.
    apply Qle_bool_iff in Hlo. apply Qlt_bool_true in Hhi.
    now rewrite E, F, Hlo, Hhi, andb_false_r.
  - intros pe -> H. cbn [dict_get truthy as_number bind].
    assert (E : Qeq_bool pe 0 = false) by (apply Qeq_bool_false; lra).
    rewrite E. cbn [negb].
    destruct H as [H|H].
    + assert (F : Qlt_bool pe 15 = false) by (apply Qlt_bool_false; lra).
      assert (G : Qlt_bool pe 30 = false) by now apply Qlt_bool_false.
      now rewrite F, G, !andb_false_r.
    + assert (F : Qlt_bool 0 pe = false) by (apply Qlt_bool_false; lra).
      assert (G : Qle_bool 15 pe = false) by (apply Qle_bool_false; lra).
      now rewrite F, G.
  - intros [->| ->]; reflexivity.
Qed.

Lemma stock_valuation_tiers_witness :
  stock_valuation {| trailingPE := Some (VNum 10) |} (30, ["growth"])
  = Ret (30 + 40,
         ["growth"; "[+] Good Value (P/E " ++ format_f false 2 10
                    ++ "): Stock appears undervalued."])
  /\ stock_valuation {| trailingPE := Some VNone |} (30, ["growth"])
     = Ret (30 + 0, ["growth"; "[?] Unknown Valuation: P/E ratio is not available."]).
Proof.
  split.
  - apply (proj1 (stock_valuation_tiers {| trailingPE := Some (VNum 10) |}
                    (30, ["growth"])) 10%Q); [reflexivity|split; reflexivity].
  - apply (proj1 (proj2 (proj2 (proj2
             (stock_valuation_tiers {| trailingPE := Some VNone |} (30, ["growth"])))))).
    right. reflexivity.
Defined.

(** ** Network growth with a market cap of zero *)

(** C1, as stated: with a market cap of 0 and a non-zero supply and price
    the two growth multiples would be the sentinel "N/A".  They are the
    rendering of an infinite float. *)
Lemma zero_market_cap_is_not_a_sentinel :
  ~ (forall (md : market_data) (target_price c p : Q),
       circulating_supply md = Some (VNum c) -> ~ (c == 0)%Q ->
       current_price md = Some (VNum p) -> ~ (p == 0)%Q ->
       market_cap md = Some (VNum 0) ->
       exists target_market_cap : string,
         analyze_network_growth md target_price = Ret (target_market_cap, "N/A", "N/A")).
Proof.
  intro H.
  destruct (H {| max_supply := None; circulating_supply := Some (VNum 5);
                 market_cap := Some (VNum 0); current_price := Some (VNum 3) |}
              1000%Q 5%Q 3%Q eq_refl ltac:(discriminate) eq_refl ltac:(discriminate)
              eq_refl) as [tmc E].
  vm_compute in E. discriminate E.
Qed.

(** C1, amended: with a market cap read as 0 (missing or zero) and a
    non-zero supply and price, the function returns without raising; the
    required growth multiple is infinite and so is its square root, and both
    are rendered "infx". *)
Theorem network_growth_zero_market_cap
    (md : market_data) (target_price c p cap : Q) :
  circulating_supply md = Some (VNum c) -> ~ (c == 0)%Q ->
  current_price md = Some (VNum p) -> ~ (p == 0)%Q ->
  dict_get (market_cap md) (VNum 0) = VNum cap -> (cap == 0)%Q ->
  analyze_network_growth md target_price
  = Ret ("$" ++ format_f true 2 (target_price * c), "infx", "infx").
Proof.
  intros Hc Hcnz Hp Hpnz Hcap Hzero. unfold analyze_network_growth.
  rewrite Hc, Hp, Hcap. cbn [dict_get truthy py_eq py_mul py_gt bind].
  apply Qeq_bool_false in Hcnz, Hpnz. rewrite Hcnz, Hpnz. cbn [negb orb].
  assert (E : Qlt_bool 0 cap = false) by (apply Qlt_bool_false; lra).
  rewrite E. reflexivity.
Qed.

Lemma network_growth_zero_market_cap_witness :
  analyze_network_growth
    {| max_supply := None; circulating_supply := Some (VNum 5);
       market_cap := None; current_price := Some (VNum 3) |} 1000
  = Ret ("$" ++ format_f true 2 (1000 * 5), "infx", "infx").
Proof.
  apply (network_growth_zero_market_cap _ 1000 5 3 0);
    try reflexivity; discriminate.
Defined.

(** * Further properties of the engine *)

(** ** Formatting respects equality of rationals *)

Lemma Qlt_bool_comp (a b c d : Q) :
  (a == b)%Q -> (c == d)%Q -> Qlt_bool a c = Qlt_bool b d.
Proof.
  intros Hab Hcd.
  destruct (Qlt_bool a c) eqn:E; symmetry.
  - apply Qlt_bool_true. apply Qlt_bool_true in E. now rewrite <- Hab, <- Hcd.
  - apply Qlt_bool_false. apply Qlt_bool_false in E. now rewrite <- Hab, <- Hcd.
Qed.


Lemma py_round_comp (x y : Q) : (x == y)%Q -> py_round x = py_round y.
Proof.
  intro H. unfold py_round.
  rewrite (Qfloor_comp x y H).
  assert (E : (x - inject_Z (Qfloor y) ?= 1 # 2)%Q = (y - inject_Z (Qfloor y) ?= 1 # 2)%Q)
    by now rewrite H.
  now rewrite E.
Qed.

Lemma format_f_comp (grouped : bool) (d : nat) (x y : Q) :
  (x == y)%Q -> format_f grouped d x = format_f grouped d y.
Proof.
  intro H. unfold format_f.
  rewrite (Qlt_bool_comp x y 0 0 H (Qeq_refl _)).
  now rewrite (py_round_comp (Qabs x * inject_Z (10 ^ Z.of_nat d))
                 (Qabs y * inject_Z (10 ^ Z.of_nat d)) ltac:(now rewrite H)).
Qed.

(** ** Billionaire scenarios *)

Lemma billionaire_numbers (md : market_data) (target_price p : Q) :
  dict_get (current_price md) (VNum 0) = VNum p ->
  ~ (p == 0)%Q -> ~ (target_price == 0)%Q ->
  analyze_billionaire_scenarios md target_price
  = Ret ("$" ++ format_f true 2 (1000000000 / p * target_price),
         "$" ++ format_f true 2 (1000000000 / target_price * p)).
Proof.
  intros Hp Hpnz Htnz. unfold analyze_billionaire_scenarios. rewrite Hp.
  cbn [py_eq py_div py_mul]. unfold num_div.
  apply Qeq_bool_false in Hpnz, Htnz. now rewrite Hpnz, Htnz.
Qed.

Lemma billionaire_guard (md : market_data) (target_price p : Q) :
  dict_get (current_price md) (VNum 0) = VNum p ->
  (p == 0 \/ target_price == 0)%Q ->
  analyze_billionaire_scenarios md target_price = Ret ("N/A", "N/A").
Proof.
  intros Hp H. unfold analyze_billionaire_scenarios. rewrite Hp. cbn [py_eq].
  destruct H as [H|H]; apply Qeq_bool_iff in H; rewrite H;
    [reflexivity|now rewrite orb_true_r].
Qed.

(** X1: with a numeric (or missing) current price the billionaire scenarios
    always return, and the result is the pair of "N/A" exactly when the
    current price or the target price is zero. *)
Theorem billionaire_not_applicable (md : market_data) (target_price p : Q) :
  dict_get (current_price md) (VNum 0) = VNum p ->
  (exists result, analyze_billionaire_scenarios md target_price = Ret result)
  /\ (analyze_billionaire_scenarios md target_price = Ret ("N/A", "N/A")
      <-> (p == 0 \/ target_price == 0)%Q).
Proof.
  intro Hp.
  destruct (Qeq_dec p 0) as [Hz|Hpnz].
  { rewrite (billionaire_guard md target_price p Hp (or_introl Hz)).
    split; [eexists; reflexivity|]. split; auto. }
  destruct (Qeq_dec target_price 0) as [Hz|Htnz].
  { rewrite (billionaire_guard md target_price p Hp (or_intror Hz)).
    split; [eexists; reflexivity|]. split; auto. }
  rewrite (billionaire_numbers md target_price p Hp Hpnz Htnz).
  split; [eexists; reflexivity|]. split.
  - intro H. discriminate H.
  - intros [H|H]; contradiction.
Qed.

Lemma billionaire_not_applicable_witness :
  (exists result,
     analyze_billionaire_scenarios
       {| max_supply := None; circulating_supply := None; market_cap := None;
          current_price := None |} 7 = Ret result)
  /\ (analyze_billionaire_scenarios
        {| max_supply := None; circulating_supply := None; market_cap := None;
           current_price := None |} 7 = Ret ("N/A", "N/A")
      <-> (0 == 0 \/ 7 == 0)%Q).
Proof.
  apply (billionaire_not_applicable _ 7 0). reflexivity.
Defined.

(** X2: the two scenarios mirror each other: the cost today of $1B at the
    target, for price p and target t, is the value at target of $1B today
    for price t and target p, and conversely. *)
Theorem billionaire_scenarios_mirror
    (md1 md2 : market_data) (p t : Q) (value cost value' cost' : string) :
  dict_get (current_price md1) (VNum 0) = VNum p ->
  dict_get (current_price md2) (VNum 0) = VNum t ->
  analyze_billionaire_scenarios md1 t = Ret (value, cost) ->
  analyze_billionaire_scenarios md2 p = Ret (value', cost') ->
  cost = value' /\ value = cost'.
Proof.
  intros H1 H2.
  destruct (Qeq_dec p 0) as [Hp|Hp].
  { rewrite (billionaire_guard md1 t p H1 (or_introl Hp)).
    rewrite (billionaire_guard md2 p t H2 (or_intror Hp)).
    intros E1 E2. injection E1 as <- <-. injection E2 as <- <-. now split. }
  destruct (Qeq_dec t 0) as [Ht|Ht].
  { rewrite (billionaire_guard md1 t p H1 (or_intror Ht)).
    rewrite (billionaire_guard md2 p t H2 (or_introl Ht)).
    intros E1 E2. injection E1 as <- <-. injection E2 as <- <-. now split. }
  rewrite (billionaire_numbers md1 t p H1 Hp Ht).
  rewrite (billionaire_numbers md2 p t H2 Ht Hp).
  intros E1 E2. injection E1 as <- <-. injection E2 as <- <-. now split.
Qed.

Lemma billionaire_scenarios_mirror_witness :
  "$250,000,000.00" = "$250,000,000.00" /\ "$4,000,000,000.00" = "$4,000,000,000.00".
Proof.
  apply (billionaire_scenarios_mirror
           {| max_supply := None; circulating_supply := None; market_cap := None;
              current_price := Some (VNum 5) |}
           {| max_supply := None; circulating_supply := None; market_cap := None;
              current_price := Some (VNum 20) |}
           5 20 "$4,000,000,000.00" "$250,000,000.00"
           "$250,000,000.00" "$4,000,000,000.00");
    vm_compute; reflexivity.
Defined.

(** ** Network growth *)

Lemma truthy_false (v : value) : truthy v = false <-> falsy v.
Proof.
  destruct v as [|q]; cbn [truthy falsy]; [tauto|].
  rewrite negb_false_iff. apply Qeq_bool_iff.
Qed.

Lemma py_eq_zero (v : value) : py_eq v 0 = true <-> is_zero v.
Proof.
  destruct v as [|q]; cbn [py_eq is_zero]; [split; [discriminate|tauto]|].
  apply Qeq_bool_iff.
Qed.

Lemma network_growth_guard (md : market_data) (target_price : Q) :
  falsy (supply_of md) \/ is_zero (price_of md) ->
  analyze_network_growth md target_price = Ret ("N/A", "N/A", "N/A").
Proof.
  unfold supply_of, price_of, analyze_network_growth. intros [H|H].
  - apply truthy_false in H. now rewrite H.
  - apply py_eq_zero in H. rewrite H. now rewrite orb_true_r.
Qed.

Lemma network_growth_guard_passed (md : market_data) :
  ~ (falsy (supply_of md) \/ is_zero (price_of md)) ->
  exists c : Q,
    supply_of md = VNum c /\ ~ (c == 0)%Q
    /\ negb (truthy (supply_of md)) || py_eq (supply_of md) 0 || py_eq (price_of md) 0
       = false.
Proof.
  intro H.
  destruct (supply_of md) as [|c] eqn:Hs; [exfalso; apply H; now left|].
  exists c. split; [reflexivity|].
  assert (Hc : ~ (c == 0)%Q) by (intro E; apply H; now left).
  split; [exact Hc|].
  cbn [truthy py_eq]. apply Qeq_bool_false in Hc. rewrite Hc. cbn [negb orb].
  destruct (py_eq (price_of md) 0) eqn:Hp; [|reflexivity].
  exfalso. apply H. right. now apply py_eq_zero.
Qed.

(** Past the guard, with a numeric market cap, the three strings. *)
Lemma network_growth_numbers (md : market_data) (target_price c cap : Q) :
  ~ (falsy (supply_of md) \/ is_zero (price_of md)) ->
  supply_of md = VNum c -> cap_of md = VNum cap ->
  analyze_network_growth md target_price
  = Ret ("$" ++ format_f true 2 (target_price * c),
         (if Qlt_bool 0 cap
          then format_f false 2 (target_price * c / cap) else "inf") ++ "x",
         (if Qlt_bool 0 cap
          then if Qlt_bool 0 (target_price * c / cap)
               then format_f_R 2 (sqrt (Q2R (target_price * c / cap)))
               else format_f false 2 1
          else "inf") ++ "x").
Proof.
  intros Hguard Hs Hcap.
  destruct (network_growth_guard_passed md Hguard) as [c' [Hs' [_ Hg]]].
  unfold supply_of, price_of, cap_of in *. unfold analyze_network_growth.
  rewrite Hg, Hs, Hcap. cbn [py_mul py_gt bind].
  destruct (Qlt_bool 0 cap) eqn:Hpos; [|reflexivity].
  cbn [py_div]. unfold num_div.
  assert (Hnz : Qeq_bool cap 0 = false).
  { apply Qeq_bool_false. apply Qlt_bool_true in Hpos. intro E. rewrite E in Hpos.
    discriminate Hpos. }
  rewrite Hnz. cbn [bind float_positive].
  destruct (Qlt_bool 0 (target_price * c / cap)) eqn:Hm; [|reflexivity].
  cbn [math_sqrt].
  assert (Hn : Qlt_bool (target_price * c / cap) 0 = false).
  { apply Qlt_bool_false. apply Qlt_bool_true in Hm. now apply Qlt_le_weak. }
  now rewrite Hn.
Qed.

(** X3: [analyze_network_growth] returns the three "N/A" exactly when the
    circulating supply is missing, [None] or zero, or the current price is
    zero; it raises exactly when the guard is passed and the market cap is
    [None], and the exception is then [TypeError]: no input makes it divide
    by zero or take the square root of a negative number. *)
Theorem network_growth_outcomes (md : market_data) (target_price : Q) :
  (analyze_network_growth md target_price = Ret ("N/A", "N/A", "N/A")
   <-> falsy (supply_of md) \/ is_zero (price_of md))
  /\ (forall e : exn,
        analyze_network_growth md target_price = Raise e
        <-> e = TypeError
            /\ ~ (falsy (supply_of md) \/ is_zero (price_of md))
            /\ cap_of md = VNone).
Proof.
  assert (Hdec : (falsy (supply_of md) \/ is_zero (price_of md))
                 \/ ~ (falsy (supply_of md) \/ is_zero (price_of md))).
  { destruct (supply_of md) as [|c]; cbn [falsy]; [left; now left|].
    destruct (Qeq_dec c 0) as [E|N]; [left; now left|].
    destruct (price_of md) as [|p]; cbn [is_zero]; [right; tauto|].
    destruct (Qeq_dec p 0) as [E|N']; [left; now right|right; tauto]. }
  destruct Hdec as [Hg|Hg].
  - rewrite (network_growth_guard md target_price Hg). split; [tauto|].
    intro e. split; [discriminate|]. intros [_ [H _]]. contradiction.
  - destruct (network_growth_guard_passed md Hg) as [c [Hs [Hc Hb]]].
    destruct (cap_of md) as [|cap] eqn:Hcap.
    + assert (E : analyze_network_growth md target_price = Raise TypeError).
      { unfold supply_of, price_of, cap_of in *. unfold analyze_network_growth.
        now rewrite Hb, Hs, Hcap. }
      rewrite E. split; [split; [discriminate|contradiction]|].
      intro e. split.
      * intro H. injection H as <-. now repeat split.
      * intros [-> _]. reflexivity.
    + rewrite (network_growth_numbers md target_price c cap Hg Hs Hcap). split.
      * split; [discriminate|contradiction].
      * intro e. split; [discriminate|]. intros [_ [_ H]]. discriminate H.
Qed.

(** X4: past the zero test the current price plays no part: two snapshots
    with the same circulating supply and market cap, and non-zero current
    prices, get the same result for the same target. *)
Theorem network_growth_ignores_price (md1 md2 : market_data) (target_price : Q) :
  circulating_supply md1 = circulating_supply md2 ->
  market_cap md1 = market_cap md2 ->
  ~ is_zero (price_of md1) -> ~ is_zero (price_of md2) ->
  analyze_network_growth md1 target_price = analyze_network_growth md2 target_price.
Proof.
  intros Hs Hc H1 H2. unfold analyze_network_growth, price_of in *.
  rewrite Hs, Hc.
  assert (E : forall v, ~ is_zero v -> py_eq v 0 = false).
  { intros v Hv. destruct (py_eq v 0) eqn:E; [|reflexivity].
    apply py_eq_zero in E. contradiction. }
  now rewrite (E _ H1), (E _ H2).
Qed.

Lemma network_growth_ignores_price_witness :
  analyze_network_growth
    {| max_supply := None; circulating_supply := Some (VNum 5);
       market_cap := Some (VNum 10); current_price := Some (VNum 2) |} 4
  = analyze_network_growth
      {| max_supply := None; circulating_supply := Some (VNum 5);
         market_cap := Some (VNum 10); current_price := Some VNone |} 4.
Proof.
  apply network_growth_ignores_price; try reflexivity; cbn; [discriminate|tauto].
Defined.

Lemma format_f_R_one : format_f_R 2 1 = "1.00".
Proof.
  unfold format_f_R.
  destruct (Rlt_dec 1 0) as [L|_]; [lra|].
  rewrite Rabs_R1. change (IZR (10 ^ Z.of_nat 2)) with 100%R.
  rewrite (R_round_unique (1 * 100) 100) by lra. reflexivity.
Qed.

(** X5: with a positive market cap, a target whose market cap equals the
    current one needs no growth: both multiples are "1.00x". *)
Theorem network_growth_unit_multiple (md : market_data) (target_price c cap : Q) :
  ~ is_zero (price_of md) ->
  supply_of md = VNum c -> cap_of md = VNum cap ->
  (0 < cap)%Q -> (target_price * c == cap)%Q ->
  analyze_network_growth md target_price
  = Ret ("$" ++ format_f true 2 (target_price * c), "1.00x", "1.00x").
Proof.
  intros Hp Hs Hcap Hpos Heq.
  assert (Hc : ~ (c == 0)%Q).
  { intro E. rewrite E in Heq. rewrite Qmult_0_r in Heq. rewrite <- Heq in Hpos.
    discriminate Hpos. }
  assert (Hg : ~ (falsy (supply_of md) \/ is_zero (price_of md))).
  { rewrite Hs. cbn [falsy]. tauto. }
  rewrite (network_growth_numbers md target_price c cap Hg Hs Hcap).
  assert (Hone : (target_price * c / cap == 1)%Q).
  { rewrite Heq. field. intro E. rewrite E in Hpos. discriminate Hpos. }
  apply Qlt_bool_true in Hpos. rewrite Hpos.
  rewrite (Qlt_bool_comp 0 0 _ 1 (Qeq_refl _) Hone).
  rewrite (format_f_comp false 2 _ 1 Hone).
  rewrite (Qeq_eqR _ 1 Hone), Q2R_1, sqrt_1, format_f_R_one.
  reflexivity.
Qed.

Lemma network_growth_unit_multiple_witness :
  analyze_network_growth
    {| max_supply := None; circulating_supply := Some (VNum 5);
       market_cap := Some (VNum 10); current_price := Some (VNum 2) |} 2
  = Ret ("$" ++ format_f true 2 (2 * 5), "1.00x", "1.00x").
Proof.
  apply (network_growth_unit_multiple _ 2 5 10); try reflexivity.
  cbn. discriminate.
Defined.



(** ** Growth rates *)

Lemma daily_growth_rates_step (prev curr : Q) (rest : list Q) :
  daily_growth_rates (prev :: curr :: rest)
  = if Qlt_bool 0 prev
    then ((curr - prev) / prev)%Q :: daily_growth_rates (curr :: rest)
    else daily_growth_rates (curr :: rest).
Proof. reflexivity. Qed.

(** X7: the extractor yields one rate for each value, the last one excepted,
    that is positive: a series of fewer than two points, or whose values
    before the last are all non-positive, has no rate. *)
Theorem growth_rates_count (values : list Q) :
  List.length (daily_growth_rates values)
  = List.length (filter (Qlt_bool 0) (removelast values)).
Proof.
  induction values as [|prev rest IH]; [reflexivity|].
  destruct rest as [|curr rest']; [reflexivity|].
  change (removelast (prev :: curr :: rest')) with (prev :: removelast (curr :: rest')).
  rewrite daily_growth_rates_step. cbn [filter].
  destruct (Qlt_bool 0 prev); cbn [List.length]; now rewrite IH.
Qed.












(** ** Outcomes of the projections *)

Lemma predict_non_positive (log : Q -> outcome R) (caps : list (Q * Q)) (C T g : Q) :
  (C < T)%Q -> mean_growth (map snd caps) = Some g -> (g <= 0)%Q ->
  predict_time_to_target_with log (Some caps) C T = Ret non_positive_message.
Proof.
  intros HT Hmean Hg. apply mean_growth_some in Hmean as [Hne Havg].
  unfold predict_time_to_target_with.
  apply Qle_bool_false in HT. rewrite HT. cbn [series_items bind].
  apply Qle_bool_iff in Hg. now rewrite Hne, Havg, Hg.
Qed.

Lemma growth_rates_non_positive (values : list Q) :
  non_increasing values -> Forall (fun rate => (rate <= 0)%Q) (daily_growth_rates values).
Proof.
  induction values as [|prev rest IH]; [constructor|].
  destruct rest as [|curr rest']; [constructor|].
  intros [Hle Hrest]. rewrite daily_growth_rates_step.
  destruct (Qlt_bool 0 prev) eqn:Hp; [|now apply IH].
  constructor; [|now apply IH].
  apply Qlt_bool_true in Hp.
  apply Qle_shift_div_r; [exact Hp|]. lra.
Qed.

Lemma fold_left_Qplus_non_positive (rates : list Q) :
  Forall (fun rate => (rate <= 0)%Q) rates ->
  forall a : Q, (fold_left Qplus rates a <= a)%Q.
Proof.
  induction 1 as [|x l Hx _ IH]; intro a; cbn [fold_left]; [apply Qle_refl|].
  apply Qle_trans with (a + x)%Q; [apply IH|lra].
Qed.

Lemma average_non_positive (rates : list Q) :
  Forall (fun rate => (rate <= 0)%Q) rates -> is_empty rates = false ->
  (average rates <= 0)%Q.
Proof.
  intros Hall Hne. unfold average.
  apply Qle_shift_div_r.
  - destruct rates as [|x l]; [discriminate|].
    change 0%Q with (inject_Z 0). rewrite <- Zlt_Qlt. cbn [List.length]. lia.
  - rewrite Qmult_0_l. now apply fold_left_Qplus_non_positive.
Qed.

(** X9: a series that never rises (each value at most its predecessor) and
    has a usable pair is answered, for a target above the current value,
    with the message of the non-positive growth; a flat series is such a
    series. *)
Theorem never_rising_series_is_not_projected
    (log : Q -> outcome R) (caps : list (Q * Q)) (C T : Q) :
  (C < T)%Q ->
  non_increasing (map snd caps) ->
  mean_growth (map snd caps) <> None ->
  predict_time_to_target_with log (Some caps) C T = Ret non_positive_message.
Proof.
  intros HT Hmono Hsome.
  destruct (mean_growth (map snd caps)) as [g|] eqn:Hmean; [|contradiction].
  apply (predict_non_positive log caps C T g HT Hmean).
  apply mean_growth_some in Hmean as [Hne <-].
  apply average_non_positive; [|exact Hne].
  now apply growth_rates_non_positive.
Qed.

Lemma never_rising_series_is_not_projected_witness :
  predict_time_to_target_with math_log (Some [(0, 50); (1, 50); (2, 50)]%Q) 50 60
  = Ret non_positive_message.
Proof.
  apply never_rising_series_is_not_projected.
  - reflexivity.
  - cbn. repeat split; discriminate.
  - vm_compute. discriminate.
Defined.







(** [math.log] raises [ValueError] only, in exact arithmetic and in floating
    point. *)
Lemma math_log_raises_ValueError_only (sum : list Q -> Q) (quot : R -> R -> R) :
  log_raises_ValueError_only (exact_arithmetic math_log)
  /\ log_raises_ValueError_only (binary64 sum math_log quot).
Proof.
  assert (H : forall (x : Q) (e : exn), math_log x = Raise e -> e = ValueError).
  { intros x e. unfold math_log.
    destruct (Qlt_bool 0 x); intro H; [discriminate H|now injection H as <-]. }
  split; exact H.
Qed.

(** What is left of the two projections past the three tests raises only
    [ZeroDivisionError], and only for a current value of zero or for a
    logarithm of [1 + g] that is zero. *)
Lemma days_to_target_in_raises (A : arithmetic) (C T g : Q) (e : exn) (handler : string)
    (over25 : string) :
  log_raises_ValueError_only A ->
  (except_ValueError
     (days_to_target <- days_to_target_in A C T g ;;
      Ret (time_string_in A over25 days_to_target)) handler = Raise e
   <-> e = ZeroDivisionError
       /\ ((C == 0)%Q
           \/ exists a : R,
                a_log A (a_div A T C) = Ret a /\ a_log A (a_add A 1 g) = Ret 0%R)).
Proof.
  intro Hlog. unfold days_to_target_in.
  destruct (Qeq_dec C 0) as [HC|HC].
  { rewrite (div_in_zero A T C HC). cbn [bind except_ValueError].
    split; [intro H; injection H as <-; split; [reflexivity|now left]
           |intros [-> _]; reflexivity]. }
  rewrite (div_in_nonzero A T C HC). cbn [bind].
  destruct (a_log A (a_div A T C)) as [a|ea] eqn:Ea; cbn [bind].
  2:{ rewrite (Hlog _ _ Ea). cbn [except_ValueError].
      split; [discriminate|]. intros [_ [H|[a [H _]]]]; [contradiction|discriminate H]. }
  destruct (a_log A (a_add A 1 g)) as [b|eb] eqn:Eb; cbn [bind].
  2:{ rewrite (Hlog _ _ Eb). cbn [except_ValueError].
      split; [discriminate|]. intros [_ [H|[a' [_ H]]]]; [contradiction|discriminate H]. }
  destruct (Req_dec_T b 0) as [Hb|Hb].
  - subst b. rewrite quot_in_zero. cbn [bind except_ValueError].
    split; [intro H; injection H as <-; split; [reflexivity|right; now exists a]
           |intros [-> _]; reflexivity].
  - rewrite (quot_in_nonzero A a b Hb). cbn [bind except_ValueError].
    split; [discriminate|]. intros [_ [H|[a' [_ H]]]]; [contradiction|].
    injection H as H. contradiction.
Qed.

(** X10: in every arithmetic whose logarithm raises nothing but
    [ValueError], [predict_time_to_target] raises in exactly three cases,
    all with a target above the current value: the series is [None]
    ([TypeError]); or the mean growth rate computed is positive and either
    the current value is zero, or the logarithm of [1 + g] is zero while the
    logarithm of T/C is defined ([ZeroDivisionError], which [except
    ValueError] does not catch). *)
Theorem predict_time_to_target_raises
    (A : arithmetic) (historical_caps : option (list (Q * Q))) (C T : Q) (e : exn) :
  log_raises_ValueError_only A ->
  (predict_time_to_target_in A historical_caps C T = Raise e
   <-> (C < T)%Q
       /\ ((historical_caps = None /\ e = TypeError)
           \/ (exists (caps : list (Q * Q)) (g : Q),
                 historical_caps = Some caps
                 /\ mean_growth_in A (map snd caps) = Some g
                 /\ (0 < g)%Q /\ e = ZeroDivisionError
                 /\ ((C == 0)%Q
                     \/ exists a : R,
                          a_log A (a_div A T C) = Ret a
                          /\ a_log A (a_add A 1 g) = Ret 0%R)))).
Proof.
  intro Hlog. split.
  - intro H.
    destruct (Qlt_le_dec C T) as [HT|HT].
    2:{ apply Qle_bool_iff in HT. unfold predict_time_to_target_in in H.
        rewrite HT in H. discriminate H. }
    split; [exact HT|].
    destruct historical_caps as [caps|].
    2:{ left. split; [reflexivity|]. unfold predict_time_to_target_in in H.
        apply Qle_bool_false in HT. rewrite HT in H. cbn in H. now injection H as <-. }
    right.
    destruct (mean_growth_in A (map snd caps)) as [g|] eqn:Hmean.
    2:{ unfold predict_time_to_target_in in H.
        apply Qle_bool_false in HT. rewrite HT in H. cbn [series_items bind] in H.
        unfold mean_growth_in in Hmean.
        destruct (is_empty (growth_rates_in A (map snd caps))); discriminate. }
    destruct (Qlt_le_dec 0 g) as [Hg|Hg].
    2:{ pose proof Hmean as Hm. apply mean_growth_in_some in Hm as [Hne Havg].
        unfold predict_time_to_target_in in H.
        apply Qle_bool_false in HT. rewrite HT in H. cbn [series_items bind] in H.
        apply Qle_bool_iff in Hg. rewrite Hne, Havg, Hg in H. discriminate H. }
    rewrite (predict_in_after_guards A caps C T g HT Hmean Hg) in H.
    apply (days_to_target_in_raises A C T g e _ _ Hlog) in H as [-> Hcase].
    exists caps, g. now repeat split.
  - intros [HT [[-> ->]|[caps [g [-> [Hmean [Hg [-> Hcase]]]]]]]].
    + unfold predict_time_to_target_in.
      apply Qle_bool_false in HT. now rewrite HT.
    + rewrite (predict_in_after_guards A caps C T g HT Hmean Hg).
      apply (days_to_target_in_raises A C T g _ _ _ Hlog). now split.
Qed.

Lemma predict_time_to_target_raises_witness :
  predict_time_to_target_in (binary64 float_sum math_log Rdiv) (Some cancelling_caps) 100 200
  = Raise ZeroDivisionError.
Proof.
  apply (proj2 (predict_time_to_target_raises
                  (binary64 float_sum math_log Rdiv) (Some cancelling_caps) 100 200
                  ZeroDivisionError (proj2 (math_log_raises_ValueError_only float_sum Rdiv)))).
  split; [reflexivity|]. right.
  destruct (cancelling_caps_float_mean math_log Rdiv) as [g [Hmean [Hg Hone]]].
  exists cancelling_caps, g. repeat split; try assumption.
  right. exists (ln (Q2R 2)). cbn [a_log a_div a_add binary64]. split.
  - replace (round64 (200 / 100)) with 2%Q by (vm_compute; reflexivity).
    reflexivity.
  - rewrite Hone. exact math_log_one.
Defined.

(** X11: the same for [analyze_stock_growth_and_time]: in every arithmetic
    whose logarithm raises nothing but [ValueError] it raises exactly when
    the target is above the current price and either the prices are [None]
    ([TypeError]), or the mean growth rate computed is positive and either
    the current price is zero or the logarithm of [1 + g] is zero while the
    logarithm of T/C is defined ([ZeroDivisionError]). *)
Theorem analyze_stock_growth_and_time_raises
    (A : arithmetic) (historical_prices : option (list Q)) (C T : Q) (e : exn) :
  log_raises_ValueError_only A ->
  (analyze_stock_growth_and_time_in A historical_prices C T = Raise e
   <-> (C < T)%Q
       /\ ((historical_prices = None /\ e = TypeError)
           \/ (exists (prices : list Q) (g : Q),
                 historical_prices = Some prices
                 /\ mean_growth_in A prices = Some g
                 /\ (0 < g)%Q /\ e = ZeroDivisionError
                 /\ ((C == 0)%Q
                     \/ exists a : R,
                          a_log A (a_div A T C) = Ret a
                          /\ a_log A (a_add A 1 g) = Ret 0%R)))).
Proof.
  intro Hlog.
  assert (Htail : forall g : Q,
            (required_growth <- div_in A T C ;;
             except_ValueError
               (numerator <- a_log A required_growth ;;
                denominator <- a_log A (a_add A 1 g) ;;
                days_to_target <- quot_in A numerator denominator ;;
                Ret (time_string_in A "Over 25 years" days_to_target,
                     format_f false 2 required_growth ++ "x"))
               ("Could not compute time estimate.", "N/A")) = Raise e
            <-> e = ZeroDivisionError
                /\ ((C == 0)%Q
                    \/ exists a : R,
                         a_log A (a_div A T C) = Ret a
                         /\ a_log A (a_add A 1 g) = Ret 0%R)).
  { intro g. destruct (Qeq_dec C 0) as [HC|HC].
    { rewrite (div_in_zero A T C HC). cbn [bind].
      split; [intro H; injection H as <-; split; [reflexivity|now left]
             |intros [-> _]; reflexivity]. }
    rewrite (div_in_nonzero A T C HC). cbn [bind].
    destruct (a_log A (a_div A T C)) as [a|ea] eqn:Ea; cbn [bind].
    2:{ rewrite (Hlog _ _ Ea). cbn [except_ValueError].
        split; [discriminate|].
        intros [_ [H|[a [H _]]]]; [contradiction|discriminate H]. }
    destruct (a_log A (a_add A 1 g)) as [b|eb] eqn:Eb; cbn [bind].
    2:{ rewrite (Hlog _ _ Eb). cbn [except_ValueError].
        split; [discriminate|].
        intros [_ [H|[a' [_ H]]]]; [contradiction|discriminate H]. }
    destruct (Req_dec_T b 0) as [Hb|Hb].
    - subst b. rewrite quot_in_zero. cbn [bind except_ValueError].
      split; [intro H; injection H as <-; split; [reflexivity|right; now exists a]
             |intros [-> _]; reflexivity].
    - rewrite (quot_in_nonzero A a b Hb). cbn [bind except_ValueError].
      split; [discriminate|]. intros [_ [H|[a' [_ H]]]]; [contradiction|].
      injection H as H. contradiction. }
  split.
  - intro H.
    destruct (Qlt_le_dec C T) as [HT|HT].
    2:{ apply Qle_bool_iff in HT. unfold analyze_stock_growth_and_time_in in H.
        rewrite HT in H. discriminate H. }
    split; [exact HT|].
    destruct historical_prices as [prices|].
    2:{ left. split; [reflexivity|]. unfold analyze_stock_growth_and_time_in in H.
        apply Qle_bool_false in HT. rewrite HT in H. cbn in H. now injection H as <-. }
    right.
    destruct (mean_growth_in A prices) as [g|] eqn:Hmean.
    2:{ unfold analyze_stock_growth_and_time_in in H.
        apply Qle_bool_false in HT. rewrite HT in H. cbn [series_items bind] in H.
        unfold mean_growth_in in Hmean.
        destruct (is_empty (growth_rates_in A prices)); discriminate. }
    destruct (Qlt_le_dec 0 g) as [Hg|Hg].
    2:{ pose proof Hmean as Hm. apply mean_growth_in_some in Hm as [Hne Havg].
        unfold analyze_stock_growth_and_time_in in H.
        apply Qle_bool_false in HT. rewrite HT in H. cbn [series_items bind] in H.
        apply Qle_bool_iff in Hg. rewrite Hne, Havg, Hg in H. discriminate H. }
    rewrite (stock_in_after_guards A prices C T g HT Hmean Hg) in H.
    apply Htail in H as [-> Hcase].
    exists prices, g. now repeat split.
  - intros [HT [[-> ->]|[prices [g [-> [Hmean [Hg [-> Hcase]]]]]]]].
    + unfold analyze_stock_growth_and_time_in.
      apply Qle_bool_false in HT. now rewrite HT.
    + rewrite (stock_in_after_guards A prices C T g HT Hmean Hg).
      apply Htail. now split.
Qed.

Lemma analyze_stock_growth_and_time_raises_witness :
  analyze_stock_growth_and_time_in (exact_arithmetic math_log)
    (Some [100; 150]%Q) 0 10
  = Raise ZeroDivisionError.
Proof.
  apply (proj2 (analyze_stock_growth_and_time_raises
                  (exact_arithmetic math_log) (Some [100; 150]%Q) 0 10
                  ZeroDivisionError (proj1 (math_log_raises_ValueError_only float_sum Rdiv)))).
  split; [reflexivity|]. right.
  exists [100; 150]%Q. eexists.
  split; [reflexivity|]. split; [vm_compute; reflexivity|].
  split; [reflexivity|]. split; [reflexivity|]. left. reflexivity.
Defined.



(** ** Stock composite score *)

Lemma tally_unchanged (t : tally) : t = (fst t + 0, (snd t ++ [])%list).
Proof.
  destruct t as [score reasons]. cbn [fst snd]. now rewrite Z.add_0_r, app_nil_r.
Qed.

(** The growth step adds 60 points exactly for a strong growth, and
    otherwise 30, -20 or no points; it appends at most one reason. *)
Lemma stock_growth_step (historical_prices : option (list Q)) (t : tally) :
  exists (points : Z) (lines : list string),
    stock_growth historical_prices t = (fst t + points, (snd t ++ lines)%list)
    /\ ((points = 60 /\ strong_growth historical_prices)
        \/ ((points = 30 \/ points = -20 \/ points = 0)
            /\ ~ strong_growth historical_prices))
    /\ forallb has_marker lines = true
    /\ (List.length lines <= 1)%nat.
Proof.
  unfold stock_growth.
  assert (Hnone : forall ps, historical_prices = Some ps -> mean_growth ps = None ->
                             ~ strong_growth historical_prices).
  { intros ps E Hm [ps' [g [E' [Hm' _]]]]. congruence. }
  destruct historical_prices as [[|first rest]|] eqn:Hp.
  - exists 0, ["[-] Could not determine growth."]. repeat split; auto.
    right. split; [auto|]. apply (Hnone [] eq_refl eq_refl).
  - set (prices := first :: rest) in *.
    destruct (is_empty (daily_growth_rates prices)) eqn:Hempty.
    + exists 0, []. split; [apply tally_unchanged|]. repeat split; auto.
      right. split; [auto|]. apply (Hnone prices eq_refl).
      unfold mean_growth. now rewrite Hempty.
    + assert (Hmean : mean_growth prices = Some (average (daily_growth_rates prices)))
        by (unfold mean_growth; now rewrite Hempty).
      destruct (Qlt_bool (3 # 1000) (average (daily_growth_rates prices))) eqn:Hstrong.
      * exists 60, ["[+] Strong Growth: Stock has shown strong positive momentum."].
        repeat split; auto. left. split; [reflexivity|].
        exists prices, (average (daily_growth_rates prices)).
        repeat split; auto. now apply Qlt_bool_true.
      * assert (Hweak : ~ strong_growth (Some prices)).
        { intros [ps [g [E [Hm Hg]]]]. injection E as <-.
          rewrite Hmean in Hm. injection Hm as <-.
          apply Qlt_bool_false in Hstrong. exact (Qlt_not_le _ _ Hg Hstrong). }
        destruct (Qlt_bool 0 (average (daily_growth_rates prices))).
        -- exists 30, ["[~] Positive Growth: Stock has been growing, but slowly."].
           repeat split; auto.
        -- exists (-20), ["[-] Negative Growth: Stock price has been declining recently."].
           repeat split; auto.
  - exists 0, ["[-] Could not determine growth."]. repeat split; auto.
    right. split; [auto|]. intros [ps [g [E _]]]. discriminate E.
Qed.

(** The valuation step always returns; it adds 40 points exactly for a P/E
    between 0 and 15, and otherwise 20, -10 or no points; it appends one
    reason. *)
Lemma stock_valuation_step (info : stock_info) (t : tally) :
  exists (points : Z) (line : string),
    stock_valuation info t = Ret (fst t + points, (snd t ++ [line])%list)
    /\ ((points = 40 /\ good_value info)
        \/ ((points = 20 \/ points = -10 \/ points = 0) /\ ~ good_value info))
    /\ has_marker line = true.
Proof.
  unfold stock_valuation, good_value.
  destruct (trailingPE info) as [[|pe]|] eqn:Hpe; cbn [dict_get truthy].
  - eexists 0, _. split; [reflexivity|]. split; [|reflexivity].
    right. split; [auto|]. intros [pe [E _]]. discriminate E.
  - destruct (Qeq_bool pe 0) eqn:Hz; cbn [negb as_number bind].
    + eexists 0, _. split; [reflexivity|]. split; [|reflexivity].
      right. split; [auto|]. intros [pe' [E [Hlo _]]]. injection E as <-.
      apply Qeq_bool_iff in Hz. lra.
    + destruct (Qlt_bool 0 pe && Qlt_bool pe 15) eqn:Hgood.
      * eexists 40, _. split; [reflexivity|]. split; [|reflexivity].
        left. split; [reflexivity|]. exists pe. split; [reflexivity|].
        apply andb_true_iff in Hgood as [H1 H2].
        split; now apply Qlt_bool_true.
      * assert (Hbad : ~ (exists pe' : Q, Some (VNum pe) = Some (VNum pe')
                                          /\ (0 < pe' < 15)%Q)).
        { intros [pe' [E [Hlo Hhi]]]. injection E as <-.
          apply Qlt_bool_true in Hlo, Hhi. now rewrite Hlo, Hhi in Hgood. }
        destruct (Qle_bool 15 pe && Qlt_bool pe 30).
        -- eexists 20, _. split; [reflexivity|]. split; [|reflexivity].
           right. split; auto.
        -- eexists (-10), _. split; [reflexivity|]. split; [|reflexivity].
           right. split; auto.
  - eexists 0, _. split; [reflexivity|]. split; [|reflexivity].
    right. split; [auto|]. intros [pe [E _]]. discriminate E.
Qed.

(** The growth step in an arithmetic: 60 points exactly for a strong growth
    as computed there. *)
Lemma stock_growth_in_step (A : arithmetic) (historical_prices : option (list Q))
    (t : tally) :
  exists (points : Z) (lines : list string),
    stock_growth_in A historical_prices t = (fst t + points, (snd t ++ lines)%list)
    /\ ((points = 60 /\ strong_growth_in A historical_prices)
        \/ ((points = 30 \/ points = -20 \/ points = 0)
            /\ ~ strong_growth_in A historical_prices)).
Proof.
  unfold stock_growth_in.
  assert (Hnone : forall ps, historical_prices = Some ps -> mean_growth_in A ps = None ->
                             ~ strong_growth_in A historical_prices).
  { intros ps E Hm [ps' [g [E' [Hm' _]]]]. congruence. }
  destruct historical_prices as [[|first rest]|] eqn:Hp.
  - exists 0, ["[-] Could not determine growth."]. split; [reflexivity|].
    right. split; [auto|]. apply (Hnone [] eq_refl eq_refl).
  - set (prices := first :: rest) in *.
    destruct (is_empty (growth_rates_in A prices)) eqn:Hempty.
    + exists 0, []. split; [apply tally_unchanged|].
      right. split; [auto|]. apply (Hnone prices eq_refl).
      unfold mean_growth_in. now rewrite Hempty.
    + assert (Hmean : mean_growth_in A prices
                      = Some (average_in A (growth_rates_in A prices)))
        by (unfold mean_growth_in; now rewrite Hempty).
      destruct (Qlt_bool (a_const A (3 # 1000))
                  (average_in A (growth_rates_in A prices))) eqn:Hstrong.
      * exists 60, ["[+] Strong Growth: Stock has shown strong positive momentum."].
        split; [reflexivity|]. left. split; [reflexivity|].
        exists prices, (average_in A (growth_rates_in A prices)).
        repeat split; auto. now apply Qlt_bool_true.
      * assert (Hweak : ~ strong_growth_in A (Some prices)).
        { intros [ps [g [E [Hm Hg]]]]. injection E as <-.
          rewrite Hmean in Hm. injection Hm as <-.
          apply Qlt_bool_false in Hstrong. exact (Qlt_not_le _ _ Hg Hstrong). }
        destruct (Qlt_bool 0 (average_in A (growth_rates_in A prices))).
        -- exists 30, ["[~] Positive Growth: Stock has been growing, but slowly."].
           split; [reflexivity|]. right. split; auto.
        -- exists (-20), ["[-] Negative Growth: Stock price has been declining recently."].
           split; [reflexivity|]. right. split; auto.
  - exists 0, ["[-] Could not determine growth."]. split; [reflexivity|].
    right. split; [auto|]. intros [ps [g [E _]]]. discriminate E.
Qed.

(** With the exact operations the scorer is the one defined first. *)
Lemma exact_stock_analysis (log : Q -> outcome R) (info : stock_info)
    (historical_prices : option (list Q)) :
  generate_stock_final_analysis_in (exact_arithmetic log) info historical_prices
  = generate_stock_final_analysis info historical_prices.
Proof.
  unfold generate_stock_final_analysis_in, generate_stock_final_analysis,
    stock_growth_in, stock_growth.
  destruct historical_prices as [[|first rest]|]; reflexivity.
Qed.

(** X14: in every arithmetic [generate_stock_final_analysis] returns for
    every input; the score it reports is one of 0, 20, 30, 40, 50, 60, 70,
    80 and 100; the score is 100 and the grade "A" exactly when the mean
    daily growth computed is above 0.003 and the P/E ratio is between 0 and
    15.  For the prices 200, 250, 189 and a P/E of 10 the exact mean is
    0.003, not above it, and the result is 70/100, B+; in floating point the
    mean is above the float 0.003 and the result is 100/100, A. *)
Theorem stock_analysis_scores (A : arithmetic) (info : stock_info)
    (historical_prices : option (list Q)) :
  (exists (score : Z) (grade summary : string) (reasons : list string),
     generate_stock_final_analysis_in A info historical_prices
     = Ret (show_Z score ++ "/100", grade, summary, reasons)
     /\ In score [0; 20; 30; 40; 50; 60; 70; 80; 100]
     /\ (grade = "A" <-> strong_growth_in A historical_prices /\ good_value info)
     /\ (score = 100 <-> strong_growth_in A historical_prices /\ good_value info))
  /\ (exists (summary : string) (reasons : list string),
        generate_stock_final_analysis_in (exact_arithmetic math_log)
          {| trailingPE := Some (VNum 10) |} (Some [200; 250; 189]%Q)
        = Ret ("70/100", "B+", summary, reasons))
  /\ (forall (log : Q -> outcome R) (quot : R -> R -> R),
        exists (summary : string) (reasons : list string),
          generate_stock_final_analysis_in (binary64 float_sum log quot)
            {| trailingPE := Some (VNum 10) |} (Some [200; 250; 189]%Q)
          = Ret ("100/100", "A", summary, reasons)).
Proof.
  split; [|split; [|intros log quot]; eexists _, _; vm_compute; reflexivity].
  unfold generate_stock_final_analysis_in.
  destruct (stock_growth_in_step A historical_prices (0, []))
    as [growth [lines [-> Hgrowth]]].
  destruct (stock_valuation_step info (fst (0, @nil string) + growth,
                                       (snd (0, @nil string) ++ lines)%list))
    as [valuation [line [-> [Hvaluation _]]]].
  cbn [bind fst snd].
  exists (clamp (0 + growth + valuation)).
  destruct Hgrowth as [[-> Hs]|[[->|[->| ->]] Hs]];
    destruct Hvaluation as [[-> Hv]|[[->|[->| ->]] Hv]];
    vm_compute clamp; vm_compute stock_grade; cbv iota;
    eexists _, _, _; (split; [reflexivity|]); (split; [cbn; tauto|]);
    split; split; intro H; try discriminate H; try tauto; try lia.
Qed.

(** ** Outcomes of the scarcity scorer *)

(** The scorer either returns, or raises [TypeError] for the lack of a
    circulating supply. *)
Lemma scarcity_outcome (md : market_data) :
  ((exists result, calculate_scarcity_score md = Ret result)
   /\ ~ (~ no_max_supply md /\ dict_get (circulating_supply md) VNone = VNone))
  \/ (calculate_scarcity_score md = Raise TypeError
      /\ ~ no_max_supply md /\ dict_get (circulating_supply md) VNone = VNone).
Proof.
  destruct (dict_get (max_supply md) VNone) as [|m] eqn:Hm.
  - left. split; [eexists; apply scarcity_no_max|intros [H _]; apply H];
      unfold no_max_supply; now rewrite Hm.
  - destruct (Qeq_dec m 0) as [Hz|Hnz].
    + left. split; [eexists; apply scarcity_no_max|intros [H _]; apply H];
        unfold no_max_supply; now rewrite Hm.
    + assert (Hmax : ~ no_max_supply md) by (unfold no_max_supply; now rewrite Hm).
      unfold calculate_scarcity_score. rewrite Hm. cbn [truthy py_eq].
      pose proof Hnz as Hb. apply Qeq_bool_false in Hb. rewrite Hb. cbn [negb orb].
      destruct (dict_get (circulating_supply md) VNone) as [|c]; cbn [py_div bind].
      * right. now repeat split.
      * left. unfold num_div. rewrite Hb. cbn [bind].
        split; [eexists; reflexivity|]. intros [_ H]. discriminate H.
Qed.

(** X15: [calculate_scarcity_score] raises exactly when the max supply is a
    non-zero number and the circulating supply is missing or [None]; the
    exception is [TypeError], and the division never meets a zero max
    supply. *)
Theorem scarcity_raises (md : market_data) (e : exn) :
  calculate_scarcity_score md = Raise e
  <-> e = TypeError
      /\ ~ no_max_supply md
      /\ dict_get (circulating_supply md) VNone = VNone.
Proof.
  destruct (scarcity_outcome md) as [[[result Hret] Hno]|[Hraise [Hmax Hcirc]]].
  - rewrite Hret. split; [discriminate|]. intros [_ H]. contradiction.
  - rewrite Hraise. split.
    + intro H. injection H as <-. now repeat split.
    + intros [-> _]. reflexivity.
Qed.

(** ** Crypto composite score *)

Lemma crypto_scarcity_step (md : market_data) (t : tally) :
  match calculate_scarcity_score md with
  | Raise e => crypto_scarcity md t = Raise e
  | Ret (scarcity_score, _) =>
      exists line : string,
        crypto_scarcity md t
        = Ret (fst t + scarcity_score * 4, (snd t ++ [line])%list)
        /\ has_marker line = true /\ line <> catalyst_line
  end.
Proof.
  unfold crypto_scarcity.
  destruct (calculate_scarcity_score md) as [[s d]|e]; cbn [bind fst snd];
    [|reflexivity].
  unfold add. cbn [fst snd]. rewrite Z.add_0_r.
  destruct (8 <=? s); [|destruct (5 <=? s)];
    eexists; (split; [reflexivity|]); (split; [reflexivity|discriminate]).
Qed.

Lemma crypto_growth_step (md : market_data) (historical_caps : option (list (Q * Q)))
    (t : tally) :
  match crypto_growth md historical_caps t with
  | Raise e => e = TypeError /\ cap_of md = VNone
  | Ret t' =>
      exists (points : Z) (lines : list string),
        t' = (fst t + points, (snd t ++ lines)%list)
        /\ (points = 40 \/ points = 20 \/ points = -20 \/ points = 0)
        /\ forallb has_marker lines = true
        /\ ~ In catalyst_line lines
        /\ (List.length lines <= 1)%nat
  end.
Proof.
  unfold crypto_growth, cap_of.
  assert (Hnone : exists (points : Z) (lines : list string),
            add 0 "[-] Could not determine network growth." t
            = (fst t + points, (snd t ++ lines)%list)
            /\ (points = 40 \/ points = 20 \/ points = -20 \/ points = 0)
            /\ forallb has_marker lines = true
            /\ ~ In catalyst_line lines
            /\ (List.length lines <= 1)%nat).
  { eexists 0, [_]. split; [reflexivity|]. repeat split; auto.
    intros [H|[]]. discriminate H. }
  destruct historical_caps as [[|first rest]|]; try exact Hnone.
  destruct (dict_get (market_cap md) (VNum 0)) as [|cap]; cbn [py_gt bind];
    [now split|].
  destruct (Qlt_bool 0 cap); [|exact Hnone].
  destruct (is_empty (daily_growth_rates (map snd (first :: rest)))).
  { exists 0, []. split; [apply tally_unchanged|]. repeat split; auto. }
  destruct (Qlt_bool (5 # 1000) _); [|destruct (Qlt_bool 0 _)].
  - eexists 40, [_]. split; [reflexivity|]. repeat split; auto.
    intros [H|[]]. discriminate H.
  - eexists 20, [_]. split; [reflexivity|]. repeat split; auto.
    intros [H|[]]. discriminate H.
  - eexists (-20), [_]. split; [reflexivity|]. repeat split; auto.
    intros [H|[]]. discriminate H.
Qed.

Lemma crypto_catalyst_step (symbol : string) (md : market_data) (t : tally) :
  match crypto_catalyst symbol md t with
  | Raise e => e = TypeError /\ cap_of md = VNone
  | Ret t' =>
      cap_of md <> VNone
      /\ exists (points : Z) (lines : list string),
           t' = (fst t + points, (snd t ++ lines)%list)
           /\ -10 <= points <= 20
           /\ forallb has_marker lines = true
           /\ (In catalyst_line lines
               <-> in_list (lower symbol) halving_assets = true)
           /\ (List.length lines <= 2)%nat
  end.
Proof.
  unfold crypto_catalyst, cap_of.
  destruct (dict_get (market_cap md) (VNum 0)) as [|cap]; cbn [py_lt py_gt bind];
    [now split|].
  destruct (in_list (lower symbol) halving_assets).
  - destruct (Qlt_bool cap 1000000000); cbn [bind];
      [|destruct (Qlt_bool 50000000000 cap)].
    + split; [discriminate|]. eexists 20, [_; _]. unfold add; cbn [fst snd].
      rewrite <- app_assoc, <- Z.add_assoc. split; [reflexivity|].
      repeat split; auto; try lia. intros _. left. reflexivity.
    + split; [discriminate|]. eexists 0, [_; _]. unfold add; cbn [fst snd].
      rewrite <- app_assoc, <- Z.add_assoc. split; [reflexivity|].
      repeat split; auto; try lia. intros _. left. reflexivity.
    + split; [discriminate|]. eexists 10, [_]. split; [reflexivity|].
      repeat split; auto; try lia. intros _. left. reflexivity.
  - destruct (Qlt_bool cap 1000000000); cbn [bind];
      [|destruct (Qlt_bool 50000000000 cap)].
    + split; [discriminate|]. eexists 10, [_]. split; [reflexivity|].
      repeat split; auto; try lia; try discriminate.
      try (intros [H|[]]; discriminate H).
    + split; [discriminate|]. eexists (-10), [_]. split; [reflexivity|].
      repeat split; auto; try lia; try discriminate.
      try (intros [H|[]]; discriminate H).
    + split; [discriminate|]. exists 0, []. split; [apply tally_unchanged|].
      repeat split; auto; try lia; try discriminate; try (intros []).
Qed.

(** The raw score and the reasons, stage by stage. *)
Lemma crypto_tally_shape (symbol : string) (md : market_data)
    (historical_caps : option (list (Q * Q))) (raw : Z) (reasons : list string) :
  crypto_tally symbol md historical_caps = Ret (raw, reasons) ->
  exists (scarcity_score : Z) (description scarcity_line : string)
         (growth catalyst : Z) (growth_lines catalyst_lines : list string),
    calculate_scarcity_score md = Ret (scarcity_score, description)
    /\ raw = scarcity_score * 4 + growth + catalyst
    /\ reasons = (scarcity_line :: growth_lines ++ catalyst_lines)%list
    /\ (growth = 40 \/ growth = 20 \/ growth = -20 \/ growth = 0)
    /\ -10 <= catalyst <= 20
    /\ has_marker scarcity_line = true /\ scarcity_line <> catalyst_line
    /\ forallb has_marker growth_lines = true /\ ~ In catalyst_line growth_lines
    /\ (List.length growth_lines <= 1)%nat
    /\ forallb has_marker catalyst_lines = true
    /\ (In catalyst_line catalyst_lines <-> in_list (lower symbol) halving_assets = true)
    /\ (List.length catalyst_lines <= 2)%nat.
Proof.
  unfold crypto_tally.
  pose proof (crypto_scarcity_step md (0, [])) as H1.
  destruct (calculate_scarcity_score md) as [[s d]|e0].
  2:{ rewrite H1. discriminate. }
  destruct H1 as [line [-> [Hm1 Hn1]]]. cbn [bind fst snd].
  pose proof (crypto_growth_step md historical_caps (0 + s * 4, ([] ++ [line])%list)) as H2.
  destruct (crypto_growth md historical_caps _) as [t2|e2]; [|discriminate].
  destruct H2 as [g [gl [-> [Hg [Hm2 [Hn2 Hl2]]]]]]. cbn [bind fst snd].
  pose proof (crypto_catalyst_step symbol md
                (0 + s * 4 + g, (([] ++ [line]) ++ gl)%list)) as H3.
  destruct (crypto_catalyst symbol md _) as [t3|e3]; [|discriminate].
  destruct H3 as [_ [c [cl [-> [Hc [Hm3 [Hi3 Hl3]]]]]]]. cbn [fst snd].
  intro H. injection H as <- <-.
  exists s, d, line, g, c, gl, cl.
  repeat split; auto; try lia; try apply Hi3.
Qed.

Lemma crypto_analysis_reasons (symbol : string) (md : market_data)
    (historical_caps : option (list (Q * Q)))
    (score grade summary : string) (reasons : list string) :
  generate_final_analysis symbol md historical_caps
  = Ret (score, grade, summary, reasons) ->
  exists raw : Z, crypto_tally symbol md historical_caps = Ret (raw, reasons).
Proof.
  unfold generate_final_analysis.
  destruct (crypto_tally symbol md historical_caps) as [[raw rs]|e];
    cbn [bind fst snd]; [|discriminate].
  destruct (crypto_grade (clamp raw)) as [g sm].
  intro H. injection H as _ _ _ <-. now exists raw.
Qed.

(** X16: [generate_final_analysis] raises exactly when the scarcity scorer
    does (max supply defined and non-zero, circulating supply missing) or
    when the market cap is [None]; the exception is [TypeError]. *)
Theorem crypto_analysis_raises (symbol : string) (md : market_data)
    (historical_caps : option (list (Q * Q))) (e : exn) :
  generate_final_analysis symbol md historical_caps = Raise e
  <-> e = TypeError
      /\ ((~ no_max_supply md /\ dict_get (circulating_supply md) VNone = VNone)
          \/ cap_of md = VNone).
Proof.
  unfold generate_final_analysis, crypto_tally.
  pose proof (crypto_scarcity_step md (0, [])) as H1.
  destruct (scarcity_outcome md) as [[[[s d] Hret] Hok]|[Hraise [Ha Hb]]].
  - rewrite Hret in H1. destruct H1 as [line [-> _]]. cbn [bind].
    pose proof (crypto_growth_step md historical_caps
                  (fst (0, @nil string) + s * 4,
                   (snd (0, @nil string) ++ [line])%list)) as H2.
    destruct (crypto_growth md historical_caps _) as [t2|e2]; cbn [bind].
    + pose proof (crypto_catalyst_step symbol md t2) as H3.
      destruct (crypto_catalyst symbol md t2) as [t3|e3]; cbn [bind].
      * destruct H3 as [Hcap _]. destruct (crypto_grade (clamp (fst t3))).
        split; [discriminate|]. intros [_ [H|H]]; contradiction.
      * destruct H3 as [-> Hcap]. split.
        -- intro H. injection H as <-. auto.
        -- intros [-> _]. reflexivity.
    + destruct H2 as [-> Hcap]. split.
      * intro H. injection H as <-. auto.
      * intros [-> _]. reflexivity.
  - rewrite Hraise in H1. rewrite H1. cbn [bind]. split.
    + intro H. injection H as <-. auto.
    + intros [-> _]. reflexivity.
Qed.

(** X17: in the raw score of the crypto scorer the scarcity score counts
    four times, and the growth and the catalyst steps together contribute
    between -30 and 60 points. *)
Theorem crypto_raw_score_bounds (symbol : string) (md : market_data)
    (historical_caps : option (list (Q * Q)))
    (scarcity_score raw : Z) (description : string) (reasons : list string) :
  calculate_scarcity_score md = Ret (scarcity_score, description) ->
  crypto_tally symbol md historical_caps = Ret (raw, reasons) ->
  scarcity_score * 4 - 30 <= raw <= scarcity_score * 4 + 60.
Proof.
  intros Hs Ht.
  destruct (crypto_tally_shape symbol md historical_caps raw reasons Ht)
    as [s [d [line [g [c [gl [cl [Hs' [-> [_ [Hg [Hc _]]]]]]]]]]]].
  rewrite Hs in Hs'. injection Hs' as <- _. lia.
Qed.

Lemma crypto_raw_score_bounds_witness :
  0 * 4 - 30 <= -30 <= 0 * 4 + 60.
Proof.
  apply (crypto_raw_score_bounds "eth" declining_giant (Some declining_caps)
           0 (-30) "Indeterminate (No defined max supply)"
           ["[-] Weak Scarcity: Asset is inflationary or has no defined max supply.";
            "[-] Negative Growth: Network value has been declining recently.";
            "[-] Limited Upside: Very large market cap may limit exponential returns."]);
    vm_compute; reflexivity.
Defined.

(** X18: the reasons of the crypto analysis mention the built-in catalyst
    exactly when the symbol, in lower case, is one of btc, ltc, kas and
    bch. *)
Theorem catalyst_reason_iff (symbol : string) (md : market_data)
    (historical_caps : option (list (Q * Q)))
    (score grade summary : string) (reasons : list string) :
  generate_final_analysis symbol md historical_caps
  = Ret (score, grade, summary, reasons) ->
  (In catalyst_line reasons <-> In (lower symbol) ["btc"; "ltc"; "kas"; "bch"]).
Proof.
  intro H.
  destruct (crypto_analysis_reasons _ _ _ _ _ _ _ H) as [raw Ht].
  destruct (crypto_tally_shape symbol md historical_caps raw reasons Ht)
    as [s [d [line [g [c [gl [cl [_ [_ [-> [_ [_ [_ [Hn1 [_ [Hn2 [_ [_ [Hi _]]]]]]]]]]]]]]]]]]].
  assert (Hlist : in_list (lower symbol) halving_assets = true
                  <-> In (lower symbol) ["btc"; "ltc"; "kas"; "bch"]).
  { unfold in_list, halving_assets. rewrite existsb_exists. split.
    - intros [x [Hin Heq]]. apply String.eqb_eq in Heq. now subst x.
    - intro Hin. exists (lower symbol). split; [exact Hin|apply String.eqb_refl]. }
  rewrite <- Hlist, <- Hi. cbn [In]. rewrite in_app_iff. split.
  - intros [E|[Hin|Hin]]; [now contradiction Hn1|contradiction|exact Hin].
  - intro Hin. right. now right.
Qed.

Lemma catalyst_reason_iff_witness :
  In catalyst_line
    ["[+] Strong Scarcity: Asset has a fixed supply, similar to Bitcoin.";
     "[-] Could not determine network growth.";
     "[+] Built-in Catalyst: Has a supply-reduction event (halving).";
     "[+] High Reward Potential: Lower market cap allows for more explosive growth."]
  <-> In (lower "BTC") ["btc"; "ltc"; "kas"; "bch"].
Proof.
  apply (catalyst_reason_iff "BTC"
           (snapshot (Some (VNum 21000000)) (Some (VNum 19000000))) None
           "56/100" "C" "Speculative. Lacks a solid foundation in key areas.").
  vm_compute. reflexivity.
Defined.

Lemma stock_analysis_reasons (info : stock_info) (historical_prices : option (list Q))
    (score grade summary : string) (reasons : list string) :
  generate_stock_final_analysis info historical_prices
  = Ret (score, grade, summary, reasons) ->
  forallb has_marker reasons = true /\ (1 <= List.length reasons <= 2)%nat.
Proof.
  unfold generate_stock_final_analysis.
  destruct (stock_growth_step historical_prices (0, []))
    as [growth [lines [-> [_ [Hmarks Hlen]]]]].
  destruct (stock_valuation_step info (fst (0, @nil string) + growth,
                                       (snd (0, @nil string) ++ lines)%list))
    as [valuation [line [-> [_ Hmark]]]].
  cbn [bind fst snd].
  destruct (stock_grade (clamp (0 + growth + valuation))) as [g s].
  intro H. injection H as _ _ _ <-. split.
  - rewrite forallb_app, Hmarks. cbn [forallb]. now rewrite Hmark.
  - rewrite length_app. cbn [List.length]. lia.
Qed.

(** X19: every reason returned by either composite scorer starts with one of
    the markers "[+] ", "[~] ", "[-] " and "[?] "; the crypto scorer returns
    between one and four reasons, the stock scorer one or two. *)
Theorem reasons_carry_markers (score grade summary : string) (reasons : list string) :
  (forall (symbol : string) (md : market_data) (historical_caps : option (list (Q * Q))),
      generate_final_analysis symbol md historical_caps
      = Ret (score, grade, summary, reasons) ->
      forallb has_marker reasons = true /\ (1 <= List.length reasons <= 4)%nat)
  /\ (forall (info : stock_info) (historical_prices : option (list Q)),
        generate_stock_final_analysis info historical_prices
        = Ret (score, grade, summary, reasons) ->
        forallb has_marker reasons = true /\ (1 <= List.length reasons <= 2)%nat).
Proof.
  split; [|intros info prices; apply stock_analysis_reasons].
  intros symbol md caps H.
  destruct (crypto_analysis_reasons _ _ _ _ _ _ _ H) as [raw Ht].
  destruct (crypto_tally_shape symbol md caps raw reasons Ht)
    as [s [d [line [g [c [gl [cl [_ [_ [-> [_ [_ [Hm1 [_ [Hm2 [_ [Hl2 [Hm3 [_ Hl3]]]]]]]]]]]]]]]]]]].
  split.
  - cbn [forallb]. now rewrite Hm1, forallb_app, Hm2, Hm3.
  - cbn [List.length]. rewrite length_app. lia.
Qed.

Lemma reasons_carry_markers_witness :
  forallb has_marker
    ["[-] Could not determine growth.";
     "[+] Good Value (P/E 10.00): Stock appears undervalued."] = true
  /\ (1 <= 2 <= 2)%nat.
Proof.
  apply (proj2 (reasons_carry_markers "40/100" "C"
                  "Speculative. Lacks a solid foundation in key areas."
                  ["[-] Could not determine growth.";
                   "[+] Good Value (P/E 10.00): Stock appears undervalued."])
           {| trailingPE := Some (VNum 10) |} None).
  vm_compute. reflexivity.
Defined.

(** ** The map from symbols to coins *)

Lemma dict_find_set_same {V : Type} (key : string) (v : V) (d : dict V) :
  dict_find key (dict_set key v d) = Some v.
Proof.
  induction d as [|[k old] rest IH]; cbn [dict_set dict_find].
  - now rewrite String.eqb_refl.
  - destruct (String.eqb key k) eqn:E; cbn [dict_find]; rewrite E; [reflexivity|exact IH].
Qed.

Lemma dict_find_set_other {V : Type} (key other : string) (v : V) (d : dict V) :
  key <> other -> dict_find key (dict_set other v d) = dict_find key d.
Proof.
  intro Hne. apply String.eqb_neq in Hne.
  induction d as [|[k old] rest IH]; cbn [dict_set dict_find].
  - now rewrite Hne.
  - destruct (String.eqb other k) eqn:E; cbn [dict_find].
    + apply String.eqb_eq in E. subst k. now rewrite Hne.
    + now rewrite IH.
Qed.

Lemma coin_map_add_find (coin_map : dict (list (string * string))) (c : coin)
    (key : string) :
  dict_find key (coin_map_add coin_map c)
  = if String.eqb (lower (coin_symbol c)) key
    then Some (match dict_find key coin_map with
               | Some entries => entries
               | None => []
               end ++ [(coin_id c, coin_name c)])%list
    else dict_find key coin_map.
Proof.
  unfold coin_map_add.
  destruct (String.eqb (lower (coin_symbol c)) key) eqn:E.
  - apply String.eqb_eq in E. rewrite E.
    destruct (dict_find key coin_map) as [entries|] eqn:Hfind.
    + rewrite Hfind. apply dict_find_set_same.
    + rewrite dict_find_set_same. apply dict_find_set_same.
  - apply String.eqb_neq in E.
    assert (Hne : key <> lower (coin_symbol c)) by congruence.
    destruct (dict_find (lower (coin_symbol c)) coin_map) as [entries|] eqn:Hfind.
    + rewrite Hfind. now apply dict_find_set_other.
    + rewrite dict_find_set_same. rewrite !dict_find_set_other by exact Hne.
      reflexivity.
Qed.

Lemma coin_map_fold_find (coins : list coin) (key : string) :
  forall coin_map : dict (list (string * string)),
    dict_find key (fold_left coin_map_add coins coin_map)
    = match dict_find key coin_map, coins_with_symbol key coins with
      | Some entries, found => Some (entries ++ found)%list
      | None, [] => None
      | None, found => Some found
      end.
Proof.
  unfold coins_with_symbol.
  induction coins as [|c rest IH]; intro coin_map; cbn [fold_left filter map].
  - destruct (dict_find key coin_map); [now rewrite app_nil_r|reflexivity].
  - rewrite IH, coin_map_add_find.
    destruct (String.eqb (lower (coin_symbol c)) key); cbn [map].
    + destruct (dict_find key coin_map) as [entries|].
      * now rewrite <- app_assoc.
      * reflexivity.
    + reflexivity.
Qed.

(** X20: in the map built by [get_coin_list], a key is bound to the
    [(id, name)] pairs of all the coins whose symbol is the key up to letter
    case, in the order of the response; a key that is the symbol of no coin
    is absent, so no key is bound to an empty list. *)
Theorem coin_map_lookup (coins : list coin) (key : string) :
  dict_find key (get_coin_list coins)
  = match coins_with_symbol key coins with
    | [] => None
    | found => Some found
    end.
Proof.
  unfold get_coin_list. now rewrite coin_map_fold_find.
Qed.

(** ** Reading back a formatted amount *)

Lemma digits_acc_app (s1 s2 : string) :
  forall acc : Z,
    digits_acc (s1 ++ s2) acc
    = match digits_acc s1 acc with
      | Some v => digits_acc s2 v
      | None => None
      end.
Proof.
  induction s1 as [|c rest IH]; intro acc; cbn [append digits_acc]; [reflexivity|].
  destruct (digit_of c); [apply IH|reflexivity].
Qed.

Lemma digits_acc_shift (s : string) :
  forall a b r : Z,
    digits_acc s a = Some r ->
    digits_acc s b = Some (r + (b - a) * 10 ^ Z.of_nat (String.length s)).
Proof.
  induction s as [|c rest IH]; intros a b r; cbn [digits_acc String.length].
  - intro H. injection H as <-. f_equal. cbn. lia.
  - destruct (digit_of c) as [d|]; [|discriminate].
    intro H. rewrite (IH _ (10 * b + d) _ H). f_equal.
    rewrite Nat2Z.inj_succ, Z.pow_succ_r by lia. ring.
Qed.

Lemma digits_acc_not_digit (c : ascii) (s : string) :
  digit_of c = None ->
  forall acc r : Z, digits_acc s acc = Some r -> remove_char c s = s.
Proof.
  intro Hc. induction s as [|a rest IH]; intros acc r; cbn [digits_acc remove_char];
    [reflexivity|].
  destruct (digit_of a) as [d|] eqn:Ha; [|discriminate].
  intro H. destruct (Ascii.eqb_spec a c) as [->|_]; [congruence|].
  f_equal. exact (IH _ _ H).
Qed.

Lemma remove_char_app (c : ascii) (s1 s2 : string) :
  remove_char c (s1 ++ s2) = remove_char c s1 ++ remove_char c s2.
Proof.
  induction s1 as [|a rest IH]; cbn [append remove_char]; [reflexivity|].
  destruct (Ascii.eqb a c); cbn [append]; now rewrite IH.
Qed.

Lemma digits_of_uint (d : Decimal.uint) :
  forall acc : Z, digits_acc (NilEmpty.string_of_uint d) acc = Some (uint_value d acc).
Proof.
  induction d; intro acc; cbn [NilEmpty.string_of_uint digits_acc uint_value];
    [reflexivity|..]; apply IHd.
Qed.

Lemma uint_value_acc (d : Decimal.uint) :
  forall acc : positive, Z.pos (Pos.of_uint_acc d acc) = uint_value d (Z.pos acc).
Proof.
  induction d; intro acc; cbn [Pos.of_uint_acc uint_value]; [reflexivity|..];
    rewrite IHd; f_equal; lia.
Qed.

Lemma uint_value_of_uint (d : Decimal.uint) : Z.of_N (Pos.of_uint d) = uint_value d 0.
Proof.
  induction d; cbn [Pos.of_uint uint_value]; [reflexivity|exact IHd|..];
    cbn [Z.of_N]; now rewrite uint_value_acc.
Qed.

Lemma digits_of_show_Z (n : Z) : 0 <= n -> digits_acc (show_Z n) 0 = Some n.
Proof.
  intro Hn. destruct n as [|p|p]; [reflexivity| |lia].
  unfold show_Z. cbn [Z.to_int NilZero.string_of_int].
  unfold NilZero.string_of_uint.
  pose proof (DecimalPos.Unsigned.to_uint_nonnil p) as Hnil.
  pose proof (DecimalPos.Unsigned.of_to p) as Hof.
  destruct (Pos.to_uint p) eqn:E; [contradiction|..];
    rewrite digits_of_uint, <- uint_value_of_uint, Hof; reflexivity.
Qed.

Lemma frac_digits_checked (d : nat) (bound : nat) :
  forallb (frac_digits_ok d) (seq 0 bound) = true ->
  forall k : Z,
    0 <= k < Z.of_nat bound ->
    String.length (frac_digits d k) = d /\ digits_acc (frac_digits d k) 0 = Some k.
Proof.
  intros Hall k Hk.
  rewrite forallb_forall in Hall.
  assert (Hin : In (Z.to_nat k) (seq 0 bound)) by (apply in_seq; lia).
  apply Hall in Hin. unfold frac_digits_ok in Hin.
  rewrite Z2Nat.id in Hin by lia.
  apply andb_true_iff in Hin as [Hlen Hval].
  apply Nat.eqb_eq in Hlen. split; [exact Hlen|].
  destruct (digits_acc (frac_digits d k) 0) as [v|]; [|discriminate].
  apply Z.eqb_eq in Hval. now subst v.
Qed.

Lemma frac_digits_3 (k : Z) :
  0 <= k < 1000 ->
  String.length (frac_digits 3 k) = 3%nat /\ digits_acc (frac_digits 3 k) 0 = Some k.
Proof.
  apply (frac_digits_checked 3 1000). vm_compute. reflexivity.
Qed.

Lemma frac_digits_2 (k : Z) :
  0 <= k < 100 ->
  String.length (frac_digits 2 k) = 2%nat /\ digits_acc (frac_digits 2 k) 0 = Some k.
Proof.
  apply (frac_digits_checked 2 100). vm_compute. reflexivity.
Qed.

Lemma frac_digits_mod (d : nat) (n : Z) :
  frac_digits d n = frac_digits d (n mod 10 ^ Z.of_nat d).
Proof.
  unfold frac_digits. now rewrite Z.mod_mod by (apply Z.pow_nonzero; lia).
Qed.

Lemma without_separators_digits (s : string) (acc r : Z) :
  digits_acc s acc = Some r -> without_separators s = s.
Proof.
  intro H. unfold without_separators.
  rewrite (digits_acc_not_digit "$" s eq_refl acc r H).
  exact (digits_acc_not_digit "," s eq_refl acc r H).
Qed.

Lemma without_separators_app (s1 s2 : string) :
  without_separators (s1 ++ s2) = without_separators s1 ++ without_separators s2.
Proof.
  unfold without_separators. now rewrite !remove_char_app.
Qed.

(** Without its separators a grouped integer is a string of digits that
    writes the integer. *)
Lemma group_thousands_value (fuel : nat) :
  forall n : Z,
    0 <= n ->
    digits_acc (without_separators (group_thousands fuel n)) 0 = Some n.
Proof.
  induction fuel as [|fuel IH]; intros n Hn; cbn [group_thousands].
  - rewrite (without_separators_digits _ 0 n (digits_of_show_Z n Hn)).
    now apply digits_of_show_Z.
  - destruct (Z.ltb_spec n 1000) as [Hlt|Hge].
    + rewrite (without_separators_digits _ 0 n (digits_of_show_Z n Hn)).
      now apply digits_of_show_Z.
    + rewrite !without_separators_app.
      change (without_separators ",") with "".
      cbn [append].
      rewrite frac_digits_mod.
      change (10 ^ Z.of_nat 3) with 1000.
      destruct (frac_digits_3 (n mod 1000) ltac:(apply Z.mod_pos_bound; lia))
        as [Hlen Hval].
      rewrite (without_separators_digits _ 0 _ Hval).
      rewrite digits_acc_app, (IH (n / 1000)) by (apply Z.div_pos; lia).
      rewrite (digits_acc_shift _ 0 (n / 1000) _ Hval), Hlen. f_equal.
      change (10 ^ Z.of_nat 3) with 1000.
      pose proof (Z.div_mod n 1000 ltac:(lia)). lia.
Qed.

Lemma py_round_nonneg (x : Q) : (0 <= x)%Q -> 0 <= py_round x.
Proof.
  intro Hx. unfold py_round.
  pose proof (Qfloor_resp_le 0 x Hx) as Hf. change (Qfloor 0) with 0 in Hf.
  pose proof (half_even_range (Qfloor x) (x - inject_Z (Qfloor x) ?= 1 # 2)%Q). lia.
Qed.

Lemma digit_is_no_point (c : ascii) (d : Z) :
  digit_of c = Some d -> Ascii.eqb c "." = false.
Proof.
  intro H. destruct (Ascii.eqb_spec c ".") as [->|_]; [discriminate H|reflexivity].
Qed.

Lemma split_point_digits (digits rest : string) :
  forall acc r : Z,
    digits_acc digits acc = Some r ->
    split_point (digits ++ String "." rest) = (digits, Some rest).
Proof.
  induction digits as [|c tail IH]; intros acc r; cbn [append digits_acc split_point].
  - reflexivity.
  - destruct (digit_of c) as [d|] eqn:Hc; [|discriminate].
    intro H. rewrite (digit_is_no_point c d Hc), (IH _ _ H). reflexivity.
Qed.

(** [float] of a sign, digits, a point and two digits. *)
Lemma py_float_fixed (negative : bool) (int_part frac_part : string) (i f : Z) :
  digits_acc int_part 0 = Some i ->
  digits_acc frac_part 0 = Some f ->
  String.length frac_part = 2%nat ->
  py_float ((if negative then "-" else "") ++ int_part ++ "." ++ frac_part)
  = Ret (if negative
         then - (inject_Z i + inject_Z f / inject_Z 100)
         else inject_Z i + inject_Z f / inject_Z 100)%Q.
Proof.
  intros Hi Hf Hlen. unfold py_float.
  assert (Hbody : split_point (int_part ++ "." ++ frac_part) = (int_part, Some frac_part))
    by exact (split_point_digits int_part frac_part 0 i Hi).
  assert (Hsign : split_sign ((if negative then "-" else "") ++ int_part ++ "." ++ frac_part)
                  = (negative, int_part ++ "." ++ frac_part)).
  { destruct negative; [reflexivity|]. cbn [append].
    destruct int_part as [|c tail]; [reflexivity|].
    cbn [digits_acc] in Hi. destruct (digit_of c) as [d|] eqn:Hc; [|discriminate].
    clear Hi Hbody. cbn [append]. unfold split_sign.
    destruct c as [[] [] [] [] [] [] [] []]; vm_compute in Hc;
      (discriminate Hc || reflexivity). }
  rewrite Hsign, Hbody, Hi, Hf, Hlen.
  rewrite Nat.add_comm. cbn [Nat.add Nat.eqb].
  reflexivity.
Qed.

Lemma cents_value (n : Z) :
  (inject_Z (n / 100) + inject_Z (n mod 100) / inject_Z 100 == inject_Z n / 100)%Q.
Proof.
  assert (E : (inject_Z n == 100 * inject_Z (n / 100) + inject_Z (n mod 100))%Q).
  { change 100%Q with (inject_Z 100).
    rewrite <- inject_Z_mult, <- inject_Z_plus, <- Z.div_mod by lia. reflexivity. }
  rewrite E. change (inject_Z 100) with 100%Q. field.
Qed.

(** What [float] reads in an amount written with [,.2f]. *)
Lemma formatted_amount_value (x : Q) :
  py_float (without_separators ("$" ++ format_f true 2 x)) = Ret (read_back x).
Proof.
  unfold read_back, format_f, render_fixed.
  change (inject_Z (10 ^ Z.of_nat 2)) with 100%Q. change (10 ^ Z.of_nat 2) with 100.
  set (n := py_round (Qabs x * 100)).
  assert (Hn : 0 <= n).
  { apply py_round_nonneg. apply Qmult_le_0_compat; [apply Qabs_nonneg|discriminate]. }
  change (without_separators ("$" ++ ?s)) with (without_separators s).
  rewrite !without_separators_app.
  assert (Hsign : without_separators (if Qlt_bool x 0 then "-" else "")
                  = if Qlt_bool x 0 then "-" else "")
    by (destruct (Qlt_bool x 0); reflexivity).
  rewrite Hsign. change (without_separators ".") with ".".
  rewrite frac_digits_mod. change (10 ^ Z.of_nat 2) with 100.
  destruct (frac_digits_2 (n mod 100) ltac:(apply Z.mod_pos_bound; lia)) as [Hlen Hval].
  rewrite (without_separators_digits _ 0 _ Hval).
  unfold int_digits.
  rewrite (py_float_fixed (Qlt_bool x 0) _ _ (n / 100) (n mod 100));
    [destruct (Qlt_bool x 0); reflexivity| |exact Hval|exact Hlen].
  apply group_thousands_value. apply Z.div_pos; lia.
Qed.

Lemma read_back_near (x : Q) :
  exists cents : Z,
    (read_back x == inject_Z cents / 100)%Q /\ (Qabs (read_back x - x) <= 1 # 200)%Q.
Proof.
  unfold read_back.
  pose proof (py_round_near (Qabs x * 100)) as Hnear.
  pose proof (cents_value (py_round (Qabs x * 100))) as Hcents.
  set (n := py_round (Qabs x * 100)) in *. clearbody n.
  apply Qabs_Qle_condition in Hnear as [Hlo Hhi].
  destruct (Qlt_bool x 0) eqn:Hneg.
  - apply Qlt_bool_true in Hneg.
    assert (Habs : (Qabs x == - x)%Q) by (apply Qabs_neg; lra).
    rewrite Habs in Hlo, Hhi.
    exists (- n). split.
    + rewrite Hcents, inject_Z_opp. field.
    + rewrite Hcents. apply Qabs_Qle_condition.
      unfold Qdiv. change (/ 100)%Q with (1 # 100)%Q. split; lra.
  - apply Qlt_bool_false in Hneg.
    assert (Habs : (Qabs x == x)%Q) by (apply Qabs_pos; lra).
    rewrite Habs in Hlo, Hhi.
    exists n. split.
    + exact Hcents.
    + rewrite Hcents. apply Qabs_Qle_condition.
      unfold Qdiv. change (/ 100)%Q with (1 # 100)%Q. split; lra.
Qed.

(** X21: removing the dollar sign and the thousands separators from an
    amount written with [,.2f] and reading it with [float] gives the amount
    rounded to the cent: a whole number of cents, at most half a cent away
    from the amount. *)
Theorem formatted_amount_reads_back (x : Q) :
  exists (amount : Q) (cents : Z),
    py_float (without_separators ("$" ++ format_f true 2 x)) = Ret amount
    /\ (amount == inject_Z cents / 100)%Q
    /\ (Qabs (amount - x) <= 1 # 200)%Q.
Proof.
  destruct (read_back_near x) as [cents [Hcents Hnear]].
  exists (read_back x), cents.
  split; [apply formatted_amount_value|]. now split.
Qed.

(** ** The time prediction of the crypto page *)

Lemma prefix_dollar (s : string) : String.prefix "$" (String "$" s) = true.
Proof.
  cbn [String.prefix].
  destruct (ascii_dec "$" "$"); [now destruct s|congruence].
Qed.

Lemma without_separators_dollar (s : string) :
  remove_char "," (remove_char "$" (String "$" s)) = without_separators ("$" ++ s).
Proof. reflexivity. Qed.

(** X23: with a series that is not empty, a positive market cap and a
    non-zero supply and price, the time prediction of the crypto page is the
    projection from the market cap to the target market cap rounded to the
    cent; when the series is empty or missing, or the market cap is a number
    that is not positive, or the supply or the price is missing, it stays
    "N/A". *)
Theorem time_prediction_value (md : market_data) (target_price : Q)
    (historical_data : option (list (Q * Q)))
    (target_mcap growth user_growth : string) :
  analyze_network_growth md target_price = Ret (target_mcap, growth, user_growth) ->
  (forall c cap : Q,
      series_truthy historical_data = true ->
      ~ (falsy (supply_of md) \/ is_zero (price_of md)) ->
      supply_of md = VNum c -> cap_of md = VNum cap -> (0 < cap)%Q ->
      exists target : Q,
        (Qabs (target - target_price * c) <= 1 # 200)%Q
        /\ time_prediction historical_data (cap_of md) target_mcap
           = predict_time_to_target historical_data cap target)
  /\ (series_truthy historical_data = false
      \/ (exists cap : Q, cap_of md = VNum cap /\ (cap <= 0)%Q)
      \/ ((falsy (supply_of md) \/ is_zero (price_of md)) /\ cap_of md <> VNone) ->
      time_prediction historical_data (cap_of md) target_mcap = Ret "N/A").
Proof.
  intro H. split.
  - intros c cap Hseries Hg Hs Hcap Hpos.
    rewrite (network_growth_numbers md target_price c cap Hg Hs Hcap) in H.
    injection H as <- _ _.
    destruct (read_back_near (target_price * c)) as [cents [_ Hnear]].
    exists (read_back (target_price * c)). split; [exact Hnear|].
    unfold time_prediction. rewrite Hseries, Hcap. cbn [py_gt bind].
    apply Qlt_bool_true in Hpos. rewrite Hpos.
    cbn [andb append]. rewrite prefix_dollar, without_separators_dollar.
    now rewrite formatted_amount_value.
  - unfold time_prediction.
    intros [Hseries|[[cap [Hcap Hle]]|[Hg Hcap]]].
    + now rewrite Hseries.
    + destruct (series_truthy historical_data); [|reflexivity].
      rewrite Hcap. cbn [py_gt bind]. apply Qlt_bool_false in Hle. now rewrite Hle.
    + destruct (series_truthy historical_data); [|reflexivity].
      rewrite (network_growth_guard md target_price Hg) in H. injection H as <- _ _.
      destruct (cap_of md) as [|cap]; [contradiction|]. cbn [py_gt bind].
      now rewrite andb_false_r.
Qed.

Lemma time_prediction_value_witness :
  exists target : Q,
    (Qabs (target - 0 * 5) <= 1 # 200)%Q
    /\ time_prediction (Some one_percent_caps) (VNum 10) "$0.00"
       = predict_time_to_target (Some one_percent_caps) 10 target.
Proof.
  apply (proj1 (time_prediction_value
                  {| max_supply := None; circulating_supply := Some (VNum 5);
                     market_cap := Some (VNum 10); current_price := Some (VNum 2) |}
                  0 (Some one_percent_caps) "$0.00" "0.00x" "1.00x"
                  ltac:(vm_compute; reflexivity))
           5%Q 10%Q); try reflexivity.
  cbn. intros [E|E]; discriminate E.
Defined.

(** ** Grades and scarcity *)

Lemma crypto_grade_cases (score : Z) :
  (90 <= score /\ fst (crypto_grade score) = "A+")
  \/ (80 <= score < 90 /\ fst (crypto_grade score) = "A")
  \/ (70 <= score < 80 /\ fst (crypto_grade score) = "B+")
  \/ (score < 70
      /\ (fst (crypto_grade score) = "B" \/ fst (crypto_grade score) = "C"
          \/ fst (crypto_grade score) = "D")).
Proof.
  unfold crypto_grade.
  destruct (Z.leb_spec 90 score); [left; now split|].
  destruct (Z.leb_spec 80 score); [right; left; split; [lia|reflexivity]|].
  destruct (Z.leb_spec 70 score); [right; right; left; split; [lia|reflexivity]|].
  right. right. right. split; [lia|].
  destruct (60 <=? score); [now left|].
  destruct (50 <=? score); [right; now left|right; now right].
Qed.

(** X24: the grade of a coin is bounded by its scarcity: the grade "A+"
    needs a scarcity score of 8 at least, and a coin without a defined max
    supply (scarcity score 0) gets a "B" at best. *)
Theorem crypto_grade_needs_scarcity (symbol : string) (md : market_data)
    (historical_caps : option (list (Q * Q)))
    (scarcity_score : Z) (description score grade summary : string)
    (reasons : list string) :
  calculate_scarcity_score md = Ret (scarcity_score, description) ->
  generate_final_analysis symbol md historical_caps
  = Ret (score, grade, summary, reasons) ->
  (grade = "A+" -> 8 <= scarcity_score)
  /\ (no_max_supply md -> grade = "B" \/ grade = "C" \/ grade = "D").
Proof.
  intros Hs H.
  assert (Hraw : exists raw : Z,
            raw <= scarcity_score * 4 + 60 /\ grade = fst (crypto_grade (clamp raw))).
  { unfold generate_final_analysis in H.
    destruct (crypto_tally symbol md historical_caps) as [[raw rs]|e] eqn:Ht;
      cbn [bind fst snd] in H; [|discriminate].
    exists raw. split.
    - destruct (crypto_tally_shape symbol md historical_caps raw rs Ht)
        as [s [d [line [g [c [gl [cl [Hs' [-> [_ [Hg [Hc _]]]]]]]]]]]].
      rewrite Hs in Hs'. injection Hs' as <- _. lia.
    - destruct (crypto_grade (clamp raw)) as [gr sm]. now injection H as _ <- _ _. }
  destruct Hraw as [raw [Hbound ->]].
  pose proof (crypto_grade_cases (clamp raw)) as Hcases.
  unfold clamp in *. split.
  - intro HA.
    destruct Hcases as [[Hr _]|[[_ E]|[[_ E]|[_ [E|[E|E]]]]]];
      try (rewrite E in HA; discriminate HA). lia.
  - intro Hno. rewrite (scarcity_no_max md Hno) in Hs. injection Hs as <- _.
    destruct Hcases as [[Hr _]|[[Hr _]|[[Hr _]|[_ E]]]]; try lia. exact E.
Qed.

Lemma crypto_grade_needs_scarcity_witness :
  ("D" = "A+" -> 8 <= 0)
  /\ (no_max_supply declining_giant -> "D" = "B" \/ "D" = "C" \/ "D" = "D").
Proof.
  apply (crypto_grade_needs_scarcity "eth" declining_giant (Some declining_caps)
           0 "Indeterminate (No defined max supply)" "0/100" "D"
           "High-Risk. Shows significant red flags in its fundamental data."
           ["[-] Weak Scarcity: Asset is inflationary or has no defined max supply.";
            "[-] Negative Growth: Network value has been declining recently.";
            "[-] Limited Upside: Very large market cap may limit exponential returns."]);
    vm_compute; reflexivity.
Defined.

(** ** A series that never rises, in floating point *)

(** Rounding keeps a number that is not positive from becoming positive. *)
Lemma round64_non_positive (x : Q) : (x <= 0)%Q -> (round64 x <= 0)%Q.
Proof.
  intro Hx. unfold round64.
  destruct (Qeq_bool x 0) eqn:Hz; [apply Qle_refl|].
  apply Qeq_bool_false in Hz.
  assert (Hneg : (x < 0)%Q).
  { destruct (Qlt_le_dec x 0) as [L|G]; [exact L|].
    exfalso. apply Hz. now apply Qle_antisym. }
  apply Qlt_bool_true in Hneg. rewrite Hneg.
  set (ulp := pow2 (binade (Qabs x) - 52)).
  pose proof (pow2_positive (binade (Qabs x) - 52)) as Hulp. fold ulp in Hulp.
  assert (Hs : 0 <= py_round (Qabs x / ulp)).
  { apply py_round_nonneg. apply Qle_shift_div_l; [exact Hulp|].
    rewrite Qmult_0_l. apply Qabs_nonneg. }
  rewrite Qred_correct.
  assert (Hq : (0 <= inject_Z (py_round (Qabs x / ulp)))%Q)
    by (change 0%Q with (inject_Z 0); now rewrite <- Zle_Qle).
  assert (Hp : (0 <= inject_Z (py_round (Qabs x / ulp)) * ulp)%Q)
    by (apply Qmult_le_0_compat; [exact Hq|now apply Qlt_le_weak]).
  lra.
Qed.

Lemma float_growth_rates_non_positive
    (sum : list Q -> Q) (log : Q -> outcome R) (quot : R -> R -> R) (values : list Q) :
  non_increasing values ->
  Forall (fun rate => (rate <= 0)%Q) (growth_rates_in (binary64 sum log quot) values).
Proof.
  induction values as [|prev rest IH]; [constructor|].
  destruct rest as [|curr rest']; [constructor|].
  intros [Hle Hrest]. rewrite growth_rates_in_step.
  destruct (Qlt_bool 0 prev) eqn:Hp; [|now apply IH].
  constructor; [|now apply IH].
  apply Qlt_bool_true in Hp. cbn [a_div a_sub binary64].
  apply round64_non_positive.
  apply Qle_shift_div_r; [exact Hp|]. rewrite Qmult_0_l.
  apply round64_non_positive. lra.
Qed.

Lemma float_sum_non_positive (rates : list Q) :
  Forall (fun rate => (rate <= 0)%Q) rates ->
  forall a : Q, (a <= 0)%Q ->
    (fold_left (fun total rate => round64 (total + rate)) rates a <= 0)%Q.
Proof.
  induction 1 as [|x l Hx _ IH]; intros a Ha; cbn [fold_left]; [exact Ha|].
  apply IH. apply round64_non_positive. lra.
Qed.

(** The sum by rounded additions of rates that are not positive is not
    positive. *)
Lemma float_sum_keeps_non_positive : keeps_non_positive float_sum.
Proof.
  intros rates Hall. apply float_sum_non_positive; [exact Hall|apply Qle_refl].
Qed.

Lemma float_average_non_positive
    (sum : list Q -> Q) (log : Q -> outcome R) (quot : R -> R -> R) (rates : list Q) :
  keeps_non_positive sum ->
  Forall (fun rate => (rate <= 0)%Q) rates -> is_empty rates = false ->
  (average_in (binary64 sum log quot) rates <= 0)%Q.
Proof.
  intros Hsum Hall Hne. unfold average_in. cbn [a_div a_sum binary64].
  apply round64_non_positive.
  apply Qle_shift_div_r.
  - destruct rates as [|x l]; [discriminate|].
    change 0%Q with (inject_Z 0). rewrite <- Zlt_Qlt. cbn [List.length]. lia.
  - rewrite Qmult_0_l. now apply Hsum.
Qed.

(** X25: in floating point too, with a [sum] that keeps rates that are not
    positive from adding up to a positive number (as the sum by rounded
    additions does), a series that never rises (each value at most its
    predecessor) and has a usable pair is answered, for a target above the
    current value, with the result of the non-positive growth, by both
    projections and whatever the logarithm is: each rate computed is at most
    0, and so are their sum and their mean. *)
Theorem never_rising_series_in_floating_point
    (sum : list Q -> Q) (log : Q -> outcome R) (quot : R -> R -> R)
    (caps : list (Q * Q)) (prices : list Q) (C T : Q) :
  keeps_non_positive sum ->
  (C < T)%Q ->
  (non_increasing (map snd caps) ->
   mean_growth_in (binary64 sum log quot) (map snd caps) <> None ->
   predict_time_to_target_in (binary64 sum log quot) (Some caps) C T
   = Ret non_positive_message)
  /\ (non_increasing prices ->
      mean_growth_in (binary64 sum log quot) prices <> None ->
      analyze_stock_growth_and_time_in (binary64 sum log quot) (Some prices) C T
      = Ret ("Negative historical growth.", "N/A")).
Proof.
  intros Hsum HT. apply Qle_bool_false in HT.
  split; intros Hmono Hsome.
  - destruct (mean_growth_in (binary64 sum log quot) (map snd caps)) as [g|] eqn:Hmean;
      [|contradiction].
    apply mean_growth_in_some in Hmean as [Hne Havg].
    unfold predict_time_to_target_in. rewrite HT. cbn [series_items bind].
    rewrite Hne.
    assert (Hle : (average_in (binary64 sum log quot)
                     (growth_rates_in (binary64 sum log quot) (map snd caps)) <= 0)%Q).
    { apply float_average_non_positive; [exact Hsum| |exact Hne].
      now apply float_growth_rates_non_positive. }
    apply Qle_bool_iff in Hle. now rewrite Hle.
  - destruct (mean_growth_in (binary64 sum log quot) prices) as [g|] eqn:Hmean;
      [|contradiction].
    apply mean_growth_in_some in Hmean as [Hne Havg].
    unfold analyze_stock_growth_and_time_in. rewrite HT. cbn [series_items bind].
    rewrite Hne.
    assert (Hle : (average_in (binary64 sum log quot)
                     (growth_rates_in (binary64 sum log quot) prices) <= 0)%Q).
    { apply float_average_non_positive; [exact Hsum| |exact Hne].
      now apply float_growth_rates_non_positive. }
    apply Qle_bool_iff in Hle. now rewrite Hle.
Qed.

Lemma never_rising_series_in_floating_point_witness :
  predict_time_to_target_in (binary64 float_sum math_log Rdiv)
    (Some [(0, 1320); (1, 1100); (2, 1100); (3, 924)]%Q) 50 60
  = Ret non_positive_message.
Proof.
  apply (proj1 (never_rising_series_in_floating_point
                  float_sum math_log Rdiv
                  [(0, 1320); (1, 1100); (2, 1100); (3, 924)]%Q []
                  50 60 float_sum_keeps_non_positive eq_refl)).
  - cbn. repeat split; discriminate.
  - vm_compute. discriminate.
Defined.

(** ** The scarcity score in floating point *)

Lemma round64_non_negative (x : Q) : (0 <= x)%Q -> (0 <= round64 x)%Q.
Proof.
  intro Hx. unfold round64.
  destruct (Qeq_bool x 0) eqn:Hz; [apply Qle_refl|].
  assert (Hpos : Qlt_bool x 0 = false) by now apply Qlt_bool_false.
  rewrite Hpos, Qred_correct.
  apply Qmult_le_0_compat; [|apply Qlt_le_weak, pow2_positive].
  change 0%Q with (inject_Z 0). rewrite <- Zle_Qle.
  apply py_round_nonneg. apply Qle_shift_div_l; [apply pow2_positive|].
  rewrite Qmult_0_l. apply Qabs_nonneg.
Qed.

(** Rounding raises a number that is not negative by a thousandth at
    most. *)
Lemma round64_upper (x : Q) : (0 <= x)%Q -> (round64 x <= x * (1001 # 1000))%Q.
Proof.
  intro Hx. pose proof (round64_error x) as H.
  rewrite (Qabs_pos x Hx) in H.
  apply Qabs_Qle_condition in H as [_ H].
  assert (Heps : (pow2 (- 53) <= 1 # 1000)%Q) by (vm_compute; discriminate).
  assert (Hmul : (x * pow2 (- 53) <= x * (1 # 1000))%Q).
  { rewrite !(Qmult_comm x). now apply Qmult_le_compat_r. }
  lra.
Qed.

(** X26: in floating point too, the score of the scarcity scorer lies in
    [0,10] when there is no defined max supply, or when the circulating
    supply is between 0 and the max supply: the three roundings of the
    ratio, of the percentage and of its tenth cannot carry the tenth past
    10.5. *)
Theorem scarcity_score_range_in_floating_point
    (sum : list Q -> Q) (log : Q -> outcome R) (quot : R -> R -> R)
    (md : market_data) (score : Z) (description : string) :
  calculate_scarcity_score_in (binary64 sum log quot) md = Ret (score, description) ->
  (no_max_supply md
   \/ exists c m : Q,
        max_supply md = Some (VNum m) /\ circulating_supply md = Some (VNum c)
        /\ (0 <= c <= m)%Q) ->
  0 <= score <= 10.
Proof.
  intros Hret [Hno|[c [m [Hm [Hc [H0 Hle]]]]]].
  - rewrite (scarcity_in_no_max _ md Hno) in Hret. injection Hret as <- _. lia.
  - destruct (Qeq_dec m 0) as [Hz|Hnz].
    + rewrite (scarcity_in_no_max _ md) in Hret.
      * injection Hret as <- _. lia.
      * unfold no_max_supply. rewrite Hm. cbn [dict_get]. auto.
    + unfold calculate_scarcity_score_in in Hret. rewrite Hm, Hc in Hret.
      cbn [dict_get truthy py_eq py_div_in] in Hret. unfold div_in in Hret.
      pose proof Hnz as Hnz'. apply Qeq_bool_false in Hnz'. rewrite Hnz' in Hret.
      cbn [negb orb bind a_mul a_div binary64] in Hret.
      injection Hret as <- _.
      assert (Hpos : (0 < m)%Q).
      { destruct (Qlt_le_dec 0 m) as [L|G]; [exact L|].
        exfalso. apply Hnz. apply Qle_antisym; [exact G|]. now apply Qle_trans with c. }
      assert (Hr1 : (0 <= c / m)%Q) by (apply Qle_shift_div_l; [exact Hpos|lra]).
      assert (Hr2 : (c / m <= 1)%Q) by (apply Qle_shift_div_r; [exact Hpos|lra]).
      set (ratio := round64 (c / m)) in *.
      assert (Hratio : (0 <= ratio <= 1001 # 1000)%Q).
      { split; [now apply round64_non_negative|].
        apply Qle_trans with (c / m * (1001 # 1000))%Q; [now apply round64_upper|lra]. }
      set (percentage := round64 (ratio * 100)) in *.
      assert (Hpercentage : (0 <= percentage <= 1003 # 10)%Q).
      { split; [apply round64_non_negative; lra|].
        apply Qle_trans with (ratio * 100 * (1001 # 1000))%Q;
          [apply round64_upper; lra|lra]. }
      set (tenth := round64 (percentage / 10)) in *.
      assert (Htenth : (0 <= tenth <= 101 # 10)%Q).
      { assert (Hd : (0 <= percentage / 10 <= 1003 # 100)%Q).
        { unfold Qdiv. change (/ 10)%Q with (1 # 10)%Q. lra. }
        split; [apply round64_non_negative; lra|].
        apply Qle_trans with (percentage / 10 * (1001 # 1000))%Q;
          [apply round64_upper; lra|lra]. }
      pose proof (py_round_near tenth) as Hnear.
      apply Qabs_Qle_condition in Hnear as [Hlo Hhi].
      pose proof (py_round_nonneg tenth (proj1 Htenth)) as Hge.
      split; [exact Hge|].
      assert (Hlt : (inject_Z (py_round tenth) < inject_Z 11)%Q)
        by (change (inject_Z 11) with 11%Q; lra).
      rewrite <- Zlt_Qlt in Hlt. lia.
Qed.

Lemma scarcity_score_range_in_floating_point_witness :
  0 <= 9 <= 10.
Proof.
  apply (scarcity_score_range_in_floating_point float_sum math_log Rdiv
           (snapshot (Some (VNum 21000000)) (Some (VNum 19000000)))
           9 "90.48% of max supply is in circulation.").
  - vm_compute. reflexivity.
  - right. exists 19000000%Q, 21000000%Q.
    split; [reflexivity|]. split; [reflexivity|]. split; discriminate.
Defined.
